(** * llmcloud operator: the VirtualMachine and Project reconcilers

    A shallow embedding of the two control loops of the operator
    (package [controller]) and of the API types they act on
    (package [v1alpha1]), followed by the properties of the reconciliation
    engine.

    Layout:
    - Go values: strings, errors, unstructured (JSON-like) objects;
    - [metav1]: object metadata and status conditions;
    - [v1alpha1]: VirtualMachine and Project types, the OS image table;
    - the API server the reconcilers talk to through [client.Client]:
      an in-memory object store with an injected-fault script, a clock
      and a log of the requests it served;
    - [VirtualMachineReconciler] and [ProjectReconciler];
    - [Server]: the handler of the VM actions of the API server, which
      asks the reconciler for a reboot;
    - the theorems. *)

From Stdlib Require Import ZArith Ascii String List Lia.
From stdpp Require Import base option list strings gmap fin_maps.

Set Warnings "-register-all".

Local Open Scope Z_scope.
Local Open Scope string_scope.

(** ** Go strings *)

(** The one-byte string holding a line feed, Go's ["\n"]. *)
Definition nl : string := String "010"%char EmptyString.

(** [strings.Join]. *)
Fixpoint Join (elems : list string) (sep : string) : string :=
  match elems with
  | [] => ""
  | [s] => s
  | s :: rest => s +:+ sep +:+ Join rest sep
  end.

(** Index of the last byte of [s] equal to [c], or [-1]: the backwards
    loop of [splitImageTag]. *)
Fixpoint last_index (c : ascii) (s : string) (i : Z) : Z :=
  match s with
  | EmptyString => -1
  | String a s' =>
      let later := last_index c s' (i + 1) in
      if Z.eqb later (-1) then (if Ascii.eqb a c then i else -1) else later
  end.

(** ** Go errors *)

(** The reasons of a [StatusError] of the API machinery that matter to
    the reconcilers. *)
Inductive StatusReason : Type :=
| StatusReasonNotFound
| StatusReasonAlreadyExists
| StatusReasonConflict
| StatusReasonInvalid
| StatusReasonInternalError.

(** A Go [error] value: an API status error, a plain error, or
    [fmt.Errorf("...: %w", err)] wrapping another error. *)
Inductive error : Type :=
| StatusError (reason : StatusReason) (msg : string)
| PlainError (msg : string)
| Errorf (prefix : string) (wrapped : error).

(** [err.Error()]. *)
Fixpoint Error_ (e : error) : string :=
  match e with
  | StatusError _ msg => msg
  | PlainError msg => msg
  | Errorf prefix wrapped => prefix +:+ Error_ wrapped
  end.

(** The innermost error of a chain of [%w] wrappings. *)
Fixpoint root_cause (e : error) : error :=
  match e with
  | Errorf _ wrapped => root_cause wrapped
  | _ => e
  end.

(** [errors.IsNotFound] and [errors.IsConflict]: the reason of the first
    status error found by unwrapping. *)
Definition IsNotFound (e : error) : bool :=
  match root_cause e with
  | StatusError StatusReasonNotFound _ => true
  | _ => false
  end.


(** [client.IgnoreNotFound]. *)
Definition IgnoreNotFound (err : option error) : option error :=
  match err with
  | Some e => if IsNotFound e then None else Some e
  | None => None
  end.

(** ** Unstructured objects

    [map[string]interface{}] trees as built by [buildKubeVirtVM] and as
    returned for KubeVirt objects.  A map is kept as the list of its
    fields; a Go map has no two fields of one name, see [wf_value]. *)
Inductive value : Type :=
| VString (s : string)
| VInt (n : Z)
| VList (l : list value)
| VMap (m : list (string * value)).

(** [m[k]], with the comma-ok result as an option. *)
Fixpoint field (k : string) (m : list (string * value)) : option value :=
  match m with
  | [] => None
  | (k', v) :: m' => if String.eqb k k' then Some v else field k m'
  end.

(** [m[k] = v]: replaces the field in place, or adds it. *)
Fixpoint set_field (k : string) (v : value) (m : list (string * value))
  : list (string * value) :=
  match m with
  | [] => [(k, v)]
  | (k', old) :: m' =>
      if String.eqb k k' then (k', v) :: m' else (k', old) :: set_field k v m'
  end.

(** [x.(string)] and [x.(map[string]interface{})] on an optional field. *)
Definition as_string (x : option value) : option string :=
  match x with Some (VString s) => Some s | _ => None end.

Definition as_map (x : option value) : option (list (string * value)) :=
  match x with Some (VMap m) => Some m | _ => None end.

Definition as_list (x : option value) : option (list value) :=
  match x with Some (VList l) => Some l | _ => None end.

(** [unstructured.NestedFieldNoCopy]: the value at a path of field names. *)
Fixpoint NestedField (obj : value) (fields : list string) : option value :=
  match fields with
  | [] => Some obj
  | f :: rest =>
      match obj with
      | VMap m => match field f m with
                  | Some v => NestedField v rest
                  | None => None
                  end
      | _ => None
      end
  end.

(** An [unstructured.Unstructured] is its [Object], a map. *)
Abbreviation Unstructured := (list (string * value)) (only parsing).

(** [unstructured.NestedString], found-and-a-string as an option. *)
Definition NestedString (obj : Unstructured) (fields : list string) : option string :=
  as_string (NestedField (VMap obj) fields).

(** [unstructured.NestedMap]: the map at the path, the nil map when it is
    absent or not a map. *)
Definition NestedMap (obj : Unstructured) (fields : list string) : Unstructured :=
  match as_map (NestedField (VMap obj) fields) with
  | Some m => m
  | None => []
  end.

(** [unstructured.SetNestedField]: walks the maps along [fields], creating
    the missing ones, and sets the last field; fails when a value on the
    way is not a map. *)
Fixpoint SetNestedField (obj : Unstructured) (v : value)
    (fields : list string) : error + Unstructured :=
  match fields with
  | [] => inr obj
  | [f] => inr (set_field f v obj)
  | f :: rest =>
      match field f obj with
      | Some (VMap sub) =>
          match SetNestedField sub v rest with
          | inr sub' => inr (set_field f (VMap sub') obj)
          | inl e => inl e
          end
      | Some _ =>
          inl (PlainError ("value cannot be set because " +:+ f +:+
                           " is not a map[string]interface{}"))
      | None =>
          match SetNestedField [] v rest with
          | inr sub' => inr (set_field f (VMap sub') obj)
          | inl e => inl e
          end
      end
  end.

(** [GetName] and [GetNamespace] of an unstructured object: the empty
    string when the field is missing. *)
Definition GetName (obj : Unstructured) : string :=
  default "" (NestedString obj ["metadata"; "name"]).

Definition GetNamespace (obj : Unstructured) : string :=
  default "" (NestedString obj ["metadata"; "namespace"]).

(** No map of the tree has two fields of one name. *)
Fixpoint wf_value (v : value) : bool :=
  match v with
  | VString _ | VInt _ => true
  | VList l => forallb wf_value l
  | VMap m =>
      (fix go (m : list (string * value)) (seen : list string) : bool :=
         match m with
         | [] => true
         | (k, x) :: m' =>
             negb (existsb (String.eqb k) seen) && wf_value x && go m' (k :: seen)
         end) m []
  end.

(** Server-side apply with forced ownership, on the fields of the applied
    configuration: a field the configuration sets is merged into the stored
    object (maps field by field, anything else replaced as a whole), a
    field it does not mention is kept. *)
Fixpoint apply_value (desired : value) : value -> value :=
  match desired with
  | VMap dm =>
      fun existing =>
        match existing with
        | VMap em =>
            VMap (fold_left
                    (fun em kv =>
                       set_field (fst kv)
                         (match field (fst kv) em with
                          | Some old => apply_value (snd kv) old
                          | None => snd kv
                          end) em) dm em)
        | _ => desired
        end
  | _ => fun _ => desired
  end.

(** The merge of two objects. *)
Definition apply_object (desired existing : Unstructured) : Unstructured :=
  fold_left
    (fun em kv =>
       set_field (fst kv)
         (match field (fst kv) em with
          | Some old => apply_value (snd kv) old
          | None => snd kv
          end) em) desired existing.

(** ** Package metav1: metadata and status conditions *)

Module metav1.

(** [metav1.Time] as an instant on the store's clock; [0] is the zero
    value of the type. *)
Definition Time : Type := Z.

(** [IsZero] on a [Time] pointer: nil or the zero instant. *)
Definition IsZero (t : option Time) : bool :=
  match t with
  | None => true
  | Some t => Z.eqb t 0
  end.

Inductive ConditionStatus : Type :=
| ConditionTrue
| ConditionFalse
| ConditionUnknown.

#[global] Instance ConditionStatus_eq_dec : EqDecision ConditionStatus.
Proof. solve_decision. Defined.

Record Condition : Type := mkCondition {
  Type_ : string;
  Status : ConditionStatus;
  ObservedGeneration : Z;
  LastTransitionTime : Time;
  Reason : string;
  Message : string
}.

#[global] Instance Condition_eq_dec : EqDecision Condition.
Proof. solve_decision. Defined.

(** The part of [ObjectMeta] the reconcilers read or write.  A nil
    annotation map reads like an empty one and is kept as such. *)
Record ObjectMeta : Type := mkObjectMeta {
  Name : string;
  Namespace : string;
  Generation : Z;
  DeletionTimestamp : option Time;
  Finalizers : list string;
  Annotations : gmap string string
}.

Definition set_Finalizers (f : list string) (m : ObjectMeta) : ObjectMeta :=
  mkObjectMeta (Name m) (Namespace m) (Generation m) (DeletionTimestamp m)
    f (Annotations m).

Definition set_Annotations (a : gmap string string) (m : ObjectMeta) : ObjectMeta :=
  mkObjectMeta (Name m) (Namespace m) (Generation m) (DeletionTimestamp m)
    (Finalizers m) a.

(** [controllerutil.ContainsFinalizer], [AddFinalizer], [RemoveFinalizer]. *)
Definition ContainsFinalizer (m : ObjectMeta) (finalizer : string) : bool :=
  existsb (String.eqb finalizer) (Finalizers m).

Definition AddFinalizer (m : ObjectMeta) (finalizer : string) : ObjectMeta :=
  if ContainsFinalizer m finalizer then m
  else set_Finalizers (Finalizers m ++ [finalizer])%list m.

Definition RemoveFinalizer (m : ObjectMeta) (finalizer : string) : ObjectMeta :=
  set_Finalizers
    (List.filter (fun e => negb (String.eqb e finalizer)) (Finalizers m)) m.

(** [meta.FindStatusCondition]. *)
Fixpoint FindStatusCondition (conditions : list Condition) (conditionType : string)
  : option Condition :=
  match conditions with
  | [] => None
  | c :: rest =>
      if String.eqb (Type_ c) conditionType then Some c
      else FindStatusCondition rest conditionType
  end.

(** What [meta.SetStatusCondition] does to the condition it found: the
    transition time moves only when the status changes. *)
Definition update_condition (now : Time) (existing new : Condition) : Condition :=
  mkCondition (Type_ existing) (Status new) (ObservedGeneration new)
    (if decide (Status existing = Status new) then LastTransitionTime existing
     else if Z.eqb (LastTransitionTime new) 0 then now
     else LastTransitionTime new)
    (Reason new) (Message new).

(** [meta.SetStatusCondition], reading the clock as [now]. *)
Fixpoint SetStatusCondition (now : Time) (conditions : list Condition)
    (newCondition : Condition) : list Condition :=
  match conditions with
  | [] =>
      [mkCondition (Type_ newCondition) (Status newCondition)
         (ObservedGeneration newCondition)
         (if Z.eqb (LastTransitionTime newCondition) 0 then now
          else LastTransitionTime newCondition)
         (Reason newCondition) (Message newCondition)]
  | c :: rest =>
      if String.eqb (Type_ c) (Type_ newCondition)
      then update_condition now c newCondition :: rest
      else c :: SetStatusCondition now rest newCondition
  end.

End metav1.

(** ** Package v1alpha1: virtualmachine_types.go *)

Module virtualmachine_types.

(** VirtualMachine phase constants. *)
Definition PhaseRunning : string := "Running".
Definition PhasePending : string := "Pending".

Record VirtualMachineSpec : Type := mkVirtualMachineSpec {
  CPUs : Z;                 (* int32 *)
  Memory : string;
  DiskSize : string;
  OS : string;
  OSVersion : string;
  CloudInit : string;
  SSHKeys : list string;
  RunStrategy : string;
  StorageClass : string
}.

#[global] Instance VirtualMachineSpec_eq_dec : EqDecision VirtualMachineSpec.
Proof. solve_decision. Defined.

Record VirtualMachineStatus : Type := mkVirtualMachineStatus {
  Phase : string;
  Node : string;
  IPAddress : string;
  Ready : bool;
  Conditions : list metav1.Condition
}.

Record VirtualMachine : Type := mkVirtualMachine {
  ObjectMeta : metav1.ObjectMeta;
  Spec : VirtualMachineSpec;
  Status : VirtualMachineStatus
}.

(** The promoted fields [vm.Name], [vm.Namespace], [vm.Generation]. *)
Definition Name (vm : VirtualMachine) : string := metav1.Name (ObjectMeta vm).
Definition Namespace (vm : VirtualMachine) : string := metav1.Namespace (ObjectMeta vm).
Definition Generation (vm : VirtualMachine) : Z := metav1.Generation (ObjectMeta vm).

Definition set_ObjectMeta (m : metav1.ObjectMeta) (vm : VirtualMachine) : VirtualMachine :=
  mkVirtualMachine m (Spec vm) (Status vm).

Definition set_Status (s : VirtualMachineStatus) (vm : VirtualMachine) : VirtualMachine :=
  mkVirtualMachine (ObjectMeta vm) (Spec vm) s.

(** [OSImageMap], in the order of the source. *)
Definition OSImageTable : list (string * string) :=
  [ ("ubuntu",  "quay.io/containerdisks/ubuntu:22.04");
    ("fedora",  "quay.io/containerdisks/fedora:39");
    ("debian",  "quay.io/containerdisks/debian:12");
    ("centos",  "quay.io/containerdisks/centos-stream:9");
    ("alpine",  "quay.io/containerdisks/alpine:3.19");
    ("cirros",  "quay.io/kubevirt/cirros-container-disk-demo:latest");
    ("freebsd", "quay.io/containerdisks/freebsd:13.2") ].

Definition OSImageMap : gmap string string := list_to_map OSImageTable.

(** [splitImageTag]: the repository and the tag of an image, split at the
    last colon; the two elements of the returned slice as a pair. *)
Definition splitImageTag (image : string) : string * string :=
  let idx := last_index ":"%char image 0 in
  if Z.ltb 0 idx
  then (String.substring 0 (Z.to_nat idx) image,
        String.substring (Z.to_nat (idx + 1))
          (String.length image - Z.to_nat (idx + 1)) image)
  else (image, "latest").

(** [GetImageForOS]. *)
Definition GetImageForOS (os version : string) : string :=
  let default_image :=
    match OSImageMap !! os with
    | Some img => img
    | None => default "" (OSImageMap !! "cirros")
    end in
  if negb (String.eqb version "") then
    let versionedKey := os +:+ ":" +:+ version in
    match OSImageMap !! versionedKey with
    | Some img => img
    | None =>
        let baseImage := default "" (OSImageMap !! os) in
        if negb (String.eqb baseImage "") then
          let parts := splitImageTag baseImage in
          fst parts +:+ ":" +:+ version
        else default_image
    end
  else default_image.

End virtualmachine_types.

(** ** Package v1alpha1: project_types.go *)

Module project_types.

Record ProjectMember : Type := mkProjectMember {
  Username : string;
  Role : string
}.

Record ProjectResourceQuotas : Type := mkProjectResourceQuotas {
  MaxVMs : option Z;
  MaxLLMModels : option Z;
  MaxCPU : option string;
  MaxMemory : option string
}.

Record ProjectSpec : Type := mkProjectSpec {
  Description : string;
  Members : list ProjectMember;
  ResourceQuotas : option ProjectResourceQuotas
}.

#[global] Instance ProjectMember_eq_dec : EqDecision ProjectMember.
Proof. solve_decision. Defined.
#[global] Instance ProjectResourceQuotas_eq_dec : EqDecision ProjectResourceQuotas.
Proof. solve_decision. Defined.
#[global] Instance ProjectSpec_eq_dec : EqDecision ProjectSpec.
Proof. solve_decision. Defined.

Record ProjectStatus : Type := mkProjectStatus {
  Namespace : string;
  Phase : string;
  VMCount : Z;
  LLMModelCount : Z;
  ServiceCount : Z;
  Conditions : list metav1.Condition
}.

Record Project : Type := mkProject {
  ObjectMeta : metav1.ObjectMeta;
  Spec : ProjectSpec;
  Status : ProjectStatus
}.

Definition Name (p : Project) : string := metav1.Name (ObjectMeta p).
Definition Generation (p : Project) : Z := metav1.Generation (ObjectMeta p).

Definition set_ObjectMeta (m : metav1.ObjectMeta) (p : Project) : Project :=
  mkProject m (Spec p) (Status p).

Definition set_Status (s : ProjectStatus) (p : Project) : Project :=
  mkProject (ObjectMeta p) (Spec p) s.

End project_types.

(** ** Core objects the Project reconciler writes *)

Module corev1.

(** A namespace: its name, labels and the name of its controller owner
    (the owner reference set by [SetControllerReference]). *)
Record Namespace : Type := mkNamespace {
  Name : string;
  Labels : gmap string string;
  Controller : option string
}.

Definition set_Labels (l : gmap string string) (ns : Namespace) : Namespace :=
  mkNamespace (Name ns) l (Controller ns).

End corev1.

Module rbacv1.

Record Subject : Type := mkSubject {
  SubjectKind : string;
  SubjectName : string
}.

Record RoleRef : Type := mkRoleRef {
  APIGroup : string;
  RoleRefKind : string;
  RoleRefName : string
}.

#[global] Instance RoleRef_eq_dec : EqDecision RoleRef.
Proof. solve_decision. Defined.

Record RoleBinding : Type := mkRoleBinding {
  Name : string;
  Namespace : string;
  Labels : gmap string string;
  Subjects : list Subject;
  RoleRef_ : RoleRef
}.

End rbacv1.

(** ** The API server behind [client.Client]

    The reconcilers reach the cluster only through the calls of the
    embedded [client.Client].  The cluster is an object store keyed by kind,
    namespace and name.  Every call may fail for a reason of the cluster's
    own (a conflicting concurrent write, a server or transport failure):
    the [faults] script says, call by call, whether the next call is served
    or refused.  The store keeps a log of the calls and of what it answered,
    and a clock read by [time.Now]. *)

Inductive fault : Type :=
| FaultConflict
| FaultInternal (msg : string)
| FaultTransport (msg : string).

Definition fault_error (f : fault) : error :=
  match f with
  | FaultConflict =>
      StatusError StatusReasonConflict
        "the object has been modified; please apply your changes to the latest version and try again"
  | FaultInternal msg => StatusError StatusReasonInternalError msg
  | FaultTransport msg => PlainError msg
  end.

(** Keys of namespaced objects: namespace, then name. *)
Abbreviation ObjectKey := (string * string)%type (only parsing).

Inductive Request : Type :=
| Get_VirtualMachine (key : ObjectKey)
| Update_VirtualMachine (vm : virtualmachine_types.VirtualMachine)
| StatusUpdate_VirtualMachine (vm : virtualmachine_types.VirtualMachine)
| Get_KubeVirtVM (key : ObjectKey)
| Update_KubeVirtVM (obj : list (string * value))
| Apply_KubeVirtVM (obj : list (string * value))
| Delete_KubeVirtVM (key : ObjectKey)
| Get_KubeVirtVMI (key : ObjectKey)
| Get_Project (name : string)
| Update_Project (p : project_types.Project)
| StatusUpdate_Project (p : project_types.Project)
| Get_Namespace (name : string)
| Create_Namespace (ns : corev1.Namespace)
| Update_Namespace (ns : corev1.Namespace)
| Get_RoleBinding (key : ObjectKey)
| Create_RoleBinding (rb : rbacv1.RoleBinding)
| Update_RoleBinding (rb : rbacv1.RoleBinding).

Record World : Type := mkWorld {
  virtualmachines : gmap (string * string) virtualmachine_types.VirtualMachine;
  kubevirt_vms : gmap (string * string) (list (string * value));
  kubevirt_vmis : gmap (string * string) (list (string * value));
  projects : gmap string project_types.Project;
  namespaces : gmap string corev1.Namespace;
  rolebindings : gmap (string * string) rbacv1.RoleBinding;
  clock : metav1.Time;
  faults : list (option fault);
  served : list (Request * option error)
}.

Definition set_virtualmachines (m : gmap (string * string) virtualmachine_types.VirtualMachine)
    (w : World) : World :=
  mkWorld m (kubevirt_vms w) (kubevirt_vmis w) (projects w) (namespaces w)
    (rolebindings w) (clock w) (faults w) (served w).

Definition set_kubevirt_vms (m : gmap (string * string) (list (string * value))) (w : World) : World :=
  mkWorld (virtualmachines w) m (kubevirt_vmis w) (projects w) (namespaces w)
    (rolebindings w) (clock w) (faults w) (served w).

Definition set_projects (m : gmap string project_types.Project) (w : World) : World :=
  mkWorld (virtualmachines w) (kubevirt_vms w) (kubevirt_vmis w) m (namespaces w)
    (rolebindings w) (clock w) (faults w) (served w).

Definition set_namespaces (m : gmap string corev1.Namespace) (w : World) : World :=
  mkWorld (virtualmachines w) (kubevirt_vms w) (kubevirt_vmis w) (projects w) m
    (rolebindings w) (clock w) (faults w) (served w).

Definition set_rolebindings (m : gmap (string * string) rbacv1.RoleBinding)
    (w : World) : World :=
  mkWorld (virtualmachines w) (kubevirt_vms w) (kubevirt_vmis w) (projects w)
    (namespaces w) m (clock w) (faults w) (served w).

Definition set_clock (t : metav1.Time) (w : World) : World :=
  mkWorld (virtualmachines w) (kubevirt_vms w) (kubevirt_vmis w) (projects w)
    (namespaces w) (rolebindings w) t (faults w) (served w).

Definition set_faults (f : list (option fault)) (w : World) : World :=
  mkWorld (virtualmachines w) (kubevirt_vms w) (kubevirt_vmis w) (projects w)
    (namespaces w) (rolebindings w) (clock w) f (served w).

Definition set_served (l : list (Request * option error)) (w : World) : World :=
  mkWorld (virtualmachines w) (kubevirt_vms w) (kubevirt_vmis w) (projects w)
    (namespaces w) (rolebindings w) (clock w) (faults w) l.

(** *** Computations against the store *)

Definition M (A : Type) : Type := World -> A * World.

Definition ret {A : Type} (a : A) : M A := fun w => (a, w).

Definition bind {A B : Type} (m : M A) (k : A -> M B) : M B :=
  fun w => let (a, w') := m w in k a w'.

Notation "x <- m ;; k" := (bind m (fun x => k))
  (at level 100, m at next level, right associativity).

(** The error of a result, as Go returns it next to the value. *)
Definition err_of {A : Type} (r : error + A) : option error :=
  match r with
  | inl e => Some e
  | inr _ => None
  end.

(** The object a caller holds after a write: the answer of the store, or
    its own copy when the write failed. *)
Definition refreshed {A : Type} (mine : A) (r : error + A) : A :=
  match r with
  | inr stored => stored
  | inl _ => mine
  end.

(** [time.Now]. *)
Definition Now : M metav1.Time := fun w => (clock w, w).

(** Time passes and the fault script moves on by one entry. *)
Definition tick (w : World) : World :=
  set_clock (clock w + 1) (set_faults (tail (faults w)) w).

(** The log with one more call and its answer. *)
Definition logged (r : Request) (err : option error) (w : World) : World :=
  set_served (served w ++ [(r, err)])%list w.

(** The fault the script holds for the next call, if any. *)
Definition next_fault (w : World) : option fault :=
  match faults w with
  | Some f :: _ => Some f
  | _ => None
  end.

(** One call: time passes, the next entry of the fault script decides
    whether the store serves the call, and the call is logged with its
    answer. *)
Definition call {A : Type} (r : Request) (handler : World -> (error + A) * World)
  : M (error + A) :=
  fun w =>
    match next_fault w with
    | Some f => (inl (fault_error f), logged r (Some (fault_error f)) (tick w))
    | None =>
        let (res, w1) := handler (tick w) in
        (res, logged r (err_of res) w1)
    end.

Definition NotFound (kind name : string) : error :=
  StatusError StatusReasonNotFound (kind +:+ " " +:+ name +:+ " not found").

Definition AlreadyExists (kind name : string) : error :=
  StatusError StatusReasonAlreadyExists (kind +:+ " " +:+ name +:+ " already exists").

(** *** The calls of [client.Client], kind by kind

    [Get] answers with the stored object or NotFound.  [Update] replaces
    the stored object and leaves its status alone ([Status] is a
    subresource of the two custom kinds); the server owns the generation
    (one more for every change of the spec) and the deletion timestamp, and
    it removes an object under deletion once its last finalizer is gone.
    [Status().Update] replaces the status only.  A successful write hands
    the stored object back to the caller. *)

Module client.

Import virtualmachine_types.

Definition vm_key (vm : VirtualMachine) : ObjectKey := (Namespace vm, Name vm).

(** The object as the server hands it out for a key: the metadata
    carries the namespace and name it is stored under. *)
Definition named (key : ObjectKey) (m : metav1.ObjectMeta) : metav1.ObjectMeta :=
  metav1.mkObjectMeta (snd key) (fst key) (metav1.Generation m)
    (metav1.DeletionTimestamp m) (metav1.Finalizers m) (metav1.Annotations m).

(** The metadata the server stores for an update of [old] by [new]. *)
Definition updated_meta (spec_changed : bool) (old new : metav1.ObjectMeta)
  : metav1.ObjectMeta :=
  metav1.mkObjectMeta (metav1.Name new) (metav1.Namespace new)
    (if spec_changed then metav1.Generation old + 1 else metav1.Generation old)
    (metav1.DeletionTimestamp old) (metav1.Finalizers new) (metav1.Annotations new).

(** An object under deletion leaves the store with its last finalizer. *)
Definition released (m : metav1.ObjectMeta) : bool :=
  negb (metav1.IsZero (metav1.DeletionTimestamp m)) &&
  match metav1.Finalizers m with [] => true | _ => false end.

Definition Get (key : ObjectKey) : M (error + VirtualMachine) :=
  call (Get_VirtualMachine key) (fun w =>
    match virtualmachines w !! key with
    | Some vm => (inr (set_ObjectMeta (named key (ObjectMeta vm)) vm), w)
    | None => (inl (NotFound "virtualmachines.llmcloud.llmcloud.io" (snd key)), w)
    end).

Definition Update (vm : VirtualMachine) : M (error + VirtualMachine) :=
  call (Update_VirtualMachine vm) (fun w =>
    match virtualmachines w !! vm_key vm with
    | Some old =>
        let stored :=
          mkVirtualMachine
            (updated_meta (bool_decide (Spec vm <> Spec old))
               (named (vm_key vm) (ObjectMeta old)) (ObjectMeta vm))
            (Spec vm) (Status old) in
        (inr stored,
         set_virtualmachines
           (if released (ObjectMeta stored)
            then delete (vm_key vm) (virtualmachines w)
            else <[vm_key vm := stored]> (virtualmachines w)) w)
    | None => (inl (NotFound "virtualmachines.llmcloud.llmcloud.io" (Name vm)), w)
    end).

Definition StatusUpdate (vm : VirtualMachine) : M (error + VirtualMachine) :=
  call (StatusUpdate_VirtualMachine vm) (fun w =>
    match virtualmachines w !! vm_key vm with
    | Some old =>
        let stored :=
          mkVirtualMachine (named (vm_key vm) (ObjectMeta old)) (Spec old) (Status vm) in
        (inr stored, set_virtualmachines (<[vm_key vm := stored]> (virtualmachines w)) w)
    | None => (inl (NotFound "virtualmachines.llmcloud.llmcloud.io" (Name vm)), w)
    end).

(** KubeVirt objects are unstructured; a write addresses the object named
    by the metadata of the body. *)
Definition object_key (obj : Unstructured) : ObjectKey := (GetNamespace obj, GetName obj).

Definition GetKubeVirtVM (key : ObjectKey) : M (error + Unstructured) :=
  call (Get_KubeVirtVM key) (fun w =>
    match kubevirt_vms w !! key with
    | Some obj => (inr obj, w)
    | None => (inl (NotFound "virtualmachines.kubevirt.io" (snd key)), w)
    end).

Definition UpdateKubeVirtVM (obj : Unstructured) : M (error + Unstructured) :=
  call (Update_KubeVirtVM obj) (fun w =>
    match kubevirt_vms w !! object_key obj with
    | Some _ => (inr obj, set_kubevirt_vms (<[object_key obj := obj]> (kubevirt_vms w)) w)
    | None => (inl (NotFound "virtualmachines.kubevirt.io" (GetName obj)), w)
    end).

(** [Patch] with [client.Apply] and [client.ForceOwnership]: creates the
    object when it is absent, merges the applied fields otherwise. *)
Definition ApplyKubeVirtVM (obj : Unstructured) : M (error + Unstructured) :=
  call (Apply_KubeVirtVM obj) (fun w =>
    let stored :=
      match kubevirt_vms w !! object_key obj with
      | Some old => apply_object obj old
      | None => obj
      end in
    (inr stored, set_kubevirt_vms (<[object_key obj := stored]> (kubevirt_vms w)) w)).

Definition DeleteKubeVirtVM (key : ObjectKey) : M (error + unit) :=
  call (Delete_KubeVirtVM key) (fun w =>
    match kubevirt_vms w !! key with
    | Some _ => (inr tt, set_kubevirt_vms (delete key (kubevirt_vms w)) w)
    | None => (inl (NotFound "virtualmachines.kubevirt.io" (snd key)), w)
    end).

Definition GetKubeVirtVMI (key : ObjectKey) : M (error + Unstructured) :=
  call (Get_KubeVirtVMI key) (fun w =>
    match kubevirt_vmis w !! key with
    | Some obj => (inr obj, w)
    | None => (inl (NotFound "virtualmachineinstances.kubevirt.io" (snd key)), w)
    end).

(** Projects are cluster-scoped: keyed by name, with an empty namespace. *)
Definition GetProject (name : string) : M (error + project_types.Project) :=
  call (Get_Project name) (fun w =>
    match projects w !! name with
    | Some p =>
        (inr (project_types.set_ObjectMeta
                (named ("", name) (project_types.ObjectMeta p)) p), w)
    | None => (inl (NotFound "projects.llmcloud.llmcloud.io" name), w)
    end).

Definition UpdateProject (p : project_types.Project) : M (error + project_types.Project) :=
  call (Update_Project p) (fun w =>
    match projects w !! project_types.Name p with
    | Some old =>
        let stored :=
          project_types.mkProject
            (updated_meta
               (bool_decide (project_types.Spec p <> project_types.Spec old))
               (named ("", project_types.Name p) (project_types.ObjectMeta old))
               (named ("", project_types.Name p) (project_types.ObjectMeta p)))
            (project_types.Spec p) (project_types.Status old) in
        (inr stored,
         set_projects
           (if released (project_types.ObjectMeta stored)
            then delete (project_types.Name p) (projects w)
            else <[project_types.Name p := stored]> (projects w)) w)
    | None => (inl (NotFound "projects.llmcloud.llmcloud.io" (project_types.Name p)), w)
    end).

Definition StatusUpdateProject (p : project_types.Project)
  : M (error + project_types.Project) :=
  call (StatusUpdate_Project p) (fun w =>
    match projects w !! project_types.Name p with
    | Some old =>
        let stored :=
          project_types.mkProject
            (named ("", project_types.Name p) (project_types.ObjectMeta old))
            (project_types.Spec old) (project_types.Status p) in
        (inr stored, set_projects (<[project_types.Name p := stored]> (projects w)) w)
    | None => (inl (NotFound "projects.llmcloud.llmcloud.io" (project_types.Name p)), w)
    end).

Definition GetNamespace (name : string) : M (error + corev1.Namespace) :=
  call (Get_Namespace name) (fun w =>
    match namespaces w !! name with
    | Some ns => (inr (corev1.mkNamespace name (corev1.Labels ns) (corev1.Controller ns)), w)
    | None => (inl (NotFound "namespaces" name), w)
    end).

Definition CreateNamespace (ns : corev1.Namespace) : M (error + corev1.Namespace) :=
  call (Create_Namespace ns) (fun w =>
    match namespaces w !! corev1.Name ns with
    | Some _ => (inl (AlreadyExists "namespaces" (corev1.Name ns)), w)
    | None => (inr ns, set_namespaces (<[corev1.Name ns := ns]> (namespaces w)) w)
    end).

Definition UpdateNamespace (ns : corev1.Namespace) : M (error + corev1.Namespace) :=
  call (Update_Namespace ns) (fun w =>
    match namespaces w !! corev1.Name ns with
    | Some _ => (inr ns, set_namespaces (<[corev1.Name ns := ns]> (namespaces w)) w)
    | None => (inl (NotFound "namespaces" (corev1.Name ns)), w)
    end).

Definition rb_key (rb : rbacv1.RoleBinding) : ObjectKey :=
  (rbacv1.Namespace rb, rbacv1.Name rb).

Definition GetRoleBinding (key : ObjectKey) : M (error + rbacv1.RoleBinding) :=
  call (Get_RoleBinding key) (fun w =>
    match rolebindings w !! key with
    | Some rb =>
        (inr (rbacv1.mkRoleBinding (snd key) (fst key) (rbacv1.Labels rb)
                (rbacv1.Subjects rb) (rbacv1.RoleRef_ rb)), w)
    | None => (inl (NotFound "rolebindings.rbac.authorization.k8s.io" (snd key)), w)
    end).

(** A role binding is created inside an existing namespace. *)
Definition CreateRoleBinding (rb : rbacv1.RoleBinding) : M (error + rbacv1.RoleBinding) :=
  call (Create_RoleBinding rb) (fun w =>
    match namespaces w !! rbacv1.Namespace rb with
    | None => (inl (NotFound "namespaces" (rbacv1.Namespace rb)), w)
    | Some _ =>
        match rolebindings w !! rb_key rb with
        | Some _ =>
            (inl (AlreadyExists "rolebindings.rbac.authorization.k8s.io" (rbacv1.Name rb)), w)
        | None => (inr rb, set_rolebindings (<[rb_key rb := rb]> (rolebindings w)) w)
        end
    end).

(** The role a binding refers to cannot be changed by an update. *)
Definition UpdateRoleBinding (rb : rbacv1.RoleBinding) : M (error + rbacv1.RoleBinding) :=
  call (Update_RoleBinding rb) (fun w =>
    match rolebindings w !! rb_key rb with
    | Some old =>
        if bool_decide (rbacv1.RoleRef_ old = rbacv1.RoleRef_ rb)
        then (inr rb, set_rolebindings (<[rb_key rb := rb]> (rolebindings w)) w)
        else (inl (StatusError StatusReasonInvalid
                     ("RoleBinding.rbac.authorization.k8s.io " +:+ rbacv1.Name rb +:+
                      " is invalid: roleRef: cannot change roleRef")), w)
    | None =>
        (inl (NotFound "rolebindings.rbac.authorization.k8s.io" (rbacv1.Name rb)), w)
    end).

End client.

(** ** Package ctrl: the result of a reconcile *)

Module ctrl.

(** [time.Second], in nanoseconds. *)
Definition Second : Z := 1000000000.

Record Result : Type := mkResult {
  Requeue : bool;
  RequeueAfter : Z
}.

(** [ctrl.Result{}]. *)
Definition Result0 : Result := mkResult false 0.

End ctrl.

(** ** controller/virtualmachine_controller.go *)

Module VirtualMachineReconciler.

Import virtualmachine_types.

Definition vmFinalizer : string := "llmcloud.llmcloud.io/vm-finalizer".

(** The annotation that asks for a reboot. *)
Definition rebootAnnotation : string := "llmcloud.io/reboot".

Definition virtio_disk (name : string) : value :=
  VMap [("name", VString name); ("disk", VMap [("bus", VString "virtio")])].

(** [buildKubeVirtVM]: the KubeVirt VirtualMachine desired for [vm]. *)
Definition buildKubeVirtVM (vm : VirtualMachine) : Unstructured :=
  let runStrategy :=
    if String.eqb (RunStrategy (Spec vm)) "" then "Always"
    else RunStrategy (Spec vm) in
  let cloudInitUserData :=
    if String.eqb (CloudInit (Spec vm)) "" && Nat.ltb 0 (length (SSHKeys (Spec vm)))
    then "#cloud-config" +:+ nl +:+ "ssh_authorized_keys:" +:+ nl +:+
         Join (SSHKeys (Spec vm)) nl
    else CloudInit (Spec vm) in
  let disks := [virtio_disk "containerdisk"; virtio_disk "datadisk"] in
  let volumes :=
    [ VMap [("name", VString "containerdisk");
            ("containerDisk",
             VMap [("image",
                    VString (GetImageForOS (OS (Spec vm)) (OSVersion (Spec vm))))])];
      VMap [("name", VString "datadisk");
            ("dataVolume", VMap [("name", VString (Name vm +:+ "-disk"))])] ] in
  let disks :=
    if negb (String.eqb cloudInitUserData "")
    then (disks ++ [virtio_disk "cloudinitdisk"])%list else disks in
  let volumes :=
    if negb (String.eqb cloudInitUserData "")
    then (volumes ++
          [VMap [("name", VString "cloudinitdisk");
                 ("cloudInitNoCloud", VMap [("userData", VString cloudInitUserData)])]])%list
    else volumes in
  let diskSize :=
    if String.eqb (DiskSize (Spec vm)) "" then "10Gi" else DiskSize (Spec vm) in
  let storageClass :=
    if String.eqb (StorageClass (Spec vm)) "" then "local-path"
    else StorageClass (Spec vm) in
  [ ("apiVersion", VString "kubevirt.io/v1");
    ("kind", VString "VirtualMachine");
    ("metadata",
     VMap [("name", VString (Name vm));
           ("namespace", VString (Namespace vm));
           ("labels", VMap [("llmcloud.io/managed", VString "true")])]);
    ("spec",
     VMap [("runStrategy", VString runStrategy);
           ("dataVolumeTemplates",
            VList [VMap [("metadata", VMap [("name", VString (Name vm +:+ "-disk"))]);
                         ("spec",
                          VMap [("source", VMap [("blank", VMap [])]);
                                ("storage",
                                 VMap [("accessModes", VList [VString "ReadWriteOnce"]);
                                       ("resources",
                                        VMap [("requests",
                                               VMap [("storage", VString diskSize)])]);
                                       ("storageClassName", VString storageClass)])])]]);
           ("template",
            VMap [("spec",
                   VMap [("domain",
                          VMap [("cpu", VMap [("cores", VInt (CPUs (Spec vm)))]);
                                ("resources",
                                 VMap [("requests",
                                        VMap [("memory", VString (Memory (Spec vm)))])]);
                                ("devices", VMap [("disks", VList disks)])]);
                         ("volumes", VList volumes)])])]) ].

(** [reconcileKubeVirtVM]: server-side apply of the desired object. *)
Definition reconcileKubeVirtVM (vm : VirtualMachine) : M (option error) :=
  let kvVM := buildKubeVirtVM vm in
  r <- client.ApplyKubeVirtVM kvVM ;;
  ret (err_of r).

(** The fields [updateVMStatusFromVMI] copies from the status of the
    instance. *)
Definition project_vmi_status (status : Unstructured) (s : VirtualMachineStatus)
  : VirtualMachineStatus :=
  let s :=
    match as_string (field "phase" status) with
    | Some phase =>
        mkVirtualMachineStatus phase (Node s) (IPAddress s)
          (String.eqb phase "Running") (Conditions s)
    | None => s
    end in
  let s :=
    match as_string (field "nodeName" status) with
    | Some node =>
        mkVirtualMachineStatus (Phase s) node (IPAddress s) (Ready s) (Conditions s)
    | None => s
    end in
  match as_list (field "interfaces" status) with
  | Some (VMap iface :: _) =>
      match as_string (field "ipAddress" iface) with
      | Some ip =>
          mkVirtualMachineStatus (Phase s) (Node s) ip (Ready s) (Conditions s)
      | None => s
      end
  | _ => s
  end.

Definition set_Conditions (c : list metav1.Condition) (s : VirtualMachineStatus)
  : VirtualMachineStatus :=
  mkVirtualMachineStatus (Phase s) (Node s) (IPAddress s) (Ready s) c.

(** [updateVMStatusFromVMI]; next to the error, the [vm] the caller holds
    afterwards. *)
Definition updateVMStatusFromVMI (vm : VirtualMachine)
  : M (VirtualMachine * option error) :=
  r <- client.GetKubeVirtVMI (Namespace vm, Name vm) ;;
  match r with
  | inl err =>
      if IsNotFound err then
        let vm :=
          set_Status
            (mkVirtualMachineStatus PhasePending (Node (Status vm))
               (IPAddress (Status vm)) false (Conditions (Status vm))) vm in
        r <- client.StatusUpdate vm ;;
        ret (refreshed vm r, err_of r)
      else ret (vm, Some err)
  | inr vmi =>
      let status := NestedMap vmi ["status"] in
      let vm := set_Status (project_vmi_status status (Status vm)) vm in
      now <- Now ;;
      let vm :=
        set_Status
          (set_Conditions
             (metav1.SetStatusCondition now (Conditions (Status vm))
                (metav1.mkCondition "Ready" metav1.ConditionTrue (Generation vm) 0
                   "VMRunning" "Virtual machine is running"))
             (Status vm)) vm in
      r <- client.StatusUpdate vm ;;
      ret (refreshed vm r, err_of r)
  end.

(** [finalizeVM]: deletes the KubeVirt VM of the same name; its absence
    is no error. *)
Definition finalizeVM (vm : VirtualMachine) : M (option error) :=
  r <- client.DeleteKubeVirtVM (Namespace vm, Name vm) ;;
  ret (IgnoreNotFound (err_of r)).

(** [updateVMStatus]; the error of the status write is dropped. *)
Definition updateVMStatus (vm : VirtualMachine) (phase message : string)
  : M VirtualMachine :=
  now <- Now ;;
  let vm :=
    set_Status
      (mkVirtualMachineStatus phase (Node (Status vm)) (IPAddress (Status vm)) false
         (metav1.SetStatusCondition now (Conditions (Status vm))
            (metav1.mkCondition "Ready" metav1.ConditionFalse (Generation vm) 0
               "ReconciliationError" message))) vm in
  r <- client.StatusUpdate vm ;;
  ret (refreshed vm r).

(** [rebootVM]: stops and starts the KubeVirt VM. *)
Definition rebootVM (vm : VirtualMachine) : M (option error) :=
  r <- client.GetKubeVirtVM (Namespace vm, Name vm) ;;
  match r with
  | inl err => ret (Some (Errorf "failed to get KubeVirt VM: " err))
  | inr kvVM =>
      match SetNestedField kvVM (VString "Halted") ["spec"; "runStrategy"] with
      | inl err => ret (Some (Errorf "failed to set runStrategy to Halted: " err))
      | inr kvVM =>
          r <- client.UpdateKubeVirtVM kvVM ;;
          match r with
          | inl err => ret (Some (Errorf "failed to stop VM: " err))
          | inr kvVM =>
              match SetNestedField kvVM (VString "Always") ["spec"; "runStrategy"] with
              | inl err =>
                  ret (Some (Errorf "failed to set runStrategy to Always: " err))
              | inr kvVM =>
                  r <- client.UpdateKubeVirtVM kvVM ;;
                  match r with
                  | inl err => ret (Some (Errorf "failed to start VM: " err))
                  | inr _ => ret None
                  end
              end
          end
      end
  end.

(** The tail of [Reconcile], from the synchronization of the KubeVirt VM
    on. *)
Definition synchronize (vm : VirtualMachine) : M (ctrl.Result * option error) :=
  err <- reconcileKubeVirtVM vm ;;
  match err with
  | Some e =>
      _ <- updateVMStatus vm "Error" (Error_ e) ;;
      ret (ctrl.Result0, Some e)
  | None =>
      r <- updateVMStatusFromVMI vm ;;
      match snd r with
      | Some _ => ret (ctrl.mkResult false (10 * ctrl.Second), None)
      | None => ret (ctrl.Result0, None)
      end
  end.

(** [Reconcile]. *)
Definition Reconcile (req : ObjectKey) : M (ctrl.Result * option error) :=
  r <- client.Get req ;;
  match r with
  | inl err => ret (ctrl.Result0, IgnoreNotFound (Some err))
  | inr vm =>
      if negb (metav1.IsZero (metav1.DeletionTimestamp (ObjectMeta vm))) then
        if metav1.ContainsFinalizer (ObjectMeta vm) vmFinalizer then
          err <- finalizeVM vm ;;
          match err with
          | Some e => ret (ctrl.Result0, Some e)
          | None =>
              let vm :=
                set_ObjectMeta (metav1.RemoveFinalizer (ObjectMeta vm) vmFinalizer) vm in
              r <- client.Update vm ;;
              ret (ctrl.Result0, err_of r)
          end
        else ret (ctrl.Result0, None)
      else if negb (metav1.ContainsFinalizer (ObjectMeta vm) vmFinalizer) then
        let vm := set_ObjectMeta (metav1.AddFinalizer (ObjectMeta vm) vmFinalizer) vm in
        r <- client.Update vm ;;
        ret (ctrl.mkResult true 0, err_of r)
      else if bool_decide
                (metav1.Annotations (ObjectMeta vm) !! rebootAnnotation = Some "true") then
        err <- rebootVM vm ;;
        match err with
        | Some e => ret (ctrl.Result0, Some e)
        | None =>
            let vm :=
              set_ObjectMeta
                (metav1.set_Annotations
                   (delete rebootAnnotation (metav1.Annotations (ObjectMeta vm)))
                   (ObjectMeta vm)) vm in
            r <- client.Update vm ;;
            match r with
            | inl e => ret (ctrl.Result0, Some e)
            | inr vm => synchronize vm
            end
        end
      else synchronize vm
  end.

End VirtualMachineReconciler.

(** ** controller/project_controller.go *)

Module ProjectReconciler.

Import project_types.

Definition projectFinalizer : string := "llmcloud.llmcloud.io/finalizer".

(** The labels of every object the reconciler manages for a project. *)
Definition managed_labels (project : Project) : gmap string string :=
  <["llmcloud.io/managed" := "true"]> (<["llmcloud.io/project" := Name project]> ∅).

(** [controllerutil.SetControllerReference] of a project on a namespace:
    a cluster-scoped object takes no owner that lives in a namespace. *)
Definition SetControllerReference (owner : Project) (ns : corev1.Namespace)
  : error + corev1.Namespace :=
  if negb (String.eqb (metav1.Namespace (ObjectMeta owner)) "")
  then inl (PlainError
              ("cluster-scoped resource must not have a namespace-scoped owner, owner's namespace "
               +:+ metav1.Namespace (ObjectMeta owner)))
  else inr (corev1.mkNamespace (corev1.Name ns) (corev1.Labels ns) (Some (Name owner))).

(** [reconcileNamespace]: creates the namespace owned by the project, or
    resets the labels of the one that exists. *)
Definition reconcileNamespace (project : Project) (namespace : string)
  : M (option error) :=
  let ns := corev1.mkNamespace namespace (managed_labels project) None in
  match SetControllerReference project ns with
  | inl err => ret (Some err)
  | inr ns =>
      r <- client.GetNamespace namespace ;;
      match r with
      | inl err =>
          if IsNotFound err then
            r <- client.CreateNamespace ns ;;
            ret (err_of r)
          else ret (Some err)
      | inr existingNS =>
          let existingNS := corev1.set_Labels (corev1.Labels ns) existingNS in
          r <- client.UpdateNamespace existingNS ;;
          ret (err_of r)
      end
  end.

(** [getRoleForMember]. *)
Definition getRoleForMember (role : string) : string :=
  let roleMap : gmap string string :=
    list_to_map [("owner", "admin"); ("admin", "admin"); ("developer", "edit")] in
  match roleMap !! role with
  | Some r => r
  | None => "view"
  end.

(** The role binding [reconcileRBAC] wants for one member. *)
Definition member_binding (project : Project) (namespace : string)
    (member : ProjectMember) : rbacv1.RoleBinding :=
  rbacv1.mkRoleBinding
    (Name project +:+ "-" +:+ Username member)
    namespace
    (managed_labels project)
    [rbacv1.mkSubject "User" (Username member)]
    (rbacv1.mkRoleRef "rbac.authorization.k8s.io" "ClusterRole"
       (getRoleForMember (Role member))).

(** The loop of [reconcileRBAC] over the members still to be handled. *)
Fixpoint reconcileMembers (project : Project) (namespace : string)
    (members : list ProjectMember) : M (option error) :=
  match members with
  | [] => ret None
  | member :: rest =>
      let rb := member_binding project namespace member in
      r <- client.GetRoleBinding (namespace, rbacv1.Name rb) ;;
      match r with
      | inl err =>
          if IsNotFound err then
            r <- client.CreateRoleBinding rb ;;
            match r with
            | inl err => ret (Some err)
            | inr _ => reconcileMembers project namespace rest
            end
          else ret (Some err)
      | inr existingRB =>
          let existingRB :=
            rbacv1.mkRoleBinding (rbacv1.Name existingRB) (rbacv1.Namespace existingRB)
              (rbacv1.Labels existingRB) (rbacv1.Subjects rb) (rbacv1.RoleRef_ rb) in
          r <- client.UpdateRoleBinding existingRB ;;
          match r with
          | inl err => ret (Some err)
          | inr _ => reconcileMembers project namespace rest
          end
      end
  end.

(** [reconcileRBAC]. *)
Definition reconcileRBAC (project : Project) (namespace : string) : M (option error) :=
  reconcileMembers project namespace (Members (Spec project)).

(** [finalizeProject]: nothing to clean up. *)
Definition finalizeProject (project : Project) : M (option error) := ret None.

Definition set_Phase (phase : string) (s : ProjectStatus) : ProjectStatus :=
  mkProjectStatus (Namespace s) phase (VMCount s) (LLMModelCount s) (ServiceCount s)
    (Conditions s).

Definition set_Namespace (namespace : string) (s : ProjectStatus) : ProjectStatus :=
  mkProjectStatus namespace (Phase s) (VMCount s) (LLMModelCount s) (ServiceCount s)
    (Conditions s).

Definition set_Conditions (c : list metav1.Condition) (s : ProjectStatus) : ProjectStatus :=
  mkProjectStatus (Namespace s) (Phase s) (VMCount s) (LLMModelCount s) (ServiceCount s) c.

(** [updateStatus]; the error of the status write is dropped. *)
Definition updateStatus (project : Project) (phase message : string) : M Project :=
  now <- Now ;;
  let project :=
    set_Status
      (set_Conditions
         (metav1.SetStatusCondition now (Conditions (Status project))
            (metav1.mkCondition "Ready" metav1.ConditionFalse (Generation project) 0
               "ReconciliationError" message))
         (set_Phase phase (Status project))) project in
  r <- client.StatusUpdateProject project ;;
  ret (refreshed project r).

(** [Reconcile]; the request names a cluster-scoped Project. *)
Definition Reconcile (req : string) : M (ctrl.Result * option error) :=
  r <- client.GetProject req ;;
  match r with
  | inl err => ret (ctrl.Result0, IgnoreNotFound (Some err))
  | inr project =>
      if negb (metav1.IsZero (metav1.DeletionTimestamp (ObjectMeta project))) then
        if metav1.ContainsFinalizer (ObjectMeta project) projectFinalizer then
          err <- finalizeProject project ;;
          match err with
          | Some e => ret (ctrl.Result0, Some e)
          | None =>
              let project :=
                set_ObjectMeta
                  (metav1.RemoveFinalizer (ObjectMeta project) projectFinalizer) project in
              r <- client.UpdateProject project ;;
              ret (ctrl.Result0, err_of r)
          end
        else ret (ctrl.Result0, None)
      else if negb (metav1.ContainsFinalizer (ObjectMeta project) projectFinalizer) then
        let project :=
          set_ObjectMeta (metav1.AddFinalizer (ObjectMeta project) projectFinalizer)
            project in
        r <- client.UpdateProject project ;;
        ret (ctrl.mkResult true 0, err_of r)
      else
        let namespace := "project-" +:+ Name project in
        err <- reconcileNamespace project namespace ;;
        match err with
        | Some e =>
            _ <- updateStatus project "Error" (Error_ e) ;;
            ret (ctrl.Result0, Some e)
        | None =>
            err <- reconcileRBAC project namespace ;;
            match err with
            | Some e =>
                _ <- updateStatus project "Error" (Error_ e) ;;
                ret (ctrl.Result0, Some e)
            | None =>
                now <- Now ;;
                let project :=
                  set_Status
                    (set_Conditions
                       (metav1.SetStatusCondition now (Conditions (Status project))
                          (metav1.mkCondition "Ready" metav1.ConditionTrue
                             (Generation project) 0 "ProjectReady" "Project is ready"))
                       (set_Phase "Active" (set_Namespace namespace (Status project))))
                    project in
                r <- client.StatusUpdateProject project ;;
                ret (ctrl.Result0, err_of r)
            end
        end
  end.

End ProjectReconciler.

(** ** internal/api/server.go: the VM actions of the API server *)

Module Server.

Import virtualmachine_types.

(** [string(p)] for a byte [p]: the UTF-8 encoding of the code point of
    that value, one byte below 128 and two bytes from 128 on. *)
Definition byte_string (p : ascii) : string :=
  let n := nat_of_ascii p in
  if Nat.ltb n 128 then String p EmptyString
  else String (ascii_of_nat (192 + n / 64))
         (String (ascii_of_nat (128 + n mod 64)) EmptyString).

(** One round of the loop of [splitPath]. *)
Definition splitPath_step (parts : list string) (p : ascii) : list string :=
  if negb (Ascii.eqb p "/"%char) then
    if Nat.eqb (length parts) 0 then (parts ++ [byte_string p])%list
    else alter (fun s => s +:+ byte_string p) (length parts - 1)%nat parts
  else if Nat.ltb 0 (length parts) &&
          match parts !! (length parts - 1)%nat with
          | Some s => negb (String.eqb s "")
          | None => false
          end
       then (parts ++ [""])%list
  else parts.

(** [splitPath]. *)
Definition splitPath (path : string) : list string :=
  fold_left splitPath_step (list_ascii_of_string path) [].

(** What a handler writes: [http.Error] with a message and a status code,
    or [writeJSON] of a map of strings (status 200); a slice out of range
    panics. *)
Inductive Response : Type :=
| HttpError (msg : string) (code : Z)
| WriteJSON (data : list (string * string))
| Panic.

Definition set_RunStrategy (s : string) (vm : VirtualMachine) : VirtualMachine :=
  mkVirtualMachine (ObjectMeta vm)
    (mkVirtualMachineSpec (CPUs (Spec vm)) (Memory (Spec vm)) (DiskSize (Spec vm))
       (OS (Spec vm)) (OSVersion (Spec vm)) (CloudInit (Spec vm)) (SSHKeys (Spec vm))
       s (StorageClass (Spec vm)))
    (Status vm).

Definition actions_prefix : string := "/api/v1/actions/vm/".

(** [handleVMActions], for a request with the given method and URL path. *)
Definition handleVMActions (method path : string) : M Response :=
  if negb (String.eqb method "POST") then ret (HttpError "Method not allowed" 405)
  else if Nat.ltb (String.length path) (String.length actions_prefix) then ret Panic
  else
    let path :=
      substring (String.length actions_prefix)
        (String.length path - String.length actions_prefix) path in
    let parts := splitPath path in
    match parts with
    | namespace :: name :: action :: _ =>
        r <- client.Get (namespace, name) ;;
        match r with
        | inl err => ret (HttpError (Error_ err) 404)
        | inr vm =>
            let changed :=
              if String.eqb action "start" then Some (set_RunStrategy "Always" vm)
              else if String.eqb action "stop" then Some (set_RunStrategy "Halted" vm)
              else if String.eqb action "reboot" then
                Some (set_ObjectMeta
                        (metav1.set_Annotations
                           (<["llmcloud.io/reboot" := "true"]>
                              (metav1.Annotations (ObjectMeta vm)))
                           (ObjectMeta vm)) vm)
              else None in
            match changed with
            | None =>
                ret (HttpError "Unknown action, valid actions: start, stop, reboot" 400)
            | Some vm =>
                r <- client.Update vm ;;
                match r with
                | inl err => ret (HttpError (Error_ err) 500)
                | inr _ => ret (WriteJSON [("status", "success"); ("action", action)])
                end
            end
        end
    | _ =>
        ret (HttpError
               "Invalid path, expected: /api/v1/actions/vm/{namespace}/{name}/{action}"
               400)
    end.

End Server.

(** * Properties *)

(** ** The OS image table *)

Section image_table.

Import virtualmachine_types.

(** The image the table falls back to. *)
Definition cirros_image : string :=
  "quay.io/kubevirt/cirros-container-disk-demo:latest".

Fixpoint has_colon (s : string) : bool :=
  match s with
  | EmptyString => false
  | String a s' => Ascii.eqb a ":"%char || has_colon s'
  end.

Lemma has_colon_versioned_key (os version : string) :
  has_colon (os +:+ ":" +:+ version) = true.
Proof.
  induction os as [|a os IH]; simpl.
  - reflexivity.
  - rewrite IH. apply orb_true_r.
Qed.

Lemma OSImageMap_lookup_Some (os img : string) :
  OSImageMap !! os = Some img ->
  (os, img) ∈ OSImageTable.
Proof.
  unfold OSImageMap. intros H.
  by apply elem_of_list_to_map_2 in H.
Qed.

Lemma OSImageMap_keys_plain (os img : string) :
  OSImageMap !! os = Some img -> has_colon os = false /\ img <> "".
Proof.
  intros H%OSImageMap_lookup_Some. unfold OSImageTable in H.
  repeat (apply elem_of_cons in H as [H|H]; [inversion H; subst; split; [reflexivity|discriminate]|]).
  by apply elem_of_nil in H.
Qed.

Lemma OSImageMap_versioned_key (os version : string) :
  OSImageMap !! (os +:+ ":" +:+ version) = None.
Proof.
  destruct (OSImageMap !! (os +:+ ":" +:+ version)) as [img|] eqn:E; [|reflexivity].
  apply OSImageMap_keys_plain in E as [E _].
  rewrite has_colon_versioned_key in E. discriminate.
Qed.

(** [GetImageForOS] in closed form: the table's image for a listed OS
    without a version, the table's repository with the requested tag for
    a listed OS with a version, the cirros image for any other OS. *)
Lemma GetImageForOS_spec (os version : string) :
  GetImageForOS os version =
  match OSImageMap !! os with
  | Some img =>
      if String.eqb version "" then img
      else fst (splitImageTag img) +:+ ":" +:+ version
  | None => cirros_image
  end.
Proof.
  unfold GetImageForOS.
  rewrite OSImageMap_versioned_key.
  destruct (OSImageMap !! os) as [img|] eqn:E; simpl.
  - destruct (String.eqb version ""); simpl; [reflexivity|].
    apply OSImageMap_keys_plain in E as [_ E].
    destruct (String.eqb img "") eqn:E'; [|reflexivity].
    apply String.eqb_eq in E'. contradiction.
  - destruct (String.eqb version ""); reflexivity.
Qed.

End image_table.

(** ** Fields of unstructured objects *)

Section unstructured_fields.

Lemma field_set_field_eq (k : string) (v : value) (m : list (string * value)) :
  field k (set_field k v m) = Some v.
Proof.
  induction m as [|[k' old] m IH]; cbn [set_field field].
  - by rewrite String.eqb_refl.
  - destruct (String.eqb k k') eqn:E; cbn [field]; rewrite E; [reflexivity|exact IH].
Qed.

Lemma field_set_field_ne (k k' : string) (v : value) (m : list (string * value)) :
  k <> k' -> field k (set_field k' v m) = field k m.
Proof.
  intros Hne. induction m as [|[k0 old] m IH]; cbn [set_field field].
  - destruct (String.eqb_spec k k'); [contradiction|reflexivity].
  - destruct (String.eqb_spec k' k0) as [->|Hne0]; cbn [field].
    + destruct (String.eqb_spec k k0); [contradiction|reflexivity].
    + destruct (String.eqb k k0); [reflexivity|exact IH].
Qed.

(** Setting a field two levels down: it succeeds unless the parent is
    there and is no map, and the field then reads as set. *)
Lemma SetNestedField_two_levels (obj : Unstructured) (v : value) (parent child : string) :
  match SetNestedField obj v [parent; child] with
  | inr obj' =>
      NestedField (VMap obj') [parent; child] = Some v /\
      (exists sub, field parent obj' = Some (VMap sub)) /\
      (forall k, k <> parent -> field k obj' = field k obj)
  | inl _ => exists x, field parent obj = Some x /\ as_map (Some x) = None
  end.
Proof.
  cbn [SetNestedField].
  destruct (field parent obj) as [[s|n|l|sub]|] eqn:E;
    try (eexists; split; [reflexivity|reflexivity]).
  - cbn [NestedField]. rewrite field_set_field_eq.
    split; [by rewrite field_set_field_eq|]. split; [by eexists|].
    intros k Hk. by apply field_set_field_ne.
  - cbn [NestedField]. rewrite field_set_field_eq.
    split; [by rewrite field_set_field_eq|]. split; [by eexists|].
    intros k Hk. by apply field_set_field_ne.
Qed.

(** Setting a field under ["spec"] leaves the name and namespace of the
    object alone. *)
Lemma SetNestedField_spec_object_key (obj obj' : Unstructured) (v : value) (child : string) :
  SetNestedField obj v ["spec"; child] = inr obj' ->
  GetNamespace obj' = GetNamespace obj /\ GetName obj' = GetName obj.
Proof.
  intros H. pose proof (SetNestedField_two_levels obj v "spec" child) as Hs.
  rewrite H in Hs. destruct Hs as (_ & _ & Hother).
  unfold GetNamespace, GetName, NestedString. cbn [NestedField].
  rewrite (Hother "metadata") by discriminate. done.
Qed.

(** Once a field under a parent is set, it can be set again. *)
Lemma SetNestedField_again (obj obj' : Unstructured) (v v' : value) (parent child : string) :
  SetNestedField obj v [parent; child] = inr obj' ->
  exists obj'', SetNestedField obj' v' [parent; child] = inr obj''.
Proof.
  intros H. pose proof (SetNestedField_two_levels obj v parent child) as Hs.
  rewrite H in Hs. destruct Hs as (_ & [sub Hsub] & _).
  cbn [SetNestedField]. rewrite Hsub. by eexists.
Qed.

End unstructured_fields.

(** ** The desired KubeVirt VM *)

Section desired_object.

Import virtualmachine_types.
Import VirtualMachineReconciler.

(** The list at a path of an object, empty when there is none. *)
Definition NestedSlice (obj : Unstructured) (fields : list string) : list value :=
  default [] (as_list (NestedField (VMap obj) fields)).




(** The cloud-init document rendered from SSH keys alone. *)
Definition ssh_keys_document (keys : list string) : string :=
  "#cloud-config" +:+ nl +:+ "ssh_authorized_keys:" +:+ nl +:+ Join keys nl.

Lemma ssh_keys_document_not_empty (keys : list string) :
  String.eqb (ssh_keys_document keys) "" = false.
Proof. reflexivity. Qed.

(** The user data [buildKubeVirtVM] settles on. *)
Definition cloudInitUserData (spec : VirtualMachineSpec) : string :=
  if String.eqb (CloudInit spec) "" && Nat.ltb 0 (length (SSHKeys spec))
  then ssh_keys_document (SSHKeys spec)
  else CloudInit spec.



End desired_object.

(** ** Reasoning about computations against the store *)

(** [wp m Q w]: running [m] in [w] gives a result and a store that
    satisfy [Q]. *)
Definition wp {A : Type} (m : M A) (Q : A -> World -> Prop) (w : World) : Prop :=
  Q (fst (m w)) (snd (m w)).

Section wp_rules.

Context {A B : Type}.

Lemma wp_ret (a : A) (Q : A -> World -> Prop) (w : World) :
  Q a w -> wp (ret a) Q w.
Proof. done. Qed.

Lemma wp_bind (m : M A) (k : A -> M B) (Q : B -> World -> Prop) (w : World) :
  wp m (fun a w' => wp (k a) Q w') w -> wp (bind m k) Q w.
Proof. unfold wp, bind. by destruct (m w). Qed.

Lemma wp_mono (m : M A) (Q Q' : A -> World -> Prop) (w : World) :
  (forall a w', Q a w' -> Q' a w') -> wp m Q w -> wp m Q' w.
Proof. unfold wp. auto. Qed.

(** A call is refused with the scripted fault, or served by its handler;
    either way it is logged with its answer. *)
Lemma wp_call (r : Request) (handler : World -> (error + A) * World)
    (Q : error + A -> World -> Prop) (w : World) :
  (forall f, next_fault w = Some f ->
        Q (inl (fault_error f)) (logged r (Some (fault_error f)) (tick w))) ->
  (next_fault w = None ->
   forall res w1, handler (tick w) = (res, w1) -> Q res (logged r (err_of res) w1)) ->
  wp (call r handler) Q w.
Proof.
  intros Hrefused Hserved. unfold wp, call.
  destruct (next_fault w) as [f|].
  - by apply Hrefused.
  - specialize (Hserved eq_refl). destruct (handler (tick w)) as [res w1].
    by apply Hserved.
Qed.

End wp_rules.

Lemma wp_Now (Q : metav1.Time -> World -> Prop) (w : World) :
  Q (clock w) w -> wp Now Q w.
Proof. done. Qed.

(** Projections of a store after ticks, log entries and updates. *)
Ltac world_simpl :=
  unfold client.vm_key, client.rb_key, virtualmachine_types.Name,
    virtualmachine_types.Namespace, virtualmachine_types.Generation,
    project_types.Name, project_types.Generation in *;
  cbn [virtualmachines kubevirt_vms kubevirt_vmis projects namespaces rolebindings
       clock faults served tick logged set_virtualmachines set_kubevirt_vms
       set_projects set_namespaces set_rolebindings set_clock set_faults set_served
       fst snd err_of refreshed
       corev1.Name corev1.Labels corev1.Controller corev1.set_Labels
       rbacv1.Name rbacv1.Namespace rbacv1.Labels rbacv1.Subjects rbacv1.RoleRef_
       client.rb_key client.vm_key
       metav1.Name metav1.Namespace metav1.Generation metav1.DeletionTimestamp
       metav1.Finalizers metav1.Annotations metav1.set_Finalizers
       metav1.set_Annotations client.named client.updated_meta
       virtualmachine_types.ObjectMeta virtualmachine_types.Spec
       virtualmachine_types.Status virtualmachine_types.Name
       virtualmachine_types.Namespace virtualmachine_types.Generation
       virtualmachine_types.set_ObjectMeta virtualmachine_types.set_Status
       virtualmachine_types.Phase virtualmachine_types.Node
       virtualmachine_types.IPAddress virtualmachine_types.Ready
       virtualmachine_types.Conditions
       project_types.ObjectMeta project_types.Spec project_types.Status
       project_types.Name project_types.Generation project_types.set_ObjectMeta
       project_types.set_Status project_types.Namespace project_types.Phase
       project_types.VMCount project_types.LLMModelCount project_types.ServiceCount
       project_types.Conditions] in *.

(** The outcomes of the handler of a served call, by the lookups and
    tests it makes; lookups known from the context are used first. *)
Ltac handler_cases H :=
  unfold client.vm_key, client.rb_key in H;
  world_simpl;
  repeat match goal with
         | Hl : ?x = Some _ |- _ => rewrite Hl in H
         | Hl : ?x = None |- _ => rewrite Hl in H
         end;
  repeat match type of H with
         | context [match ?x with Some _ => _ | None => _ end] => destruct x eqn:?
         | context [if ?b then _ else _] => destruct b eqn:?
         end;
  apply pair_equal_spec in H as [<- <-];
  world_simpl.

(** One step of a computation: a bind, a return, a reading of the clock,
    or a call with its outcomes. *)
Ltac wp_step :=
  lazymatch goal with
  | |- wp (bind _ _) _ _ => apply wp_bind
  | |- wp (ret _) _ _ => apply wp_ret
  | |- wp Now _ _ => apply wp_Now
  | |- wp (call _ _) _ _ =>
      let H := fresh "Hhandler" in
      apply wp_call;
      [ intros ?f ?Hfault; world_simpl
      | intros ?Hserved ?res ?w1 H; cbn beta in H; handler_cases H ]
  end.

(** States a goal about the result and final store of [m w] as a [wp]. *)
Ltac wp_start m w :=
  cbv zeta;
  pattern (fst (m w)), (snd (m w));
  lazymatch goal with
  | |- ?Q _ _ => change (wp m Q w); cbv beta
  end.

(** Closes the refused branch of a call when the fault script is empty. *)
Ltac no_fault Hf :=
  lazymatch goal with
  | H : next_fault _ = Some _ |- _ =>
      exfalso; unfold next_fault in H; world_simpl; rewrite Hf in H;
      simpl in H; discriminate H
  end.

(** No scripted fault is a NotFound answer: a refused call says nothing
    about what the store holds. *)
Lemma fault_error_not_NotFound (f : fault) : IsNotFound (fault_error f) = false.
Proof. by destruct f. Qed.

Lemma NotFound_IsNotFound (kind name : string) : IsNotFound (NotFound kind name) = true.
Proof. reflexivity. Qed.

(** The requests the store answered since the log was that of [before]. *)
Definition served_since (before after : World) : list (Request * option error) :=
  drop (length (served before)) (served after).

(** The log of [w] is [base] followed by requests that satisfy [P]. *)
Definition extends (base : list (Request * option error)) (P : Request -> Prop)
    (w : World) : Prop :=
  exists new, served w = (base ++ new)%list /\ Forall (fun entry => P (fst entry)) new.

Lemma extends_refl (P : Request -> Prop) (w : World) : extends (served w) P w.
Proof. exists []. by rewrite app_nil_r. Qed.

Lemma extends_logged (base : list (Request * option error)) (P : Request -> Prop)
    (r : Request) (err : option error) (w w' : World) :
  served w' = served w -> P r -> extends base P w -> extends base P (logged r err w').
Proof.
  intros Hsame Hr (new & Hnew & Hall).
  exists (new ++ [(r, err)])%list. split.
  - simpl. rewrite Hsame, Hnew. by rewrite app_assoc.
  - apply Forall_app. split; [done|]. by repeat constructor.
Qed.

Lemma extends_mono (base : list (Request * option error)) (P P' : Request -> Prop)
    (w : World) :
  (forall r, P r -> P' r) -> extends base P w -> extends base P' w.
Proof.
  intros Himpl (new & Hnew & Hall). exists new. split; [done|].
  eapply Forall_impl; [exact Hall|]. intros entry. apply Himpl.
Qed.

(** Closes [extends base P w'] from [extends base P w] when [w'] is [w]
    after some more logged calls, each satisfying [P]. *)
Ltac extends_tac :=
  lazymatch goal with
  | H : extends ?base ?P _ |- extends ?base ?P _ =>
      let new := fresh "new" in
      let Hnew := fresh "Hnew" in
      let Hall := fresh "Hall" in
      destruct H as (new & Hnew & Hall);
      eexists; split;
      [ world_simpl; rewrite Hnew; rewrite <- ?app_assoc; reflexivity
      | repeat (apply Forall_app; split); try assumption;
        repeat (apply Forall_cons; split); try apply Forall_nil;
        cbn [fst]; auto; try exact I ]
  end.

(** ** The access level of a member *)

Section access_levels.

Import project_types.
Import ProjectReconciler.

Lemma getRoleForMember_spec (role : string) :
  getRoleForMember role =
  if String.eqb role "owner" then "admin"
  else if String.eqb role "admin" then "admin"
  else if String.eqb role "developer" then "edit"
  else "view".
Proof.
  unfold getRoleForMember. simpl list_to_map.
  destruct (String.eqb_spec role "owner") as [->|H1]; [reflexivity|].
  rewrite lookup_insert_ne by congruence.
  destruct (String.eqb_spec role "admin") as [->|H2]; [reflexivity|].
  rewrite lookup_insert_ne by congruence.
  destruct (String.eqb_spec role "developer") as [->|H3]; [reflexivity|].
  rewrite lookup_insert_ne by congruence.
  by rewrite lookup_empty.
Qed.

(** What a request of [reconcileRBAC] may be: a read of a role binding,
    or the creation or update of a binding of one user, a declared member,
    to the cluster role [getRoleForMember] gives for the declared role. *)
Definition rbac_request_ok (members : list ProjectMember) (r : Request) : Prop :=
  match r with
  | Get_RoleBinding _ => True
  | Create_RoleBinding rb | Update_RoleBinding rb =>
      exists member,
        member ∈ members /\
        rbacv1.Subjects rb = [rbacv1.mkSubject "User" (Username member)] /\
        rbacv1.RoleRef_ rb =
          rbacv1.mkRoleRef "rbac.authorization.k8s.io" "ClusterRole"
            (getRoleForMember (Role member))
  | _ => False
  end.

Lemma rbac_request_ok_mono (members members' : list ProjectMember) (r : Request) :
  members ⊆ members' -> rbac_request_ok members r -> rbac_request_ok members' r.
Proof.
  intros Hsub. destruct r; simpl; try done.
  - intros (m & Hm & H). exists m. split; [by apply Hsub | done].
  - intros (m & Hm & H). exists m. split; [by apply Hsub | done].
Qed.

Lemma reconcileMembers_requests (project : Project) (namespace : string)
    (all members : list ProjectMember) (base : list (Request * option error))
    (w : World) :
  members ⊆ all ->
  extends base (rbac_request_ok all) w ->
  wp (reconcileMembers project namespace members)
     (fun _ w' => extends base (rbac_request_ok all) w') w.
Proof.
  revert w. induction members as [|member rest IH]; intros w Hsub Hext.
  - by apply wp_ret.
  - assert (Hrest : rest ⊆ all) by (intros m Hm; apply Hsub; by right).
    assert (Hcreate : rbac_request_ok all
                        (Create_RoleBinding (member_binding project namespace member))).
    { exists member. split; [apply Hsub; by left | done]. }
    assert (Hupdate : forall name ns labels,
               rbac_request_ok all
                 (Update_RoleBinding
                    (rbacv1.mkRoleBinding name ns labels
                       (rbacv1.Subjects (member_binding project namespace member))
                       (rbacv1.RoleRef_ (member_binding project namespace member))))).
    { intros. exists member. split; [apply Hsub; by left | done]. }
    simpl reconcileMembers. wp_step. unfold client.GetRoleBinding. wp_step.
    + rewrite fault_error_not_NotFound. wp_step. extends_tac.
    + wp_step. unfold client.UpdateRoleBinding.
      wp_step; first [wp_step; extends_tac | apply IH; [done|]; extends_tac].
    + rewrite NotFound_IsNotFound. wp_step. unfold client.CreateRoleBinding.
      wp_step; first [wp_step; extends_tac | apply IH; [done|]; extends_tac].
Qed.

(** A successful write of the binding of [member], with the mapped role,
    is in the log of [w]. *)
Definition binding_written (member : ProjectMember) (w : World) : Prop :=
  exists r rb,
    (r = Create_RoleBinding rb \/ r = Update_RoleBinding rb) /\
    (r, None) ∈ served w /\
    rbacv1.Subjects rb = [rbacv1.mkSubject "User" (Username member)] /\
    rbacv1.RoleRef_ rb =
      rbacv1.mkRoleRef "rbac.authorization.k8s.io" "ClusterRole"
        (getRoleForMember (Role member)).

Lemma binding_written_later (member : ProjectMember) (w w' : World)
    (new : list (Request * option error)) :
  served w' = (served w ++ new)%list -> binding_written member w ->
  binding_written member w'.
Proof.
  intros Hnew (r & rb & Hr & Hin & H). exists r, rb.
  split; [done|]. split; [|done]. rewrite Hnew. apply elem_of_app. by left.
Qed.

Lemma reconcileMembers_covers (project : Project) (namespace : string)
    (members : list ProjectMember) (w : World) :
  wp (reconcileMembers project namespace members)
     (fun err w' =>
        (exists new, served w' = (served w ++ new)%list) /\
        (err = None -> forall m, m ∈ members -> binding_written m w')) w.
Proof.
  revert w. induction members as [|member rest IH]; intros w.
  - apply wp_ret. split; [exists []; by rewrite app_nil_r|].
    intros _ m Hm. by apply elem_of_nil in Hm.
  - assert (Hlater : forall w1 new1 r rb,
               served w1 = (served w ++ new1)%list ->
               (r = Create_RoleBinding rb \/ r = Update_RoleBinding rb) ->
               (r, None) ∈ served w1 ->
               rbacv1.Subjects rb = [rbacv1.mkSubject "User" (Username member)] ->
               rbacv1.RoleRef_ rb =
                 rbacv1.mkRoleRef "rbac.authorization.k8s.io" "ClusterRole"
                   (getRoleForMember (Role member)) ->
               wp (reconcileMembers project namespace rest)
                  (fun err w' =>
                     (exists new, served w' = (served w ++ new)%list) /\
                     (err = None -> forall m, m ∈ member :: rest -> binding_written m w'))
                  w1).
    { intros w1 new1 r rb Hw1 Hr Hin Hs Hrole.
      eapply wp_mono; [|apply IH].
      intros err w' [[new Hnew] Hcov]. split.
      - exists (new1 ++ new)%list. rewrite Hnew, Hw1. by rewrite app_assoc.
      - intros Herr m [->|Hm]%elem_of_cons; [|by apply Hcov].
        apply (binding_written_later _ w1 w' new Hnew).
        by exists r, rb. }
    simpl reconcileMembers. wp_step. unfold client.GetRoleBinding. wp_step.
    + rewrite fault_error_not_NotFound. wp_step.
      split; [by eexists|done].
    + wp_step. unfold client.UpdateRoleBinding.
      wp_step;
        first
          [ wp_step; split; [|done]; eexists; world_simpl; rewrite <- ?app_assoc;
            reflexivity
          | eapply (Hlater _ [_; _]);
            [ world_simpl; rewrite <- ?app_assoc; reflexivity
            | by right
            | world_simpl; apply elem_of_app; right; by left
            | done | done ] ].
    + rewrite NotFound_IsNotFound. wp_step. unfold client.CreateRoleBinding.
      wp_step;
        first
          [ wp_step; split; [|done]; eexists; world_simpl; rewrite <- ?app_assoc;
            reflexivity
          | eapply (Hlater _ [_; _]);
            [ world_simpl; rewrite <- ?app_assoc; reflexivity
            | by left
            | world_simpl; apply elem_of_app; right; by left
            | done | done ] ].
Qed.

(** C9. The access level of a member's role binding: [getRoleForMember]
    maps owner and admin to admin, developer to edit, and every other
    role, viewer and unknown roles alike, to view; every role binding the
    reconciler asks the store to create or update binds one declared
    member to the cluster role this mapping gives for the declared role;
    and when [reconcileRBAC] succeeds, such a write has been served for
    every declared member. *)
Theorem C9_member_access_level (project : Project) (namespace : string) (w : World) :
  (forall role,
      getRoleForMember role =
      if String.eqb role "owner" then "admin"
      else if String.eqb role "admin" then "admin"
      else if String.eqb role "developer" then "edit"
      else "view")
  /\ getRoleForMember "viewer" = "view"
  /\ extends (served w) (rbac_request_ok (Members (Spec project)))
       (snd (reconcileRBAC project namespace w))
  /\ (fst (reconcileRBAC project namespace w) = None ->
      forall member, member ∈ Members (Spec project) ->
        binding_written member (snd (reconcileRBAC project namespace w))).
Proof.
  split; [apply getRoleForMember_spec|].
  split; [reflexivity|].
  split.
  - apply (reconcileMembers_requests project namespace (Members (Spec project))
             (Members (Spec project)) (served w) w); [done|apply extends_refl].
  - apply (reconcileMembers_covers project namespace (Members (Spec project)) w).
Qed.

End access_levels.

(** ** The namespace of a project *)

Section project_namespace.

Import project_types.
Import ProjectReconciler.

(** What scenario A expects of a store: the namespace [namespace] exists,
    and the status of the project [name] records it with phase "Active"
    and no virtual machine counted. *)
Definition scenario_A (name namespace : string) (w : World) : Prop :=
  is_Some (namespaces w !! namespace) /\
  exists p, projects w !! name = Some p /\
    Namespace (Status p) = namespace /\
    Phase (Status p) = "Active" /\
    VMCount (Status p) = 0.

(** A project as the store holds it right after its creation. *)
Definition new_project (name : string) (spec : ProjectSpec) : Project :=
  mkProject (metav1.mkObjectMeta name "" 1 None [] ∅) spec
    (mkProjectStatus "" "" 0 0 0 []).

(** A cluster that holds the project "demo", without members, and nothing
    else. *)
Definition demo_world : World :=
  mkWorld ∅ ∅ ∅ {["demo" := new_project "demo" (mkProjectSpec "" [] None)]} ∅ ∅ 0 [] [].

(** The store after the two reconciles that follow the creation of
    "demo": the first claims the project with the finalizer and asks to
    be run again, the second does the work. *)
Definition demo_reconciled : World :=
  snd (Reconcile "demo" (snd (Reconcile "demo" demo_world))).

(** C4, as stated, fails: after the reconciles of project "demo" there is
    no namespace "workspace-demo", so the scenario does not hold for that
    name. *)
Lemma C4_counterexample_workspace_demo :
  ~ scenario_A "demo" "workspace-demo" demo_reconciled.
Proof.
  intros [[ns Hns] _]. vm_compute in Hns. discriminate.
Qed.

Lemma no_faults_next (w : World) : faults w = [] -> next_fault w = None.
Proof. unfold next_fault. by intros ->. Qed.

(** C4, amended. Reconciling a claimed project without members on a
    store that serves every call succeeds; the namespace named "project-"
    followed by the project's name then exists with the labels of the
    project, and the status of the project records that namespace and the
    phase "Active", with the VM count left as it was (zero for a new
    project). *)
Theorem C4_project_namespace (name : string) (p : Project) (w : World) :
  projects w !! name = Some p ->
  metav1.IsZero (metav1.DeletionTimestamp (ObjectMeta p)) = true ->
  metav1.ContainsFinalizer (ObjectMeta p) projectFinalizer = true ->
  Members (Spec p) = [] ->
  faults w = [] ->
  let out := Reconcile name w in
  let namespace := "project-" +:+ name in
  fst out = (ctrl.Result0, None)
  /\ (exists ns,
        namespaces (snd out) !! namespace = Some ns /\
        corev1.Name ns = namespace /\
        corev1.Labels ns =
          <["llmcloud.io/managed" := "true"]> (<["llmcloud.io/project" := name]> ∅))
  /\ (exists p',
        projects (snd out) !! name = Some p' /\
        Namespace (Status p') = namespace /\
        Phase (Status p') = "Active" /\
        VMCount (Status p') = VMCount (Status p)).
Proof.
  intros Hp Hdel Hfin Hmem Hf.
  wp_start (Reconcile name) w.
  unfold Reconcile. wp_step. unfold client.GetProject. wp_step; [no_fault Hf|].
  unfold metav1.ContainsFinalizer in *. world_simpl.
  rewrite Hdel, Hfin. cbn [negb].
  wp_step. unfold reconcileNamespace, SetControllerReference. world_simpl.
  change (negb (String.eqb "" "")) with false. cbv iota.
  wp_step. unfold client.GetNamespace. wp_step; [no_fault Hf| |].
  - wp_step. unfold client.UpdateNamespace. wp_step; [no_fault Hf|].
    wp_step. wp_step. unfold reconcileRBAC. world_simpl. rewrite Hmem.
    cbn [reconcileMembers]. wp_step. wp_step. wp_step. wp_step.
    unfold client.StatusUpdateProject. wp_step; [no_fault Hf|]. wp_step.
    split; [reflexivity|]. split.
    + eexists. split; [apply lookup_insert_eq|]. by split.
    + eexists. split; [apply lookup_insert_eq|]. by repeat split.
  - rewrite NotFound_IsNotFound.
    wp_step. unfold client.CreateNamespace. wp_step; [no_fault Hf|].
    wp_step. wp_step. unfold reconcileRBAC. world_simpl. rewrite Hmem.
    cbn [reconcileMembers]. wp_step. wp_step. wp_step. wp_step.
    unfold client.StatusUpdateProject. wp_step; [no_fault Hf|]. wp_step.
    split; [reflexivity|]. split.
    + eexists. split; [apply lookup_insert_eq|]. by split.
    + eexists. split; [apply lookup_insert_eq|]. by repeat split.
Qed.

(** The scenario of C4 on the project "demo": the first reconcile claims
    the project and asks to be run again; the theorem applies to the
    store it leaves. *)
Lemma C4_project_namespace_demo :
  scenario_A "demo" "project-demo" demo_reconciled.
Proof.
  pose proof (C4_project_namespace "demo"
                (mkProject
                   (metav1.mkObjectMeta "demo" "" 1 None [projectFinalizer] ∅)
                   (mkProjectSpec "" [] None) (mkProjectStatus "" "" 0 0 0 []))
                (snd (Reconcile "demo" demo_world))
                eq_refl eq_refl eq_refl eq_refl eq_refl) as (_ & [ns [Hns _]] & Hp).
  split; [by exists ns | exact Hp].
Defined.


End project_namespace.

(** ** Status projection of a virtual machine *)

Section status_projection.

Import virtualmachine_types.
Import VirtualMachineReconciler.

(** What an instance reports: its phase, its node, and the address of
    its first interface. *)
Definition reported_phase (vmi : Unstructured) : option string :=
  NestedString vmi ["status"; "phase"].

Definition reported_node (vmi : Unstructured) : option string :=
  NestedString vmi ["status"; "nodeName"].

Definition reported_ip (vmi : Unstructured) : option string :=
  match NestedSlice vmi ["status"; "interfaces"] with
  | VMap iface :: _ => as_string (field "ipAddress" iface)
  | _ => None
  end.

(** The status [s] was projected for [vm]: it is what the last request to
    the store, a write of the status of [vm], carries, and what the store
    holds for [vm] when it accepted the write. *)
Definition projected (vm : VirtualMachine) (w' : World) (s : VirtualMachineStatus) : Prop :=
  exists answer,
    last (served w') = Some (StatusUpdate_VirtualMachine (set_Status s vm), answer) /\
    (answer = None ->
     Status <$> virtualmachines w' !! (Namespace vm, Name vm) = Some s).

Lemma SetStatusCondition_find (now : metav1.Time) (conditions : list metav1.Condition)
    (c : metav1.Condition) :
  exists c',
    metav1.FindStatusCondition (metav1.SetStatusCondition now conditions c)
      (metav1.Type_ c) = Some c' /\
    metav1.Status c' = metav1.Status c /\
    metav1.Reason c' = metav1.Reason c /\
    metav1.Message c' = metav1.Message c /\
    metav1.ObservedGeneration c' = metav1.ObservedGeneration c.
Proof.
  induction conditions as [|c0 rest IH]; simpl.
  - rewrite String.eqb_refl. eexists. split; [reflexivity|]. by repeat split.
  - destruct (String.eqb (metav1.Type_ c0) (metav1.Type_ c)) eqn:E; simpl.
    + rewrite E. eexists. split; [reflexivity|]. by repeat split.
    + rewrite E. exact IH.
Qed.

Lemma NestedField_under (obj : Unstructured) (parent child : string) :
  NestedField (VMap obj) [parent; child] = field child (NestedMap obj [parent]).
Proof.
  unfold NestedMap. cbn [NestedField].
  destruct (field parent obj) as [[| | |m]|]; cbn [as_map field]; try reflexivity.
  by destruct (field child m).
Qed.

Lemma project_vmi_status_fields (vmi : Unstructured) (s : VirtualMachineStatus) :
  let s' := project_vmi_status (NestedMap vmi ["status"]) s in
  Phase s' = default (Phase s) (reported_phase vmi)
  /\ Ready s' = match reported_phase vmi with
               | Some phase => String.eqb phase "Running"
               | None => Ready s
               end
  /\ Node s' = default (Node s) (reported_node vmi)
  /\ IPAddress s' = default (IPAddress s) (reported_ip vmi)
  /\ Conditions s' = Conditions s.
Proof.
  unfold reported_phase, reported_node, reported_ip, NestedSlice, NestedString.
  rewrite !NestedField_under.
  generalize (NestedMap vmi ["status"]) as st. intros st.
  unfold project_vmi_status.
  destruct (as_string (field "phase" st)) as [phase|];
    destruct (as_string (field "nodeName" st)) as [node|];
    (destruct (as_list (field "interfaces" st)) as [[|[| | |iface] ifaces]|];
     simpl;
     try destruct (as_string (field "ipAddress" iface)) as [ip|];
     repeat split; reflexivity).
Qed.

(** C5. Status projection by [updateVMStatusFromVMI], when the fetch of
    the instance is answered: without an instance the projected status has
    phase "Pending" and ready false; with an instance the phase is the one
    the instance reports, ready says whether that phase is "Running", and
    node and address are the reported node and the address of the first
    interface; a field the instance does not report keeps its value.  A
    fetch the store refuses projects nothing. *)
Theorem C5_status_projection (vm : VirtualMachine) (w : World) :
  let out := updateVMStatusFromVMI vm w in
  match next_fault w with
  | Some f =>
      fst out = (vm, Some (fault_error f)) /\
      virtualmachines (snd out) = virtualmachines w
  | None =>
      match kubevirt_vmis w !! (Namespace vm, Name vm) with
      | None =>
          projected vm (snd out)
            (mkVirtualMachineStatus "Pending" (Node (Status vm))
               (IPAddress (Status vm)) false (Conditions (Status vm)))
      | Some vmi =>
          exists s,
            projected vm (snd out) s /\
            Phase s = default (Phase (Status vm)) (reported_phase vmi) /\
            Ready s = match reported_phase vmi with
                      | Some phase => String.eqb phase "Running"
                      | None => Ready (Status vm)
                      end /\
            Node s = default (Node (Status vm)) (reported_node vmi) /\
            IPAddress s = default (IPAddress (Status vm)) (reported_ip vmi)
      end
  end.
Proof.
  wp_start (updateVMStatusFromVMI vm) w.
  unfold updateVMStatusFromVMI. wp_step. unfold client.GetKubeVirtVMI. wp_step.
  - rewrite Hfault, fault_error_not_NotFound. wp_step. by split.
  - rewrite Hserved.
    destruct (project_vmi_status_fields l (Status vm)) as (Hph & Hrd & Hnd & Hip & _).
    wp_step. wp_step. wp_step. unfold client.StatusUpdate. wp_step; wp_step.
    + eexists. split; [eexists; split; [apply last_snoc|done]|].
      by repeat split.
    + eexists. split; [eexists; split; [apply last_snoc|]|].
      * intros _. world_simpl. by rewrite lookup_insert_eq.
      * by repeat split.
    + eexists. split; [eexists; split; [apply last_snoc|done]|].
      by repeat split.
  - rewrite Hserved, NotFound_IsNotFound.
    wp_step. unfold client.StatusUpdate. wp_step; wp_step.
    + eexists. split; [apply last_snoc|done].
    + eexists. split; [apply last_snoc|].
      intros _. world_simpl. by rewrite lookup_insert_eq.
    + eexists. split; [apply last_snoc|done].
Qed.


(** C6. Once the instance of a virtual machine is fetched, the
    projected status carries the condition "Ready" with status true and
    reason "VMRunning", whatever the instance reports as its phase. *)
Theorem C6_ready_condition_always_true (vm : VirtualMachine) (w : World)
    (vmi : list (string * value)) :
  next_fault w = None ->
  kubevirt_vmis w !! (Namespace vm, Name vm) = Some vmi ->
  exists s c,
    projected vm (snd (updateVMStatusFromVMI vm w)) s /\
    metav1.FindStatusCondition (Conditions s) "Ready" = Some c /\
    metav1.Status c = metav1.ConditionTrue /\
    metav1.Reason c = "VMRunning" /\
    metav1.Message c = "Virtual machine is running".
Proof.
  intros Hserved Hvmi.
  wp_start (updateVMStatusFromVMI vm) w.
  unfold updateVMStatusFromVMI. wp_step. unfold client.GetKubeVirtVMI.
  wp_step; [congruence|].
  wp_step. wp_step. wp_step.
  match goal with
  | |- context [metav1.SetStatusCondition ?now ?conds ?c] =>
      destruct (SetStatusCondition_find now conds c) as (c' & Hfind & Hst & Hre & Hme & _)
  end.
  unfold client.StatusUpdate. wp_step; wp_step.
  - eexists _, c'. split; [eexists; split; [apply last_snoc|done]|].
    by repeat split.
  - eexists _, c'. split; [eexists; split; [apply last_snoc|]|].
    + intros _. world_simpl. by rewrite lookup_insert_eq.
    + by repeat split.
  - eexists _, c'. split; [eexists; split; [apply last_snoc|done]|].
    by repeat split.
Qed.

(** A virtual machine whose instance has failed. *)
Definition failed_vm : VirtualMachine :=
  mkVirtualMachine
    (metav1.mkObjectMeta "vm1" "default" 1 None [vmFinalizer] ∅)
    (mkVirtualMachineSpec 2 "4Gi" "" "ubuntu" "22.04" "" [] "Always" "")
    (mkVirtualMachineStatus "" "" "" false []).

Definition failed_vmi : list (string * value) :=
  [("status", VMap [("phase", VString "Failed")])].

Definition failed_world : World :=
  mkWorld {[("default", "vm1") := failed_vm]} ∅ {[("default", "vm1") := failed_vmi]}
    ∅ ∅ ∅ 0 [] [].

(** C6 on an instance whose phase is "Failed". *)
Lemma C6_ready_condition_failed_instance :
  reported_phase failed_vmi = Some "Failed" /\
  exists s c,
    projected failed_vm (snd (updateVMStatusFromVMI failed_vm failed_world)) s /\
    metav1.FindStatusCondition (Conditions s) "Ready" = Some c /\
    metav1.Status c = metav1.ConditionTrue /\
    metav1.Reason c = "VMRunning" /\
    metav1.Message c = "Virtual machine is running".
Proof.
  split; [reflexivity|].
  apply (C6_ready_condition_always_true failed_vm failed_world failed_vmi);
    reflexivity.
Defined.

End status_projection.

(** ** A reboot request without an external object *)

Section reboot_without_object.

Import virtualmachine_types.
Import VirtualMachineReconciler.

(** [n] reconciles of the same request in a row, as the engine retries a
    request that fails; the results of the invocations, first to last. *)
Fixpoint retries (n : nat) (req : ObjectKey) : M (list (ctrl.Result * option error)) :=
  match n with
  | O => ret []
  | S n' =>
      r <- Reconcile req ;;
      rs <- retries n' req ;;
      ret (r :: rs)
  end.

(** The requests that read and write nothing but the resource itself and
    the presence of its KubeVirt VM. *)
Definition only_fetches (r : Request) : Prop :=
  match r with
  | Get_VirtualMachine _ | Get_KubeVirtVM _ => True
  | _ => False
  end.

Lemma Reconcile_reboot_without_object (req : ObjectKey) (w : World)
    (vm : VirtualMachine) (base : list (Request * option error)) :
  virtualmachines w !! req = Some vm ->
  metav1.IsZero (metav1.DeletionTimestamp (ObjectMeta vm)) = true ->
  metav1.ContainsFinalizer (ObjectMeta vm) vmFinalizer = true ->
  metav1.Annotations (ObjectMeta vm) !! rebootAnnotation = Some "true" ->
  kubevirt_vms w !! req = None ->
  extends base only_fetches w ->
  wp (Reconcile req)
     (fun r w' =>
        is_Some (snd r) /\
        virtualmachines w' = virtualmachines w /\
        kubevirt_vms w' = kubevirt_vms w /\
        extends base only_fetches w') w.
Proof.
  intros Hvm Hdel Hfin Hann Hkv Hext.
  unfold Reconcile. wp_step. unfold client.Get. wp_step.
  - wp_step. unfold IgnoreNotFound. rewrite fault_error_not_NotFound.
    repeat split; [by eexists|extends_tac].
  - unfold metav1.ContainsFinalizer in *. world_simpl.
    rewrite Hdel, Hfin, Hann. cbn [negb]. rewrite bool_decide_eq_true_2 by done.
    wp_step. unfold rebootVM. wp_step. unfold client.GetKubeVirtVM.
    destruct req as [namespace name]. world_simpl.
    wp_step; wp_step; wp_step.
    + repeat split; [by eexists|extends_tac].
    + repeat split; [by eexists|extends_tac].
Qed.

Lemma retries_reboot_without_object (n : nat) (req : ObjectKey) (w : World)
    (vm : VirtualMachine) (base : list (Request * option error)) :
  virtualmachines w !! req = Some vm ->
  metav1.IsZero (metav1.DeletionTimestamp (ObjectMeta vm)) = true ->
  metav1.ContainsFinalizer (ObjectMeta vm) vmFinalizer = true ->
  metav1.Annotations (ObjectMeta vm) !! rebootAnnotation = Some "true" ->
  kubevirt_vms w !! req = None ->
  extends base only_fetches w ->
  wp (retries n req)
     (fun rs w' =>
        length rs = n /\
        Forall (fun r => is_Some (snd r)) rs /\
        virtualmachines w' = virtualmachines w /\
        kubevirt_vms w' = kubevirt_vms w /\
        extends base only_fetches w') w.
Proof.
  intros Hvm Hdel Hfin Hann. revert w Hvm.
  induction n as [|n IH]; intros w Hvm Hkv Hext; cbn [retries].
  - wp_step. by repeat split.
  - wp_step.
    eapply wp_mono;
      [|by apply (Reconcile_reboot_without_object req w vm base)].
    intros r w1 (Herr & Hvms & Hkvs & Hext1). cbv beta.
    wp_step. eapply wp_mono; [|apply IH; [by rewrite Hvms|by rewrite Hkvs|done]].
    intros rs w2 (Hlen & Hall & Hvms2 & Hkvs2 & Hext2). cbv beta.
    wp_step. cbn [length]. repeat split.
    + by rewrite Hlen.
    + by constructor.
    + by rewrite Hvms2.
    + by rewrite Hkvs2.
    + done.
Qed.

(** C10. A virtual machine that carries the finalizer, is not being
    deleted and asks for a reboot, while its KubeVirt VM does not exist:
    every one of [n] reconciles in a row returns an error; the resource,
    and with it the annotation, stays as it was; no KubeVirt VM is
    created; and the store is asked for nothing but the resource and the
    KubeVirt VM, so the synchronization is never reached. *)
Theorem C10_reboot_without_external_object (n : nat) (req : ObjectKey) (w : World)
    (vm : VirtualMachine) :
  virtualmachines w !! req = Some vm ->
  metav1.IsZero (metav1.DeletionTimestamp (ObjectMeta vm)) = true ->
  metav1.ContainsFinalizer (ObjectMeta vm) vmFinalizer = true ->
  metav1.Annotations (ObjectMeta vm) !! rebootAnnotation = Some "true" ->
  kubevirt_vms w !! req = None ->
  let out := retries n req w in
  length (fst out) = n /\
  Forall (fun r : ctrl.Result * option error => is_Some (snd r)) (fst out) /\
  virtualmachines (snd out) = virtualmachines w /\
  kubevirt_vms (snd out) = kubevirt_vms w /\
  extends (served w) only_fetches (snd out).
Proof.
  intros Hvm Hdel Hfin Hann Hkv.
  apply (retries_reboot_without_object n req w vm (served w)); try done.
  apply extends_refl.
Qed.

(** A virtual machine with a pending reboot request and no KubeVirt VM. *)
Definition orphan_reboot_vm : VirtualMachine :=
  mkVirtualMachine
    (metav1.mkObjectMeta "vm1" "default" 1 None [vmFinalizer]
       {[rebootAnnotation := "true"]})
    (mkVirtualMachineSpec 2 "4Gi" "" "ubuntu" "22.04" "" [] "Always" "")
    (mkVirtualMachineStatus "" "" "" false []).

Definition orphan_reboot_world : World :=
  mkWorld {[("default", "vm1") := orphan_reboot_vm]} ∅ ∅ ∅ ∅ ∅ 0 [] [].

(** C10 on three reconciles of such a virtual machine. *)
Lemma C10_reboot_without_external_object_three_retries :
  let out := retries 3 ("default", "vm1") orphan_reboot_world in
  length (fst out) = 3%nat /\
  Forall (fun r : ctrl.Result * option error => is_Some (snd r)) (fst out) /\
  virtualmachines (snd out) = virtualmachines orphan_reboot_world /\
  kubevirt_vms (snd out) = kubevirt_vms orphan_reboot_world /\
  extends (served orphan_reboot_world) only_fetches (snd out).
Proof.
  apply (C10_reboot_without_external_object 3 ("default", "vm1") orphan_reboot_world
           orphan_reboot_vm); reflexivity.
Defined.

End reboot_without_object.

(** The log of a reconcile started in [w], made explicit. *)
Ltac explicit_log w :=
  unfold served_since; world_simpl; rewrite <- ?app_assoc;
  rewrite drop_app_length; cbn [app].

(** Case analysis on the membership of an entry in an explicit log. *)
Ltac log_cases H :=
  repeat match type of H with
         | _ ∈ [] => by apply elem_of_nil in H
         | _ ∈ _ :: _ => apply elem_of_cons in H as [H|H]; [try discriminate H|]
         end.

(** One step of [Reconcile] and of the functions it calls. *)
Ltac reconcile_step :=
  lazymatch goal with
  | |- wp (if IsNotFound (fault_error _) then _ else _) _ _ =>
      rewrite fault_error_not_NotFound
  | |- wp (if IsNotFound (NotFound _ _) then _ else _) _ _ =>
      rewrite NotFound_IsNotFound
  | |- wp (match IgnoreNotFound (Some (fault_error _)) with _ => _ end) _ _ =>
      cbn [IgnoreNotFound]; rewrite fault_error_not_NotFound
  | |- wp (match IgnoreNotFound (Some (NotFound _ _)) with _ => _ end) _ _ =>
      cbn [IgnoreNotFound]; rewrite NotFound_IsNotFound
  | |- wp (match IgnoreNotFound None with _ => _ end) _ _ =>
      cbn [IgnoreNotFound]
  | |- wp (ret (_, IgnoreNotFound (Some (fault_error _)))) _ _ =>
      cbn [IgnoreNotFound]; rewrite fault_error_not_NotFound
  | |- wp (ret (_, IgnoreNotFound (Some (NotFound _ _)))) _ _ =>
      cbn [IgnoreNotFound]; rewrite NotFound_IsNotFound
  | |- wp (if ?b then _ else _) _ _ => destruct b eqn:?
  | |- wp (match ?x with _ => _ end) _ _ => destruct x eqn:?
  | |- wp (bind _ _) _ _ => wp_step
  | |- wp (ret _) _ _ => wp_step
  | |- wp Now _ _ => wp_step
  | |- wp (call _ _) _ _ => wp_step
  | |- wp _ _ _ =>
      progress
        (unfold client.Get, client.Update, client.StatusUpdate, client.GetKubeVirtVM,
           client.UpdateKubeVirtVM, client.ApplyKubeVirtVM, client.DeleteKubeVirtVM,
           client.GetKubeVirtVMI, VirtualMachineReconciler.finalizeVM,
           VirtualMachineReconciler.rebootVM, VirtualMachineReconciler.synchronize,
           VirtualMachineReconciler.reconcileKubeVirtVM,
           VirtualMachineReconciler.updateVMStatusFromVMI,
           VirtualMachineReconciler.updateVMStatus)
  end.

(** ** Deletion: the finalizer and the external object *)

Section finalizer_ordering.

Import virtualmachine_types.
Import VirtualMachineReconciler.







End finalizer_ordering.

(** ** Which failures a reconcile returns *)

Section returned_errors.

Import virtualmachine_types.
Import VirtualMachineReconciler.






End returned_errors.

(** ** Reboot *)

Section reboot.

Import virtualmachine_types.
Import VirtualMachineReconciler.

(** The run strategy a KubeVirt VM object carries. *)
Definition runStrategy_of (obj : Unstructured) : option string :=
  NestedString obj ["spec"; "runStrategy"].


(** The log of a reconcile that went through a reboot: the fetch of the
    resource, the fetch of the KubeVirt VM, its update to halted, its
    update to always, the update of the resource, and what follows. *)
Definition reboot_log (req : ObjectKey) (halted always : Unstructured)
    (vm' : VirtualMachine) (answer : option error)
    (rest : list (Request * option error)) : list (Request * option error) :=
  (Get_VirtualMachine req, None) :: (Get_KubeVirtVM req, None) ::
  (Update_KubeVirtVM halted, None) :: (Update_KubeVirtVM always, None) ::
  (Update_VirtualMachine vm', answer) :: rest.

Lemma SetNestedField_runStrategy (obj obj' : Unstructured) (strategy : string) :
  SetNestedField obj (VString strategy) ["spec"; "runStrategy"] = inr obj' ->
  runStrategy_of obj' = Some strategy.
Proof.
  intros H. pose proof (SetNestedField_two_levels obj (VString strategy) "spec" "runStrategy") as Hs.
  rewrite H in Hs. destruct Hs as (Hs & _). unfold runStrategy_of, NestedString.
  by rewrite Hs.
Qed.


Lemma reboot_performed (req : ObjectKey) (w : World) (vm : VirtualMachine)
    (kv : list (string * value)) :
  virtualmachines w !! req = Some vm ->
  metav1.IsZero (metav1.DeletionTimestamp (ObjectMeta vm)) = true ->
  metav1.ContainsFinalizer (ObjectMeta vm) vmFinalizer = true ->
  metav1.Annotations (ObjectMeta vm) !! rebootAnnotation = Some "true" ->
  faults w = [] ->
  kubevirt_vms w !! req = Some kv ->
  client.object_key kv = req ->
  (forall x, field "spec" kv = Some x -> exists m, x = VMap m) ->
  let out := Reconcile req w in
  let new := served_since w (snd out) in
  exists halted always vm' rest,
    new = reboot_log req halted always vm' None rest /\
    runStrategy_of halted = Some "Halted" /\
    runStrategy_of always = Some "Always" /\
    exists stored,
      virtualmachines (snd out) !! req = Some stored /\
      metav1.Annotations (ObjectMeta stored) !! rebootAnnotation = None.
Proof.
  intros Hvm Hdel Hfin Hann Hf Hkv Hkey Hspec.
  destruct req as [namespace name].
  destruct (SetNestedField kv (VString "Halted") ["spec"; "runStrategy"])
    as [e|halted] eqn:Hhalted.
  { pose proof (SetNestedField_two_levels kv (VString "Halted") "spec" "runStrategy") as Hs.
    rewrite Hhalted in Hs. destruct Hs as (x & Hx & Hnomap).
    destruct (Hspec x Hx) as [m ->]. discriminate Hnomap. }
  destruct (SetNestedField_again kv halted (VString "Halted") (VString "Always")
              "spec" "runStrategy" Hhalted) as [always Halways].
  destruct (SetNestedField_spec_object_key _ _ _ _ Hhalted) as [Hns1 Hn1].
  destruct (SetNestedField_spec_object_key _ _ _ _ Halways) as [Hns2 Hn2].
  assert (Hk1 : client.object_key halted = (namespace, name)).
  { rewrite <- Hkey. unfold client.object_key. by rewrite Hns1, Hn1. }
  assert (Hk2 : client.object_key always = (namespace, name)).
  { rewrite <- Hk1. unfold client.object_key. by rewrite Hns2, Hn2. }
  wp_start (Reconcile (namespace, name)) w.
  unfold Reconcile. wp_step. unfold client.Get. wp_step; [no_fault Hf|].
  unfold metav1.ContainsFinalizer in *. world_simpl.
  rewrite Hdel, Hfin, Hann. cbn [negb]. rewrite bool_decide_eq_true_2 by done.
  wp_step. unfold rebootVM. wp_step. unfold client.GetKubeVirtVM.
  wp_step; [no_fault Hf|].
  rewrite Hhalted. wp_step. unfold client.UpdateKubeVirtVM. rewrite Hk1.
  wp_step; [no_fault Hf|].
  rewrite Halways. wp_step. rewrite Hk2.
  wp_step; [no_fault Hf| |by rewrite lookup_insert_eq in Heqo].
  wp_step. wp_step. unfold client.Update. world_simpl.
  wp_step; try (no_fault Hf);
    try (exfalso; unfold client.released in *; world_simpl; rewrite Hdel in *;
         discriminate);
    try (match goal with
         | H : bool_decide (?x <> ?x) = true |- _ =>
             apply bool_decide_eq_true in H; by destruct H
         end).
  repeat (reconcile_step; try (no_fault Hf)).
  all: repeat match goal with
              | H : <[?k:=_]> _ !! ?k = _ |- _ =>
                  rewrite lookup_insert_eq in H; simplify_eq
              end.
  all: explicit_log w.
  all: try discriminate.
  all: eexists _, _, _, _; split; [reflexivity|];
       split; [by eapply SetNestedField_runStrategy|];
       split; [by eapply SetNestedField_runStrategy|].
  all: eexists; split; [apply lookup_insert_eq|]; world_simpl;
       apply lookup_delete_eq.
Qed.


(** A running virtual machine with a reboot request, and its KubeVirt
    VM. *)
Definition rebooting_vm : VirtualMachine :=
  mkVirtualMachine
    (metav1.mkObjectMeta "vm1" "default" 1 None [vmFinalizer]
       {[rebootAnnotation := "true"]})
    (mkVirtualMachineSpec 2 "4Gi" "" "ubuntu" "22.04" "" [] "Always" "")
    (mkVirtualMachineStatus "Running" "node1" "10.0.0.7" true []).



End reboot.

(** ** Server-side apply is idempotent *)

Section apply_idempotent.


(** The merge of one applied field into the fields of an object. *)
Definition apply_field (em : list (string * value)) (kv : string * value)
  : list (string * value) :=
  set_field (fst kv)
    (match field (fst kv) em with
     | Some old => apply_value (snd kv) old
     | None => snd kv
     end) em.

Lemma apply_object_fold (dm em : list (string * value)) :
  apply_object dm em = fold_left apply_field dm em.
Proof. reflexivity. Qed.

Lemma apply_value_map (dm em : list (string * value)) :
  apply_value (VMap dm) (VMap em) = VMap (apply_object dm em).
Proof. reflexivity. Qed.











(** What [wf_value] checks of the fields of a map. *)
Fixpoint fresh_fields (m : list (string * value)) (seen : list string) : bool :=
  match m with
  | [] => true
  | (k, x) :: m' =>
      negb (existsb (String.eqb k) seen) && wf_value x && fresh_fields m' (k :: seen)
  end.

Lemma wf_value_map (m : list (string * value)) :
  wf_value (VMap m) = fresh_fields m [].
Proof.
  cbn [wf_value]. generalize (@nil string) as seen.
  induction m as [|[k x] m IH]; intros seen; [reflexivity|].
  cbn [fresh_fields]. by rewrite IH.
Qed.

Lemma fresh_fields_spec (m : list (string * value)) (seen : list string) :
  fresh_fields m seen = true ->
  NoDup (map fst m) /\
  (forall k, k ∈ seen -> k ∉ map fst m) /\
  Forall (fun kv => wf_value (snd kv) = true) m.
Proof.
  revert seen. induction m as [|[k x] m IH]; intros seen H.
  - split; [constructor|]. split; [|constructor]. intros k _ Hin.
    by apply elem_of_nil in Hin.
  - cbn [fresh_fields] in H.
    apply andb_true_iff in H as [H Hrest]. apply andb_true_iff in H as [Hk Hx].
    destruct (IH _ Hrest) as (Hnodup & Hseen & Hall).
    apply negb_true_iff in Hk.
    split; [|split].
    + cbn [map fst]. apply NoDup_cons. split; [|exact Hnodup].
      apply (Hseen k). by left.
    + intros k' Hk' Hin. cbn [map fst] in Hin.
      apply elem_of_cons in Hin as [->|Hin].
      * assert (existsb (String.eqb k) seen = true) as Hex; [|congruence].
        apply existsb_exists. exists k. split; [by apply list_elem_of_In|].
        apply String.eqb_refl.
      * apply (Hseen k'); [by right|exact Hin].
    + by constructor.
Qed.


End apply_idempotent.

(** ** Reconciling twice *)

Section idempotence.

Import virtualmachine_types.
Import VirtualMachineReconciler.

Lemma buildKubeVirtVM_wf (vm : VirtualMachine) :
  wf_value (VMap (buildKubeVirtVM vm)) = true.
Proof.
  unfold buildKubeVirtVM.
  match goal with |- context [if negb ?b then _ else _] => destruct b end;
    reflexivity.
Qed.

Lemma buildKubeVirtVM_object_key (vm : VirtualMachine) :
  client.object_key (buildKubeVirtVM vm) = (Namespace vm, Name vm).
Proof. reflexivity. Qed.


(** The KubeVirt VM the store holds after an apply of [desired]. *)
Definition applied (desired : Unstructured) (existing : option Unstructured)
  : Unstructured :=
  match existing with
  | Some old => apply_object desired old
  | None => desired
  end.


(** The condition [updateVMStatusFromVMI] sets. *)
Definition ready_condition (generation : Z) : metav1.Condition :=
  metav1.mkCondition "Ready" metav1.ConditionTrue generation 0
    "VMRunning" "Virtual machine is running".

(** The status [updateVMStatusFromVMI] writes, given the instance it
    fetched and the time it read. *)
Definition projection (vmi : option Unstructured) (now : metav1.Time) (generation : Z)
    (s : VirtualMachineStatus) : VirtualMachineStatus :=
  match vmi with
  | None =>
      mkVirtualMachineStatus PhasePending (Node s) (IPAddress s) false (Conditions s)
  | Some vmi =>
      set_Conditions
        (metav1.SetStatusCondition now
           (Conditions (project_vmi_status (NestedMap vmi ["status"]) s))
           (ready_condition generation))
        (project_vmi_status (NestedMap vmi ["status"]) s)
  end.

Lemma SetStatusCondition_twice (now now' : metav1.Time)
    (conditions : list metav1.Condition) (c : metav1.Condition) :
  metav1.SetStatusCondition now' (metav1.SetStatusCondition now conditions c) c =
  metav1.SetStatusCondition now conditions c.
Proof.
  assert (Hupdate : forall c0,
             metav1.Status c0 = metav1.Status c ->
             metav1.ObservedGeneration c0 = metav1.ObservedGeneration c ->
             metav1.Reason c0 = metav1.Reason c ->
             metav1.Message c0 = metav1.Message c ->
             metav1.update_condition now' c0 c = c0).
  { intros [t st g lt re me] Hst Hg Hre Hme. cbn in *. subst.
    unfold metav1.update_condition. cbn.
    by rewrite decide_True. }
  induction conditions as [|c0 rest IH]; cbn [metav1.SetStatusCondition].
  - cbn [metav1.Type_]. rewrite String.eqb_refl. f_equal. by apply Hupdate.
  - destruct (String.eqb (metav1.Type_ c0) (metav1.Type_ c)) eqn:E;
      cbn [metav1.SetStatusCondition].
    + change (metav1.Type_ (metav1.update_condition now c0 c))
        with (metav1.Type_ c0).
      rewrite E. f_equal. by apply Hupdate.
    + rewrite E. by rewrite IH.
Qed.



(** What a synchronization does to a store that serves every call: the
    KubeVirt VM becomes the applied one, the status of the resource the
    projected one, nothing else changes. *)
Lemma synchronize_effect (vm old : VirtualMachine) (w : World) :
  faults w = [] ->
  virtualmachines w !! (Namespace vm, Name vm) = Some old ->
  wp (synchronize vm)
     (fun r w' =>
        r = (ctrl.Result0, None) /\
        faults w' = [] /\
        kubevirt_vmis w' = kubevirt_vmis w /\
        kubevirt_vms w' =
          <[(Namespace vm, Name vm) :=
              applied (buildKubeVirtVM vm) (kubevirt_vms w !! (Namespace vm, Name vm))]>
            (kubevirt_vms w) /\
        virtualmachines w' =
          <[(Namespace vm, Name vm) :=
              mkVirtualMachine
                (client.named (Namespace vm, Name vm) (ObjectMeta old)) (Spec old)
                (projection (kubevirt_vmis w !! (Namespace vm, Name vm))
                   (clock w + 2) (Generation vm) (Status vm))]>
            (virtualmachines w)) w.
Proof.
  intros Hf Hold.
  unfold synchronize, reconcileKubeVirtVM, client.ApplyKubeVirtVM.
  rewrite buildKubeVirtVM_object_key.
  repeat (reconcile_step; try (no_fault Hf)).
  all: try discriminate.
  all: world_simpl; rewrite Hf; cbn [applied projection]; repeat split.
  all: replace (clock w + 1 + 1) with (clock w + 2) by lia; reflexivity.
Qed.

(** The resource [vm] is stored under [req], carries the finalizer, is
    not being deleted and asks for no reboot: a reconcile goes straight to
    the synchronization. *)
Definition steady (req : ObjectKey) (w : World) (vm : VirtualMachine) : Prop :=
  virtualmachines w !! req = Some vm /\
  metav1.IsZero (metav1.DeletionTimestamp (ObjectMeta vm)) = true /\
  metav1.ContainsFinalizer (ObjectMeta vm) vmFinalizer = true /\
  metav1.Annotations (ObjectMeta vm) !! rebootAnnotation <> Some "true".

(** The resource as [client.Get] hands it out. *)
Definition fetched (req : ObjectKey) (vm : VirtualMachine) : VirtualMachine :=
  set_ObjectMeta (client.named req (ObjectMeta vm)) vm.

Lemma Reconcile_steady_effect (req : ObjectKey) (w : World) (vm : VirtualMachine) :
  faults w = [] ->
  steady req w vm ->
  wp (Reconcile req)
     (fun r w' =>
        r = (ctrl.Result0, None) /\
        faults w' = [] /\
        kubevirt_vmis w' = kubevirt_vmis w /\
        kubevirt_vms w' =
          <[req := applied (buildKubeVirtVM (fetched req vm)) (kubevirt_vms w !! req)]>
            (kubevirt_vms w) /\
        virtualmachines w' =
          <[req := mkVirtualMachine (client.named req (ObjectMeta vm)) (Spec vm)
                     (projection (kubevirt_vmis w !! req) (clock w + 3)
                        (metav1.Generation (ObjectMeta vm)) (Status vm))]>
            (virtualmachines w)) w.
Proof.
  intros Hf (Hvm & Hdel & Hfin & Hann).
  destruct req as [namespace name].
  unfold Reconcile. wp_step. unfold client.Get. wp_step; [no_fault Hf|].
  unfold metav1.ContainsFinalizer in *. world_simpl.
  rewrite Hdel, Hfin. cbn [negb]. rewrite bool_decide_eq_false_2 by done.
  eapply wp_mono;
    [|apply (synchronize_effect (fetched (namespace, name) vm) vm)].
  - intros r w' (-> & Hf' & Hvmis & Hkvs & Hvms).
    unfold fetched in *. world_simpl.
    split; [reflexivity|]. split; [exact Hf'|]. split; [exact Hvmis|].
    split; [exact Hkvs|]. rewrite Hvms.
    replace (clock w + 1 + 2) with (clock w + 3) by lia. reflexivity.
  - world_simpl. by rewrite Hf.
  - unfold fetched. world_simpl. exact Hvm.
Qed.




(** A running virtual machine, its KubeVirt VM and its instance. *)
Definition running_vm : VirtualMachine :=
  mkVirtualMachine
    (metav1.mkObjectMeta "vm1" "default" 1 None [vmFinalizer] ∅)
    (mkVirtualMachineSpec 2 "4Gi" "" "ubuntu" "22.04" "" [] "Always" "")
    (mkVirtualMachineStatus "" "" "" false []).

Definition running_world : World :=
  mkWorld {[("default", "vm1") := running_vm]} ∅
    {[("default", "vm1") :=
        [("status",
          VMap [("phase", VString "Running"); ("nodeName", VString "node1");
                ("interfaces", VList [VMap [("ipAddress", VString "10.0.0.7")]])])]]}
    ∅ ∅ ∅ 100 [] [].


End idempotence.

(** * Further properties *)

(** ** Images and tags *)

Section image_tags.

Import virtualmachine_types.

Lemma last_index_none (s : string) (i : Z) :
  has_colon s = false -> last_index ":"%char s i = -1.
Proof.
  revert i. induction s as [|a s IH]; intros i H; simpl in *.
  - reflexivity.
  - apply orb_false_iff in H as [Ha Hs]. rewrite (IH _ Hs). simpl. by rewrite Ha.
Qed.

(** The backwards loop stops at the last colon: what follows it has none. *)
Lemma last_index_some (s : string) (i : Z) :
  0 <= i ->
  has_colon s = true ->
  exists pre post,
    s = pre +:+ ":" +:+ post /\ has_colon post = false /\
    last_index ":"%char s i = i + Z.of_nat (String.length pre).
Proof.
  revert i. induction s as [|a s IH]; intros i Hi H; simpl in *; [discriminate|].
  destruct (has_colon s) eqn:Hs.
  - destruct (IH (i + 1) ltac:(lia) eq_refl) as (pre & post & -> & Hpost & Hidx).
    exists (String a pre), post. split; [reflexivity|]. split; [exact Hpost|].
    rewrite Hidx.
    destruct (Z.eqb_spec (i + 1 + Z.of_nat (String.length pre)) (-1)); [lia|].
    simpl String.length. lia.
  - rewrite orb_false_r in H. rewrite (last_index_none _ _ Hs). simpl. rewrite H.
    apply Ascii.eqb_eq in H as ->.
    exists "", s. split; [reflexivity|]. split; [exact Hs|]. simpl. lia.
Qed.

Lemma substring_prefix (pre rest : string) :
  substring 0 (String.length pre) (pre +:+ rest) = pre.
Proof.
  induction pre as [|a pre IH]; simpl.
  - by destruct rest.
  - by rewrite IH.
Qed.

Lemma substring_all (s : string) : substring 0 (String.length s) s = s.
Proof. induction s as [|a s IH]; simpl; [reflexivity|]. by rewrite IH. Qed.

Lemma substring_suffix (pre rest : string) :
  substring (String.length pre) (String.length rest) (pre +:+ rest) = rest.
Proof.
  induction pre as [|a pre IH]; simpl; [apply substring_all|exact IH].
Qed.

Lemma string_append_assoc (s t u : string) : (s +:+ t) +:+ u = s +:+ t +:+ u.
Proof.
  induction s as [|a s IH]; [reflexivity|].
  change (String a ((s +:+ t) +:+ u) = String a (s +:+ t +:+ u)). by rewrite IH.
Qed.

Lemma string_length_append (s t : string) :
  String.length (s +:+ t) = (String.length s + String.length t)%nat.
Proof. induction s as [|a s IH]; simpl; [reflexivity|]. by rewrite IH. Qed.

(** X1. [splitImageTag] splits at the last colon, unless the image has no
    colon after its first byte: then the whole image is the repository and
    the tag is "latest".  When it splits, repository, colon and tag make up
    the image again; the repository is not empty and the tag holds no
    colon. *)
Theorem splitImageTag_round_trip (image : string) :
  let parts := splitImageTag image in
  has_colon (snd parts) = false /\
  match image with
  | EmptyString => parts = ("", "latest")
  | String a rest =>
      if has_colon rest
      then fst parts +:+ ":" +:+ snd parts = image /\ fst parts <> ""
      else parts = (image, "latest")
  end.
Proof.
  cbv zeta. destruct image as [|a rest]; [by split|].
  unfold splitImageTag. cbn [last_index].
  destruct (has_colon rest) eqn:Hrest.
  - destruct (last_index_some rest (0 + 1) ltac:(lia) Hrest)
      as (pre & post & -> & Hpost & Hidx).
    rewrite Hidx.
    destruct (Z.eqb_spec (0 + 1 + Z.of_nat (String.length pre)) (-1)); [lia|].
    destruct (Z.ltb_spec 0 (0 + 1 + Z.of_nat (String.length pre))); [|lia].
    set (repo := String a pre).
    assert (Hfst : substring 0 (Z.to_nat (0 + 1 + Z.of_nat (String.length pre)))
                     (String a (pre +:+ ":" +:+ post)) = repo).
    { replace (Z.to_nat (0 + 1 + Z.of_nat (String.length pre)))
        with (String.length repo) by (simpl; lia).
      apply (substring_prefix repo (":" +:+ post)). }
    assert (Hsnd : substring (Z.to_nat (0 + 1 + Z.of_nat (String.length pre) + 1))
                     (String.length (String a (pre +:+ ":" +:+ post)) -
                      Z.to_nat (0 + 1 + Z.of_nat (String.length pre) + 1))
                     (String a (pre +:+ ":" +:+ post)) = post).
    { change (String a (pre +:+ ":" +:+ post)) with (repo +:+ ":" +:+ post).
      rewrite <- string_append_assoc.
      replace (Z.to_nat (0 + 1 + Z.of_nat (String.length pre) + 1))
        with (String.length (repo +:+ ":")).
      2:{ rewrite string_length_append. simpl. lia. }
      replace (String.length ((repo +:+ ":") +:+ post) -
               String.length (repo +:+ ":"))%nat
        with (String.length post) by (rewrite (string_length_append (repo +:+ ":")); lia).
      apply substring_suffix. }
    rewrite Hfst, Hsnd. cbn [fst snd]. by repeat split.
  - rewrite (last_index_none _ _ Hrest). simpl.
    destruct (Ascii.eqb a ":"); by split.
Qed.

(** X2. No key of [OSImageMap] holds a colon, so the lookup of the
    versioned key [os:version] in [GetImageForOS] never finds an image: a
    version only ever replaces the tag of the image of the OS. *)
Theorem GetImageForOS_versioned_key_absent (os version : string) :
  OSImageMap !! (os +:+ ":" +:+ version) = None /\
  (version <> "" ->
   GetImageForOS os version =
     match OSImageMap !! os with
     | Some img => fst (splitImageTag img) +:+ ":" +:+ version
     | None => cirros_image
     end).
Proof.
  split; [apply OSImageMap_versioned_key|].
  intros Hv. rewrite GetImageForOS_spec.
  destruct (OSImageMap !! os); [|reflexivity].
  by destruct (String.eqb_spec version "").
Qed.

(** X3. Asking for the tag of the default image of an OS gives that
    default image: for a listed OS the repository and the tag of its
    image are put together again, for any other OS both requests fall
    back to the cirros image. *)
Theorem GetImageForOS_default_tag (os : string) :
  GetImageForOS os "" <> "" /\
  GetImageForOS os (snd (splitImageTag (GetImageForOS os ""))) = GetImageForOS os "".
Proof.
  rewrite !GetImageForOS_spec.
  destruct (OSImageMap !! os) as [img|] eqn:E; [|by split].
  apply OSImageMap_lookup_Some in E. unfold OSImageTable in E.
  repeat (apply elem_of_cons in E as [E|E];
          [injection E as -> ->; split; [discriminate|reflexivity]|]).
  by apply elem_of_nil in E.
Qed.

End image_tags.

(** Reads the next entry of a known fault script. *)
Ltac fault_script Hf :=
  repeat match goal with
         | H : next_fault _ = _ |- _ =>
             unfold next_fault in H; world_simpl; rewrite Hf in H; simpl in H;
             first [discriminate H | injection H as <- | clear H]
         end.

(** ** The other paths of a reconcile of a virtual machine *)

Section reconcile_paths.

Import virtualmachine_types.
Import VirtualMachineReconciler.

(** X4. A reconcile finds nothing to do when the resource does not exist,
    or when it is being deleted without the finalizer of this reconciler:
    it fetches the resource, asks the store for nothing else, changes
    nothing and returns no error. *)
Theorem Reconcile_nothing_to_do (req : ObjectKey) (w : World) :
  next_fault w = None ->
  match virtualmachines w !! req with
  | None => True
  | Some vm =>
      metav1.IsZero (metav1.DeletionTimestamp (ObjectMeta vm)) = false /\
      metav1.ContainsFinalizer (ObjectMeta vm) vmFinalizer = false
  end ->
  let out := Reconcile req w in
  fst out = (ctrl.Result0, None) /\
  (exists answer, served_since w (snd out) = [(Get_VirtualMachine req, answer)]) /\
  virtualmachines (snd out) = virtualmachines w /\
  kubevirt_vms (snd out) = kubevirt_vms w.
Proof.
  intros Hserved Hvm. destruct req as [namespace name].
  wp_start (Reconcile (namespace, name)) w.
  unfold Reconcile. wp_step. unfold client.Get. wp_step.
  - congruence.
  - destruct Hvm as [Hdel Hfin].
    unfold metav1.ContainsFinalizer in *. world_simpl.
    rewrite Hdel, Hfin. cbn [negb]. wp_step. explicit_log w.
    split; [reflexivity|]. split; [by eexists|]. by split.
  - wp_step. explicit_log w. cbn [IgnoreNotFound]. rewrite NotFound_IsNotFound.
    split; [reflexivity|]. split; [by eexists|]. by split.
Qed.

(** A virtual machine under deletion that this reconciler never claimed. *)
Definition unclaimed_deleting_vm : VirtualMachine :=
  mkVirtualMachine
    (metav1.mkObjectMeta "vm1" "default" 1 (Some 42) ["example.com/other"] ∅)
    (mkVirtualMachineSpec 2 "4Gi" "" "ubuntu" "22.04" "" [] "Always" "")
    (mkVirtualMachineStatus "" "" "" false []).

Definition unclaimed_deleting_world : World :=
  mkWorld {[("default", "vm1") := unclaimed_deleting_vm]}
    {[("default", "vm1") := buildKubeVirtVM unclaimed_deleting_vm]} ∅ ∅ ∅ ∅ 100 [] [].

Lemma Reconcile_nothing_to_do_unclaimed :
  let out := Reconcile ("default", "vm1") unclaimed_deleting_world in
  fst out = (ctrl.Result0, None) /\
  (exists answer,
      served_since unclaimed_deleting_world (snd out) =
        [(Get_VirtualMachine ("default", "vm1"), answer)]) /\
  virtualmachines (snd out) = virtualmachines unclaimed_deleting_world /\
  kubevirt_vms (snd out) = kubevirt_vms unclaimed_deleting_world.
Proof.
  apply (Reconcile_nothing_to_do ("default", "vm1") unclaimed_deleting_world).
  - reflexivity.
  - split; reflexivity.
Defined.

(** X5. The first reconcile of a virtual machine that is not being
    deleted and does not carry the finalizer only claims it: on a store
    that serves every call, the finalizer is added after the ones the
    resource has, spec and status stay as they are, no KubeVirt VM is
    touched, and the result asks for the request to be run again. *)
Theorem Reconcile_claims_resource (req : ObjectKey) (w : World) (vm : VirtualMachine) :
  virtualmachines w !! req = Some vm ->
  metav1.IsZero (metav1.DeletionTimestamp (ObjectMeta vm)) = true ->
  metav1.ContainsFinalizer (ObjectMeta vm) vmFinalizer = false ->
  faults w = [] ->
  let out := Reconcile req w in
  fst out = (ctrl.mkResult true 0, None) /\
  kubevirt_vms (snd out) = kubevirt_vms w /\
  (exists vm',
      served_since w (snd out) =
        [(Get_VirtualMachine req, None); (Update_VirtualMachine vm', None)]) /\
  exists stored,
    virtualmachines (snd out) = <[req := stored]> (virtualmachines w) /\
    metav1.Finalizers (ObjectMeta stored) =
      (metav1.Finalizers (ObjectMeta vm) ++ [vmFinalizer])%list /\
    metav1.Generation (ObjectMeta stored) = metav1.Generation (ObjectMeta vm) /\
    metav1.Annotations (ObjectMeta stored) = metav1.Annotations (ObjectMeta vm) /\
    Spec stored = Spec vm /\
    Status stored = Status vm.
Proof.
  intros Hvm Hdel Hfin Hf. destruct req as [namespace name].
  wp_start (Reconcile (namespace, name)) w.
  unfold Reconcile. wp_step. unfold client.Get. wp_step; [no_fault Hf|].
  unfold metav1.AddFinalizer, metav1.ContainsFinalizer in *. world_simpl.
  rewrite Hdel, Hfin. cbn [negb].
  wp_step. unfold client.Update. world_simpl.
  wp_step; try (no_fault Hf);
    try (exfalso; unfold client.released in *; world_simpl; rewrite Hdel in *;
         discriminate);
    try (match goal with
         | H : bool_decide (?x <> ?x) = true |- _ =>
             apply bool_decide_eq_true in H; by destruct H
         end).
  wp_step. explicit_log w.
  rewrite (bool_decide_eq_false_2 (Spec vm <> Spec vm)) by (intros H; by apply H).
  split; [reflexivity|]. split; [reflexivity|]. split; [by eexists|].
  eexists. split; [reflexivity|]. by repeat split.
Qed.

(** A virtual machine as the store holds it right after its creation. *)
Definition created_vm : VirtualMachine :=
  mkVirtualMachine
    (metav1.mkObjectMeta "vm1" "default" 1 None [] ∅)
    (mkVirtualMachineSpec 2 "4Gi" "" "ubuntu" "22.04" "" [] "Always" "")
    (mkVirtualMachineStatus "" "" "" false []).

Definition created_world : World :=
  mkWorld {[("default", "vm1") := created_vm]} ∅ ∅ ∅ ∅ ∅ 0 [] [].

Lemma Reconcile_claims_created_vm :
  let out := Reconcile ("default", "vm1") created_world in
  fst out = (ctrl.mkResult true 0, None) /\
  kubevirt_vms (snd out) = kubevirt_vms created_world /\
  (exists vm',
      served_since created_world (snd out) =
        [(Get_VirtualMachine ("default", "vm1"), None);
         (Update_VirtualMachine vm', None)]) /\
  exists stored,
    virtualmachines (snd out) =
      <[("default", "vm1") := stored]> (virtualmachines created_world) /\
    metav1.Finalizers (ObjectMeta stored) =
      (metav1.Finalizers (ObjectMeta created_vm) ++ [vmFinalizer])%list /\
    metav1.Generation (ObjectMeta stored) = metav1.Generation (ObjectMeta created_vm) /\
    metav1.Annotations (ObjectMeta stored) = metav1.Annotations (ObjectMeta created_vm) /\
    Spec stored = Spec created_vm /\
    Status stored = Status created_vm.
Proof.
  apply (Reconcile_claims_resource ("default", "vm1") created_world created_vm);
    reflexivity.
Defined.





(** X7. When the store refuses the apply of the KubeVirt VM, the
    reconcile returns that error, leaves the KubeVirt VMs alone and
    records the failure in the status of the resource: phase "Error", not
    ready, and a condition "Ready" that is false for the reason
    "ReconciliationError" with the text of the error as its message; node
    and address stay as they were.  The instance is not looked at. *)
Theorem Reconcile_apply_refused (req : ObjectKey) (w : World) (vm : VirtualMachine)
    (f : fault) :
  virtualmachines w !! req = Some vm ->
  metav1.IsZero (metav1.DeletionTimestamp (ObjectMeta vm)) = true ->
  metav1.ContainsFinalizer (ObjectMeta vm) vmFinalizer = true ->
  metav1.Annotations (ObjectMeta vm) !! rebootAnnotation <> Some "true" ->
  faults w = [None; Some f] ->
  let out := Reconcile req w in
  fst out = (ctrl.Result0, Some (fault_error f)) /\
  kubevirt_vms (snd out) = kubevirt_vms w /\
  (forall key answer, (Get_KubeVirtVMI key, answer) ∉ served_since w (snd out)) /\
  exists stored c,
    virtualmachines (snd out) !! req = Some stored /\
    Spec stored = Spec vm /\
    Phase (Status stored) = "Error" /\
    Ready (Status stored) = false /\
    Node (Status stored) = Node (Status vm) /\
    IPAddress (Status stored) = IPAddress (Status vm) /\
    metav1.FindStatusCondition (Conditions (Status stored)) "Ready" = Some c /\
    metav1.Status c = metav1.ConditionFalse /\
    metav1.Reason c = "ReconciliationError" /\
    metav1.Message c = Error_ (fault_error f).
Proof.
  intros Hvm Hdel Hfin Hann Hf. destruct req as [namespace name].
  wp_start (Reconcile (namespace, name)) w.
  unfold Reconcile. wp_step. unfold client.Get. wp_step; [fault_script Hf|].
  unfold metav1.ContainsFinalizer in *. world_simpl.
  rewrite Hdel, Hfin. cbn [negb]. rewrite bool_decide_eq_false_2 by done.
  unfold synchronize. wp_step. unfold reconcileKubeVirtVM. wp_step.
  unfold client.ApplyKubeVirtVM. wp_step; [|fault_script Hf..].
  fault_script Hf. wp_step. wp_step. unfold updateVMStatus. wp_step. wp_step.
  wp_step. unfold client.StatusUpdate. world_simpl.
  wp_step; [fault_script Hf|].
  wp_step. wp_step. explicit_log w.
  split; [reflexivity|]. split; [reflexivity|]. split.
  { intros key answer Hin. log_cases Hin. }
  destruct (SetStatusCondition_find (clock w + 1 + 1) (Conditions (Status vm))
              (metav1.mkCondition "Ready" metav1.ConditionFalse
                 (metav1.Generation (ObjectMeta vm)) 0 "ReconciliationError"
                 (Error_ (fault_error f)))) as (c & Hc & Hst & Hre & Hme & _).
  eexists _, c. split; [apply lookup_insert_eq|]. world_simpl.
  split; [reflexivity|]. split; [reflexivity|]. split; [reflexivity|].
  split; [reflexivity|]. split; [reflexivity|]. by repeat split.
Qed.

(** A claimed virtual machine on a cluster that refuses the second call,
    the apply, with a server error. *)
Definition apply_fault_world : World :=
  mkWorld {[("default", "vm1") := running_vm]} ∅ ∅ ∅ ∅ ∅ 100
    [None; Some (FaultInternal "admission webhook denied the request")] [].

Lemma Reconcile_apply_refused_webhook :
  let out := Reconcile ("default", "vm1") apply_fault_world in
  fst out =
    (ctrl.Result0,
     Some (fault_error (FaultInternal "admission webhook denied the request"))) /\
  kubevirt_vms (snd out) = kubevirt_vms apply_fault_world /\
  (forall key answer,
      (Get_KubeVirtVMI key, answer) ∉ served_since apply_fault_world (snd out)) /\
  exists stored c,
    virtualmachines (snd out) !! ("default", "vm1") = Some stored /\
    Spec stored = Spec running_vm /\
    Phase (Status stored) = "Error" /\
    Ready (Status stored) = false /\
    Node (Status stored) = Node (Status running_vm) /\
    IPAddress (Status stored) = IPAddress (Status running_vm) /\
    metav1.FindStatusCondition (Conditions (Status stored)) "Ready" = Some c /\
    metav1.Status c = metav1.ConditionFalse /\
    metav1.Reason c = "ReconciliationError" /\
    metav1.Message c =
      Error_ (fault_error (FaultInternal "admission webhook denied the request")).
Proof.
  apply (Reconcile_apply_refused ("default", "vm1") apply_fault_world running_vm);
    try reflexivity.
  intros H. vm_compute in H. discriminate H.
Defined.

End reconcile_paths.

(** ** A reboot that stops half way *)

Section reboot_halfway.

Import virtualmachine_types.
Import VirtualMachineReconciler.

(** X8. A reboot that stops the KubeVirt VM and is then refused the
    update that starts it again returns the error of the start, and leaves
    the KubeVirt VM in the store with run strategy "Halted": the virtual
    machine stays stopped until a later reboot or synchronization
    succeeds. *)
Theorem rebootVM_refused_start_leaves_halted (vm : VirtualMachine) (w : World)
    (kv : list (string * value)) (f : fault) :
  kubevirt_vms w !! (Namespace vm, Name vm) = Some kv ->
  client.object_key kv = (Namespace vm, Name vm) ->
  (forall x, field "spec" kv = Some x -> exists m, x = VMap m) ->
  faults w = [None; None; Some f] ->
  let out := rebootVM vm w in
  fst out = Some (Errorf "failed to start VM: " (fault_error f)) /\
  exists halted,
    kubevirt_vms (snd out) = <[(Namespace vm, Name vm) := halted]> (kubevirt_vms w) /\
    runStrategy_of halted = Some "Halted" /\
    (forall k, k <> "spec" -> field k halted = field k kv).
Proof.
  intros Hkv Hkey Hspec Hf.
  pose proof (SetNestedField_two_levels kv (VString "Halted") "spec" "runStrategy") as Hs.
  destruct (SetNestedField kv (VString "Halted") ["spec"; "runStrategy"])
    as [e|halted] eqn:Hhalted.
  { destruct Hs as (x & Hx & Hnomap).
    destruct (Hspec x Hx) as [m ->]. discriminate Hnomap. }
  destruct Hs as (_ & _ & Hother).
  destruct (SetNestedField_again kv halted (VString "Halted") (VString "Always")
              "spec" "runStrategy" Hhalted) as [always Halways].
  destruct (SetNestedField_spec_object_key _ _ _ _ Hhalted) as [Hns1 Hn1].
  destruct (SetNestedField_spec_object_key _ _ _ _ Halways) as [Hns2 Hn2].
  assert (Hk1 : client.object_key halted = (Namespace vm, Name vm)).
  { rewrite <- Hkey. unfold client.object_key. by rewrite Hns1, Hn1. }
  assert (Hk2 : client.object_key always = (Namespace vm, Name vm)).
  { rewrite <- Hk1. unfold client.object_key. by rewrite Hns2, Hn2. }
  wp_start (rebootVM vm) w.
  unfold rebootVM. wp_step. unfold client.GetKubeVirtVM.
  wp_step; [fault_script Hf|].
  rewrite Hhalted. wp_step. unfold client.UpdateKubeVirtVM. rewrite Hk1.
  wp_step; [fault_script Hf|].
  rewrite Halways. wp_step. rewrite Hk2.
  wp_step; [|fault_script Hf..].
  fault_script Hf. wp_step.
  split; [reflexivity|]. exists halted. split; [reflexivity|].
  split; [by eapply SetNestedField_runStrategy|exact Hother].
Qed.

(** A cluster that holds a running virtual machine and its KubeVirt VM,
    and refuses the third call. *)
Definition start_fault_world : World :=
  mkWorld {[("default", "vm1") := rebooting_vm]}
    {[("default", "vm1") := buildKubeVirtVM rebooting_vm]} ∅ ∅ ∅ ∅ 100
    [None; None; Some (FaultTransport "connection refused")] [].

Lemma rebootVM_refused_start_running_vm :
  let out := rebootVM rebooting_vm start_fault_world in
  fst out =
    Some (Errorf "failed to start VM: " (fault_error (FaultTransport "connection refused"))) /\
  exists halted,
    kubevirt_vms (snd out) =
      <[("default", "vm1") := halted]> (kubevirt_vms start_fault_world) /\
    runStrategy_of halted = Some "Halted" /\
    (forall k, k <> "spec" -> field k halted = field k (buildKubeVirtVM rebooting_vm)).
Proof.
  apply (rebootVM_refused_start_leaves_halted rebooting_vm start_fault_world
           (buildKubeVirtVM rebooting_vm)); try reflexivity.
  intros x [= <-]. by eexists.
Defined.

End reboot_halfway.

(** ** What an apply overwrites and what it keeps *)

Section apply_fields.

Lemma field_fold_apply_other (k : string) (dm em : list (string * value)) :
  k ∉ map fst dm -> field k (fold_left apply_field dm em) = field k em.
Proof.
  revert em. induction dm as [|kv dm IH]; intros em Hnot; [reflexivity|].
  cbn [fold_left]. rewrite IH.
  - unfold apply_field. apply field_set_field_ne.
    intros ->. apply Hnot. cbn [map]. by left.
  - intros Hin. apply Hnot. cbn [map]. by right.
Qed.

Lemma field_in_keys (k : string) (v : value) (m : list (string * value)) :
  field k m = Some v -> k ∈ map fst m.
Proof.
  induction m as [|[k' v'] m IH]; cbn [field map fst]; [discriminate|].
  destruct (String.eqb_spec k k') as [->|Hne]; intros H; [by left|].
  right. by apply IH.
Qed.

Lemma field_fold_apply_set (k : string) (v : value) (dm em : list (string * value)) :
  NoDup (map fst dm) ->
  field k dm = Some v ->
  field k (fold_left apply_field dm em) =
    Some (match field k em with
          | Some old => apply_value v old
          | None => v
          end).
Proof.
  revert em. induction dm as [|[k' v'] dm IH]; intros em Hnodup Hk; [discriminate|].
  cbn [map fst] in Hnodup. apply NoDup_cons in Hnodup as [Hnot Hnodup].
  cbn [field] in Hk. cbn [fold_left].
  destruct (String.eqb_spec k k') as [->|Hne].
  - injection Hk as ->. rewrite field_fold_apply_other by exact Hnot.
    unfold apply_field. cbn [fst snd]. by rewrite field_set_field_eq.
  - rewrite (IH _ Hnodup Hk). unfold apply_field at 1. cbn [fst snd].
    by rewrite field_set_field_ne.
Qed.

Lemma wf_value_field (k : string) (v : value) (m : list (string * value)) :
  wf_value (VMap m) = true -> field k m = Some v ->
  NoDup (map fst m) /\ wf_value v = true.
Proof.
  intros Hwf Hk. rewrite wf_value_map in Hwf.
  destruct (fresh_fields_spec m [] Hwf) as (Hnodup & _ & Hall).
  split; [exact Hnodup|].
  clear Hwf Hnodup. induction m as [|[k' v'] m IH]; [discriminate|].
  apply Forall_cons in Hall as [Hv Hall]. cbn [field] in Hk.
  destruct (String.eqb k k'); [by injection Hk as <-|by apply IH].
Qed.

(** A value the applied configuration sets at a path, a string, a number
    or a list, is at that path in the merged object, whatever the stored
    object held. *)
Lemma apply_value_sets (fields : list string) (desired existing x : value) :
  wf_value desired = true ->
  NestedField desired fields = Some x ->
  (forall m, x <> VMap m) ->
  NestedField (apply_value desired existing) fields = Some x.
Proof.
  revert desired existing.
  induction fields as [|f rest IH]; intros desired existing Hwf Hx Hleaf.
  - cbn [NestedField] in *. injection Hx as ->.
    destruct x as [s|n|l|m]; try reflexivity. by destruct (Hleaf m).
  - destruct desired as [s|n|l|dm]; try discriminate Hx.
    cbn [NestedField] in Hx. destruct (field f dm) as [v|] eqn:Hf; [|discriminate].
    destruct (wf_value_field f v dm Hwf Hf) as [Hnodup Hv].
    destruct existing as [s|n|l|em]; cbn [apply_value NestedField];
      try (by rewrite Hf).
    change (fold_left _ dm em) with (fold_left apply_field dm em).
    rewrite (field_fold_apply_set f v dm em Hnodup Hf).
    destruct (field f em) as [old|]; [by apply IH|exact Hx].
Qed.

End apply_fields.

Section drift.

Import virtualmachine_types.
Import VirtualMachineReconciler.

(** X9. Synchronizing a virtual machine whose KubeVirt VM exists, on a
    store that serves the call: every string, number and list the desired
    object sets is in the stored object afterwards, whatever had been
    changed there, so the run strategy is again the one of the spec; the
    top-level fields the desired object does not set, the status among
    them, are kept. *)
Theorem reconcileKubeVirtVM_overwrites_drift (vm : VirtualMachine) (w : World)
    (old : list (string * value)) :
  next_fault w = None ->
  kubevirt_vms w !! (Namespace vm, Name vm) = Some old ->
  let out := reconcileKubeVirtVM vm w in
  fst out = None /\
  exists stored,
    kubevirt_vms (snd out) = <[(Namespace vm, Name vm) := stored]> (kubevirt_vms w) /\
    (forall fields x,
        NestedField (VMap (buildKubeVirtVM vm)) fields = Some x ->
        (forall m, x <> VMap m) ->
        NestedField (VMap stored) fields = Some x) /\
    runStrategy_of stored =
      Some (if String.eqb (RunStrategy (Spec vm)) "" then "Always"
            else RunStrategy (Spec vm)) /\
    (forall k, k ∉ ["apiVersion"; "kind"; "metadata"; "spec"] ->
               field k stored = field k old).
Proof.
  intros Hserved Hold.
  assert (Hsets : forall fields x,
             NestedField (VMap (buildKubeVirtVM vm)) fields = Some x ->
             (forall m, x <> VMap m) ->
             NestedField (VMap (apply_object (buildKubeVirtVM vm) old)) fields = Some x).
  { intros fields x Hx Hleaf. rewrite <- apply_value_map.
    apply apply_value_sets; [apply buildKubeVirtVM_wf|exact Hx|exact Hleaf]. }
  wp_start (reconcileKubeVirtVM vm) w.
  unfold reconcileKubeVirtVM. wp_step. unfold client.ApplyKubeVirtVM.
  rewrite buildKubeVirtVM_object_key. wp_step; [congruence|].
  wp_step. split; [reflexivity|]. eexists. split; [reflexivity|].
  split; [exact Hsets|]. split.
  - unfold runStrategy_of, NestedString.
    rewrite (Hsets ["spec"; "runStrategy"]
               (VString (if String.eqb (RunStrategy (Spec vm)) "" then "Always"
                         else RunStrategy (Spec vm)))); [reflexivity|reflexivity|].
    intros m. discriminate.
  - intros k Hk. rewrite apply_object_fold. apply field_fold_apply_other.
    unfold buildKubeVirtVM. cbn [map fst]. exact Hk.
Qed.

(** A cluster where the KubeVirt VM of a running virtual machine was
    halted by hand and carries a status. *)
Definition drifted_world : World :=
  mkWorld {[("default", "vm1") := running_vm]}
    {[("default", "vm1") :=
        [("apiVersion", VString "kubevirt.io/v1");
         ("kind", VString "VirtualMachine");
         ("metadata", VMap [("name", VString "vm1"); ("namespace", VString "default")]);
         ("spec", VMap [("runStrategy", VString "Halted")]);
         ("status", VMap [("printableStatus", VString "Stopped")])]]}
    ∅ ∅ ∅ ∅ 100 [] [].

Lemma reconcileKubeVirtVM_overwrites_halted :
  let out := reconcileKubeVirtVM running_vm drifted_world in
  fst out = None /\
  exists stored,
    kubevirt_vms (snd out) =
      <[("default", "vm1") := stored]> (kubevirt_vms drifted_world) /\
    (forall fields x,
        NestedField (VMap (buildKubeVirtVM running_vm)) fields = Some x ->
        (forall m, x <> VMap m) ->
        NestedField (VMap stored) fields = Some x) /\
    runStrategy_of stored = Some "Always" /\
    (forall k, k ∉ ["apiVersion"; "kind"; "metadata"; "spec"] ->
               field k stored =
               field k
                 [("apiVersion", VString "kubevirt.io/v1");
                  ("kind", VString "VirtualMachine");
                  ("metadata",
                   VMap [("name", VString "vm1"); ("namespace", VString "default")]);
                  ("spec", VMap [("runStrategy", VString "Halted")]);
                  ("status", VMap [("printableStatus", VString "Stopped")])]).
Proof.
  apply (reconcileKubeVirtVM_overwrites_drift running_vm drifted_world); reflexivity.
Defined.

End drift.

(** ** What a steady reconcile writes *)

Section steady_state.

Import virtualmachine_types.
Import VirtualMachineReconciler.

Lemma SetStatusCondition_other (now : metav1.Time) (conditions : list metav1.Condition)
    (c : metav1.Condition) (conditionType : string) :
  conditionType <> metav1.Type_ c ->
  metav1.FindStatusCondition (metav1.SetStatusCondition now conditions c) conditionType =
  metav1.FindStatusCondition conditions conditionType.
Proof.
  intros Hne. induction conditions as [|c0 rest IH]; cbn [metav1.SetStatusCondition].
  - cbn [metav1.FindStatusCondition metav1.Type_].
    destruct (String.eqb_spec (metav1.Type_ c) conditionType); [by destruct Hne|reflexivity].
  - destruct (String.eqb_spec (metav1.Type_ c0) (metav1.Type_ c)) as [Heq|Hne'];
      cbn [metav1.FindStatusCondition].
    + change (metav1.Type_ (metav1.update_condition now c0 c)) with (metav1.Type_ c0).
      destruct (String.eqb_spec (metav1.Type_ c0) conditionType); [|reflexivity].
      destruct Hne. congruence.
    + by rewrite IH.
Qed.

(** X10. A reconcile of a claimed virtual machine that asks for nothing
    but the synchronization writes the status only: on a store that
    serves every call, the spec, the generation, the finalizers and the
    annotations of the stored resource are as before, and so is every
    status condition other than "Ready". *)
Theorem Reconcile_steady_writes_status_only (req : ObjectKey) (w : World)
    (vm : VirtualMachine) :
  virtualmachines w !! req = Some vm ->
  metav1.IsZero (metav1.DeletionTimestamp (ObjectMeta vm)) = true ->
  metav1.ContainsFinalizer (ObjectMeta vm) vmFinalizer = true ->
  metav1.Annotations (ObjectMeta vm) !! rebootAnnotation <> Some "true" ->
  faults w = [] ->
  let out := Reconcile req w in
  exists stored,
    virtualmachines (snd out) = <[req := stored]> (virtualmachines w) /\
    Spec stored = Spec vm /\
    metav1.Generation (ObjectMeta stored) = metav1.Generation (ObjectMeta vm) /\
    metav1.Finalizers (ObjectMeta stored) = metav1.Finalizers (ObjectMeta vm) /\
    metav1.Annotations (ObjectMeta stored) = metav1.Annotations (ObjectMeta vm) /\
    metav1.DeletionTimestamp (ObjectMeta stored) =
      metav1.DeletionTimestamp (ObjectMeta vm) /\
    forall conditionType,
      conditionType <> "Ready" ->
      metav1.FindStatusCondition (Conditions (Status stored)) conditionType =
      metav1.FindStatusCondition (Conditions (Status vm)) conditionType.
Proof.
  intros Hvm Hdel Hfin Hann Hf. cbv zeta.
  pose proof (Reconcile_steady_effect req w vm Hf (conj Hvm (conj Hdel (conj Hfin Hann))))
    as (_ & _ & _ & _ & Hstored).
  eexists. split; [exact Hstored|]. cbn [Spec ObjectMeta Status]. world_simpl.
  split; [reflexivity|]. split; [reflexivity|]. split; [reflexivity|].
  split; [reflexivity|]. split; [reflexivity|].
  intros conditionType Hne. unfold projection.
  destruct (kubevirt_vmis w !! req) as [vmi|]; [|reflexivity].
  unfold set_Conditions. cbn [Conditions].
  rewrite SetStatusCondition_other by exact Hne.
  by destruct (project_vmi_status_fields vmi (Status vm)) as (_ & _ & _ & _ & ->).
Qed.

Lemma Reconcile_steady_writes_status_only_running_vm :
  let out := Reconcile ("default", "vm1") running_world in
  exists stored,
    virtualmachines (snd out) =
      <[("default", "vm1") := stored]> (virtualmachines running_world) /\
    Spec stored = Spec running_vm /\
    metav1.Generation (ObjectMeta stored) = metav1.Generation (ObjectMeta running_vm) /\
    metav1.Finalizers (ObjectMeta stored) = metav1.Finalizers (ObjectMeta running_vm) /\
    metav1.Annotations (ObjectMeta stored) = metav1.Annotations (ObjectMeta running_vm) /\
    metav1.DeletionTimestamp (ObjectMeta stored) =
      metav1.DeletionTimestamp (ObjectMeta running_vm) /\
    forall conditionType,
      conditionType <> "Ready" ->
      metav1.FindStatusCondition (Conditions (Status stored)) conditionType =
      metav1.FindStatusCondition (Conditions (Status running_vm)) conditionType.
Proof.
  apply (Reconcile_steady_writes_status_only ("default", "vm1") running_world running_vm);
    try reflexivity; discriminate.
Defined.

End steady_state.

(** ** The paths of a reconcile of a project *)

Section project_paths.

Import project_types.
Import ProjectReconciler.

(** X11. The reconcile of a project that is being deleted and carries
    the finalizer cleans up nothing itself: on a store that serves every
    call it asks only for the project and for its update without the
    finalizer, and leaves namespaces and role bindings as they are; the
    finalizers of other controllers are kept, and the project leaves the
    store exactly when no finalizer is left. *)
Theorem Reconcile_project_deletion (name : string) (w : World) (p : Project) :
  projects w !! name = Some p ->
  metav1.IsZero (metav1.DeletionTimestamp (ObjectMeta p)) = false ->
  metav1.ContainsFinalizer (ObjectMeta p) projectFinalizer = true ->
  faults w = [] ->
  let out := Reconcile name w in
  let remaining :=
    List.filter (fun e => negb (String.eqb e projectFinalizer))
      (metav1.Finalizers (ObjectMeta p)) in
  fst out = (ctrl.Result0, None) /\
  namespaces (snd out) = namespaces w /\
  rolebindings (snd out) = rolebindings w /\
  (exists p',
      served_since w (snd out) = [(Get_Project name, None); (Update_Project p', None)]) /\
  match remaining with
  | [] => projects (snd out) = delete name (projects w)
  | _ :: _ =>
      exists stored,
        projects (snd out) = <[name := stored]> (projects w) /\
        metav1.Finalizers (ObjectMeta stored) = remaining /\
        Spec stored = Spec p /\
        Status stored = Status p
  end.
Proof.
  intros Hp Hdel Hfin Hf.
  wp_start (Reconcile name) w.
  unfold Reconcile. wp_step. unfold client.GetProject. wp_step; [no_fault Hf|].
  unfold metav1.RemoveFinalizer, metav1.ContainsFinalizer in *. world_simpl.
  rewrite Hdel, Hfin. cbn [negb].
  wp_step. unfold finalizeProject. wp_step. wp_step.
  unfold client.UpdateProject. world_simpl.
  wp_step; [no_fault Hf|..]; wp_step;
    unfold client.released in *; world_simpl; rewrite Hdel in *;
    cbn [negb andb] in *; explicit_log w;
    (split; [reflexivity|]; split; [reflexivity|]; split; [reflexivity|];
     split; [by eexists|]);
    destruct (List.filter _ (metav1.Finalizers (ObjectMeta p))) eqn:Hrem;
    try discriminate;
    first [ reflexivity | eexists; split; [reflexivity|]; by repeat split ].
Qed.

(** A project under deletion with its namespace and a role binding. *)
Definition deleting_project : Project :=
  mkProject
    (metav1.mkObjectMeta "demo" "" 1 (Some 42) [projectFinalizer] ∅)
    (mkProjectSpec "" [mkProjectMember "alice" "owner"] None)
    (mkProjectStatus "project-demo" "Active" 0 0 0 []).

Definition deleting_project_world : World :=
  mkWorld ∅ ∅ ∅ {["demo" := deleting_project]}
    {["project-demo" :=
        corev1.mkNamespace "project-demo" (managed_labels deleting_project) (Some "demo")]}
    {[("project-demo", "demo-alice") :=
        member_binding deleting_project "project-demo" (mkProjectMember "alice" "owner")]}
    100 [] [].

Lemma Reconcile_project_deletion_demo :
  let out := Reconcile "demo" deleting_project_world in
  fst out = (ctrl.Result0, None) /\
  namespaces (snd out) = namespaces deleting_project_world /\
  rolebindings (snd out) = rolebindings deleting_project_world /\
  (exists p',
      served_since deleting_project_world (snd out) =
        [(Get_Project "demo", None); (Update_Project p', None)]) /\
  projects (snd out) = delete "demo" (projects deleting_project_world).
Proof.
  apply (Reconcile_project_deletion "demo" deleting_project_world deleting_project);
    reflexivity.
Defined.

(** X12. The first reconcile of a project that is not being deleted and
    does not carry the finalizer only claims it: the finalizer is added
    after the ones the project has, spec and status stay as they are, no
    namespace and no role binding is written, and the result asks for the
    request to be run again. *)
Theorem Reconcile_claims_project (name : string) (w : World) (p : Project) :
  projects w !! name = Some p ->
  metav1.IsZero (metav1.DeletionTimestamp (ObjectMeta p)) = true ->
  metav1.ContainsFinalizer (ObjectMeta p) projectFinalizer = false ->
  faults w = [] ->
  let out := Reconcile name w in
  fst out = (ctrl.mkResult true 0, None) /\
  namespaces (snd out) = namespaces w /\
  rolebindings (snd out) = rolebindings w /\
  (exists p',
      served_since w (snd out) = [(Get_Project name, None); (Update_Project p', None)]) /\
  exists stored,
    projects (snd out) = <[name := stored]> (projects w) /\
    metav1.Finalizers (ObjectMeta stored) =
      (metav1.Finalizers (ObjectMeta p) ++ [projectFinalizer])%list /\
    metav1.Generation (ObjectMeta stored) = metav1.Generation (ObjectMeta p) /\
    Spec stored = Spec p /\
    Status stored = Status p.
Proof.
  intros Hp Hdel Hfin Hf.
  wp_start (Reconcile name) w.
  unfold Reconcile. wp_step. unfold client.GetProject. wp_step; [no_fault Hf|].
  unfold metav1.AddFinalizer, metav1.ContainsFinalizer in *. world_simpl.
  rewrite Hdel, Hfin. cbn [negb].
  wp_step. unfold client.UpdateProject. world_simpl.
  wp_step; try (no_fault Hf);
    try (exfalso; unfold client.released in *; world_simpl; rewrite Hdel in *;
         discriminate);
    try (match goal with
         | H : bool_decide (?x <> ?x) = true |- _ =>
             apply bool_decide_eq_true in H; by destruct H
         end).
  wp_step. explicit_log w.
  rewrite (bool_decide_eq_false_2 (Spec p <> Spec p)) by (intros H; by apply H).
  split; [reflexivity|]. split; [reflexivity|]. split; [reflexivity|].
  split; [by eexists|].
  eexists. split; [reflexivity|]. by repeat split.
Qed.

Lemma Reconcile_claims_project_demo :
  let out := Reconcile "demo" demo_world in
  fst out = (ctrl.mkResult true 0, None) /\
  namespaces (snd out) = namespaces demo_world /\
  rolebindings (snd out) = rolebindings demo_world /\
  (exists p',
      served_since demo_world (snd out) =
        [(Get_Project "demo", None); (Update_Project p', None)]) /\
  exists stored,
    projects (snd out) = <["demo" := stored]> (projects demo_world) /\
    metav1.Finalizers (ObjectMeta stored) = [projectFinalizer] /\
    metav1.Generation (ObjectMeta stored) = 1 /\
    Spec stored = mkProjectSpec "" [] None /\
    Status stored = mkProjectStatus "" "" 0 0 0 [].
Proof.
  apply (Reconcile_claims_project "demo" demo_world
           (new_project "demo" (mkProjectSpec "" [] None))); reflexivity.
Defined.

End project_paths.

(** ** Namespaces and role bindings of a project *)

Section project_objects.

Import project_types.
Import ProjectReconciler.

(** X13. [reconcileNamespace] for a project as the store hands it out, on
    a store that serves every call: a namespace that does not exist is
    created with the two labels of the project and the project as its
    controller; a namespace that exists gets exactly these two labels,
    any other label it had is dropped, and its owner is left as it was,
    so a namespace that was there before is relabelled but not owned. *)
Theorem reconcileNamespace_creates_or_relabels (p : Project) (namespace : string)
    (w : World) :
  metav1.Namespace (ObjectMeta p) = "" ->
  faults w = [] ->
  let out := reconcileNamespace p namespace w in
  fst out = None /\
  rolebindings (snd out) = rolebindings w /\
  projects (snd out) = projects w /\
  namespaces (snd out) =
    <[namespace :=
        corev1.mkNamespace namespace
          (<["llmcloud.io/managed" := "true"]>
             (<["llmcloud.io/project" := Name p]> ∅))
          match namespaces w !! namespace with
          | Some existing => corev1.Controller existing
          | None => Some (Name p)
          end]> (namespaces w).
Proof.
  intros Hns Hf.
  wp_start (reconcileNamespace p namespace) w.
  unfold reconcileNamespace, SetControllerReference. rewrite Hns.
  change (negb (String.eqb "" "")) with false. cbv iota.
  wp_step. unfold client.GetNamespace. wp_step; [no_fault Hf| |].
  - wp_step. unfold client.UpdateNamespace. wp_step; [no_fault Hf|].
    wp_step. by repeat split.
  - rewrite NotFound_IsNotFound. wp_step. unfold client.CreateNamespace.
    wp_step; [no_fault Hf|]. wp_step. by repeat split.
Qed.

(** A cluster where the namespace of the project "demo" was made by
    hand, with a label of its own and no owner. *)
Definition adopted_world : World :=
  mkWorld ∅ ∅ ∅
    {["demo" := mkProject (metav1.mkObjectMeta "demo" "" 1 None [projectFinalizer] ∅)
                  (mkProjectSpec "" [] None) (mkProjectStatus "" "" 0 0 0 [])]}
    {["project-demo" :=
        corev1.mkNamespace "project-demo" {["team" := "research"]} None]}
    ∅ 100 [] [].

Lemma reconcileNamespace_relabels_adopted :
  let p := mkProject (metav1.mkObjectMeta "demo" "" 1 None [projectFinalizer] ∅)
             (mkProjectSpec "" [] None) (mkProjectStatus "" "" 0 0 0 []) in
  let out := reconcileNamespace p "project-demo" adopted_world in
  fst out = None /\
  rolebindings (snd out) = rolebindings adopted_world /\
  projects (snd out) = projects adopted_world /\
  namespaces (snd out) =
    <["project-demo" :=
        corev1.mkNamespace "project-demo"
          (<["llmcloud.io/managed" := "true"]> (<["llmcloud.io/project" := "demo"]> ∅))
          None]> (namespaces adopted_world).
Proof.
  apply (reconcileNamespace_creates_or_relabels
           (mkProject (metav1.mkObjectMeta "demo" "" 1 None [projectFinalizer] ∅)
              (mkProjectSpec "" [] None) (mkProjectStatus "" "" 0 0 0 []))
           "project-demo" adopted_world); reflexivity.
Defined.

(** The key of the role binding of a member. *)
Definition binding_key (project : Project) (namespace : string)
    (member : ProjectMember) : string * string :=
  (namespace, Name project +:+ "-" +:+ Username member).

Lemma reconcileMembers_keeps (project : Project) (namespace : string)
    (members : list ProjectMember) (key : string * string)
    (rb : rbacv1.RoleBinding) (w : World) :
  rolebindings w !! key = Some rb ->
  wp (reconcileMembers project namespace members)
     (fun _ w' =>
        namespaces w' = namespaces w /\
        exists rb',
          rolebindings w' !! key = Some rb' /\
          ((forall m, m ∈ members -> key <> binding_key project namespace m) ->
           rb' = rb)) w.
Proof.
  revert w rb. induction members as [|member rest IH]; intros w rb Hrb.
  - apply wp_ret. split; [reflexivity|]. by exists rb.
  - assert (Hrest : forall w1 rb1,
               namespaces w1 = namespaces w ->
               rolebindings w1 !! key = Some rb1 ->
               (key <> binding_key project namespace member -> rb1 = rb) ->
               wp (reconcileMembers project namespace rest)
                  (fun _ w' =>
                     namespaces w' = namespaces w /\
                     exists rb',
                       rolebindings w' !! key = Some rb' /\
                       ((forall m, m ∈ member :: rest ->
                                   key <> binding_key project namespace m) ->
                        rb' = rb)) w1).
    { intros w1 rb1 Hns1 Hrb1 Hsame.
      eapply wp_mono; [|apply (IH w1 rb1 Hrb1)].
      intros err w' (Hns & rb' & Hrb' & Hother). cbv beta.
      split; [by rewrite Hns|]. exists rb'. split; [exact Hrb'|].
      intros Hall. rewrite Hother.
      - apply Hsame. apply Hall. by left.
      - intros m Hm. apply Hall. by right. }
    simpl reconcileMembers. wp_step. unfold client.GetRoleBinding. wp_step.
    + rewrite fault_error_not_NotFound. wp_step.
      split; [reflexivity|]. by exists rb.
    + wp_step. unfold client.UpdateRoleBinding.
      wp_step;
        first
          [ wp_step; split; [reflexivity|]; by exists rb
          | destruct (decide (key = binding_key project namespace member)) as [->|Hne];
            [ eapply Hrest;
              [ reflexivity
              | world_simpl; apply lookup_insert_eq
              | intros Hne; by destruct Hne ]
            | eapply Hrest;
              [ reflexivity
              | world_simpl; rewrite lookup_insert_ne by (intros Heq; by apply Hne);
                exact Hrb
              | reflexivity ] ] ].
    + rewrite NotFound_IsNotFound. wp_step. unfold client.CreateRoleBinding.
      wp_step;
        first
          [ wp_step; split; [reflexivity|]; by exists rb
          | destruct (decide (key = binding_key project namespace member)) as [->|Hne];
            [ exfalso; unfold binding_key in Hrb; world_simpl; congruence
            | eapply Hrest;
              [ reflexivity
              | world_simpl; rewrite lookup_insert_ne by (intros Heq; by apply Hne);
                exact Hrb
              | reflexivity ] ] ].
Qed.

(** X14. [reconcileRBAC] never removes a role binding and never touches
    a namespace, whatever the store answers: a binding that is in the
    store before is there afterwards, and unchanged unless it is the
    binding of a declared member.  The binding of a member that is no
    longer declared stays. *)
Theorem reconcileRBAC_never_removes (project : Project) (namespace : string)
    (w : World) (key : string * string) (rb : rbacv1.RoleBinding) :
  rolebindings w !! key = Some rb ->
  let out := reconcileRBAC project namespace w in
  namespaces (snd out) = namespaces w /\
  exists rb',
    rolebindings (snd out) !! key = Some rb' /\
    ((forall m, m ∈ Members (Spec project) ->
                key <> (namespace, Name project +:+ "-" +:+ Username m)) ->
     rb' = rb).
Proof.
  intros Hrb.
  apply (reconcileMembers_keeps project namespace (Members (Spec project)) key rb w Hrb).
Qed.

(** A cluster that still holds the binding of "bob", who is no longer a
    member of the project "demo". *)
Definition former_member_project : Project :=
  mkProject (metav1.mkObjectMeta "demo" "" 2 None [projectFinalizer] ∅)
    (mkProjectSpec "" [mkProjectMember "alice" "owner"] None)
    (mkProjectStatus "project-demo" "Active" 0 0 0 []).

Definition former_member_world : World :=
  mkWorld ∅ ∅ ∅ {["demo" := former_member_project]}
    {["project-demo" :=
        corev1.mkNamespace "project-demo" (managed_labels former_member_project)
          (Some "demo")]}
    {[("project-demo", "demo-bob") :=
        member_binding former_member_project "project-demo"
          (mkProjectMember "bob" "developer")]}
    100 [] [].

Lemma reconcileRBAC_keeps_former_member :
  let out := reconcileRBAC former_member_project "project-demo" former_member_world in
  namespaces (snd out) = namespaces former_member_world /\
  exists rb',
    rolebindings (snd out) !! ("project-demo", "demo-bob") = Some rb' /\
    ((forall m, m ∈ Members (Spec former_member_project) ->
                ("project-demo", "demo-bob") <>
                ("project-demo", Name former_member_project +:+ "-" +:+ Username m)) ->
     rb' = member_binding former_member_project "project-demo"
             (mkProjectMember "bob" "developer")).
Proof.
  apply (reconcileRBAC_never_removes former_member_project "project-demo"
           former_member_world ("project-demo", "demo-bob")).
  reflexivity.
Defined.

End project_objects.

Section role_change.

Import project_types.
Import ProjectReconciler.

(** The cluster role [reconcileRBAC] wants a member bound to. *)
Definition member_role (member : ProjectMember) : rbacv1.RoleRef :=
  rbacv1.mkRoleRef "rbac.authorization.k8s.io" "ClusterRole"
    (getRoleForMember (Role member)).

Lemma reconcileMembers_role_change (project : Project) (namespace : string)
    (members : list ProjectMember) (key : string * string)
    (rb : rbacv1.RoleBinding) (w : World) :
  faults w = [] ->
  rolebindings w !! key = Some rb ->
  (exists m, m ∈ members /\ key = binding_key project namespace m /\
             rbacv1.RoleRef_ rb <> member_role m) ->
  wp (reconcileMembers project namespace members)
     (fun err w' =>
        is_Some err /\
        exists rb',
          rolebindings w' !! key = Some rb' /\
          rbacv1.RoleRef_ rb' = rbacv1.RoleRef_ rb) w.
Proof.
  revert w rb. induction members as [|member rest IH]; intros w rb Hf Hrb Hbad.
  { destruct Hbad as (m & Hm & _). by apply elem_of_nil in Hm. }
  destruct Hbad as (m & Hm & Hkey & Hrole).
  simpl reconcileMembers. wp_step. unfold client.GetRoleBinding.
  wp_step; [no_fault Hf| |].
  - wp_step. unfold client.UpdateRoleBinding.
    wp_step; [no_fault Hf|..].
    + (* the update is accepted *)
      apply bool_decide_eq_true in Heqb.
      destruct (decide (key = binding_key project namespace member)) as [Hsame|Hne].
      * assert (r = rb) as -> by (unfold binding_key in Hsame; world_simpl; congruence).
        apply elem_of_cons in Hm as [->|Hm]; [by destruct Hrole|].
        match goal with
        | |- wp _ _ ?w1 =>
            assert (exists rb1, rolebindings w1 !! key = Some rb1 /\
                                rbacv1.RoleRef_ rb1 = rbacv1.RoleRef_ rb)
              as (rb1 & Hrb1 & Hrole1)
        end.
        { eexists. split; [world_simpl; rewrite Hsame; apply lookup_insert_eq|].
          world_simpl. symmetry. exact Heqb. }
        eapply wp_mono; [|apply (IH _ rb1)].
        -- intros err w' (Herr & rb' & Hrb' & Hsame'). split; [exact Herr|].
           exists rb'. split; [exact Hrb'|]. by rewrite Hsame'.
        -- world_simpl. by rewrite Hf.
        -- exact Hrb1.
        -- exists m. split; [exact Hm|]. split; [exact Hkey|]. by rewrite Hrole1.
      * apply elem_of_cons in Hm as [->|Hm]; [by destruct Hne|].
        eapply wp_mono; [|eapply (IH _ rb)].
        -- intros err w' H. exact H.
        -- world_simpl. by rewrite Hf.
        -- world_simpl. rewrite lookup_insert_ne by (intros Heq; by apply Hne).
           exact Hrb.
        -- by exists m.
    + wp_step. split; [by eexists|]. by exists rb.
  - rewrite NotFound_IsNotFound. wp_step. unfold client.CreateRoleBinding.
    assert (Hne : key <> binding_key project namespace member).
    { intros ->. unfold binding_key in Hrb. world_simpl. congruence. }
    apply elem_of_cons in Hm as [->|Hm]; [by destruct Hne|].
    wp_step; [no_fault Hf|..];
      first
        [ wp_step; split; [by eexists|]; by exists rb
        | apply (IH _ rb);
          [ world_simpl; by rewrite Hf
          | world_simpl; rewrite lookup_insert_ne by (intros Heq; by apply Hne);
            exact Hrb
          | by exists m ] ].
Qed.

(** X15. A changed role is never written.  When the store holds the
    binding of a declared member with another cluster role than the one
    the declared role maps to, [reconcileRBAC] fails, on a store that
    refuses the change of the role of an existing binding as the API
    server does, and the binding keeps the role it had. *)
Theorem reconcileRBAC_changed_role (project : Project) (namespace : string)
    (w : World) (member : ProjectMember) (rb : rbacv1.RoleBinding) :
  faults w = [] ->
  member ∈ Members (Spec project) ->
  rolebindings w !! (namespace, Name project +:+ "-" +:+ Username member) = Some rb ->
  rbacv1.RoleRefName (rbacv1.RoleRef_ rb) <> getRoleForMember (Role member) ->
  let out := reconcileRBAC project namespace w in
  is_Some (fst out) /\
  exists rb',
    rolebindings (snd out) !! (namespace, Name project +:+ "-" +:+ Username member)
      = Some rb' /\
    rbacv1.RoleRef_ rb' = rbacv1.RoleRef_ rb.
Proof.
  intros Hf Hm Hrb Hrole.
  apply (reconcileMembers_role_change project namespace (Members (Spec project))
           (namespace, Name project +:+ "-" +:+ Username member) rb w Hf Hrb).
  exists member. split; [exact Hm|]. split; [reflexivity|].
  intros Heq. apply Hrole. by rewrite Heq.
Qed.

(** A cluster where "alice", bound as a developer, was made an owner in
    the spec of the project. *)
Definition promoted_project : Project :=
  mkProject (metav1.mkObjectMeta "demo" "" 2 None [projectFinalizer] ∅)
    (mkProjectSpec "" [mkProjectMember "alice" "owner"] None)
    (mkProjectStatus "project-demo" "Active" 0 0 0 []).

Definition promoted_world : World :=
  mkWorld ∅ ∅ ∅ {["demo" := promoted_project]}
    {["project-demo" :=
        corev1.mkNamespace "project-demo" (managed_labels promoted_project)
          (Some "demo")]}
    {[("project-demo", "demo-alice") :=
        member_binding promoted_project "project-demo"
          (mkProjectMember "alice" "developer")]}
    100 [] [].

Lemma reconcileRBAC_changed_role_promoted :
  let out := reconcileRBAC promoted_project "project-demo" promoted_world in
  is_Some (fst out) /\
  exists rb',
    rolebindings (snd out) !! ("project-demo", "demo-alice") = Some rb' /\
    rbacv1.RoleRef_ rb' =
      rbacv1.mkRoleRef "rbac.authorization.k8s.io" "ClusterRole" "edit".
Proof.
  apply (reconcileRBAC_changed_role promoted_project "project-demo" promoted_world
           (mkProjectMember "alice" "owner")
           (member_binding promoted_project "project-demo"
              (mkProjectMember "alice" "developer"))).
  - reflexivity.
  - by left.
  - reflexivity.
  - discriminate.
Defined.

End role_change.

(** ** A failed reconcile of a project *)

Section project_failure.

Import project_types.
Import ProjectReconciler.

(** X16. When the store refuses the fetch of the namespace, the reconcile
    of a claimed project returns that error and goes no further: no
    namespace and no role binding is read or written after it, and the
    status of the project records the failure with phase "Error" and a
    condition "Ready" that is false for the reason "ReconciliationError"
    with the text of the error; the namespace the status names and the
    counters stay as they were. *)
Theorem Reconcile_project_namespace_refused (name : string) (w : World) (p : Project)
    (f : fault) :
  projects w !! name = Some p ->
  metav1.IsZero (metav1.DeletionTimestamp (ObjectMeta p)) = true ->
  metav1.ContainsFinalizer (ObjectMeta p) projectFinalizer = true ->
  faults w = [None; Some f] ->
  let out := Reconcile name w in
  fst out = (ctrl.Result0, Some (fault_error f)) /\
  namespaces (snd out) = namespaces w /\
  rolebindings (snd out) = rolebindings w /\
  (exists p',
      served_since w (snd out) =
        [(Get_Project name, None);
         (Get_Namespace ("project-" +:+ name), Some (fault_error f));
         (StatusUpdate_Project p', None)]) /\
  exists stored c,
    projects (snd out) !! name = Some stored /\
    Spec stored = Spec p /\
    Phase (Status stored) = "Error" /\
    Namespace (Status stored) = Namespace (Status p) /\
    VMCount (Status stored) = VMCount (Status p) /\
    metav1.FindStatusCondition (Conditions (Status stored)) "Ready" = Some c /\
    metav1.Status c = metav1.ConditionFalse /\
    metav1.Reason c = "ReconciliationError" /\
    metav1.Message c = Error_ (fault_error f).
Proof.
  intros Hp Hdel Hfin Hf.
  wp_start (Reconcile name) w.
  unfold Reconcile. wp_step. unfold client.GetProject. wp_step; [fault_script Hf|].
  unfold metav1.ContainsFinalizer in *. world_simpl.
  rewrite Hdel, Hfin. cbn [negb].
  wp_step. unfold reconcileNamespace, SetControllerReference. world_simpl.
  change (negb (String.eqb "" "")) with false. cbv iota.
  wp_step. unfold client.GetNamespace. wp_step; [|fault_script Hf..].
  fault_script Hf. rewrite fault_error_not_NotFound. wp_step.
  wp_step. unfold updateStatus. wp_step. wp_step. wp_step.
  unfold client.StatusUpdateProject. world_simpl.
  wp_step; [fault_script Hf|].
  wp_step. wp_step. explicit_log w.
  split; [reflexivity|]. split; [reflexivity|]. split; [reflexivity|].
  split; [by eexists|].
  destruct (SetStatusCondition_find (clock w + 1 + 1) (Conditions (Status p))
              (metav1.mkCondition "Ready" metav1.ConditionFalse
                 (metav1.Generation (ObjectMeta p)) 0 "ReconciliationError"
                 (Error_ (fault_error f)))) as (c & Hc & Hst & Hre & Hme & _).
  eexists _, c. split; [apply lookup_insert_eq|]. world_simpl.
  split; [reflexivity|]. split; [reflexivity|]. split; [reflexivity|].
  split; [reflexivity|]. by repeat split.
Qed.

(** A cluster that holds a claimed project and refuses the second call. *)
Definition namespace_fault_world : World :=
  mkWorld ∅ ∅ ∅
    {["demo" := mkProject (metav1.mkObjectMeta "demo" "" 1 None [projectFinalizer] ∅)
                  (mkProjectSpec "" [mkProjectMember "alice" "owner"] None)
                  (mkProjectStatus "" "" 0 0 0 [])]}
    ∅ ∅ 100 [None; Some (FaultTransport "connection refused")] [].

Lemma Reconcile_project_namespace_refused_demo :
  let out := Reconcile "demo" namespace_fault_world in
  fst out = (ctrl.Result0, Some (PlainError "connection refused")) /\
  namespaces (snd out) = namespaces namespace_fault_world /\
  rolebindings (snd out) = rolebindings namespace_fault_world /\
  (exists p',
      served_since namespace_fault_world (snd out) =
        [(Get_Project "demo", None);
         (Get_Namespace "project-demo", Some (PlainError "connection refused"));
         (StatusUpdate_Project p', None)]) /\
  exists stored c,
    projects (snd out) !! "demo" = Some stored /\
    Spec stored = mkProjectSpec "" [mkProjectMember "alice" "owner"] None /\
    Phase (Status stored) = "Error" /\
    Namespace (Status stored) = "" /\
    VMCount (Status stored) = 0 /\
    metav1.FindStatusCondition (Conditions (Status stored)) "Ready" = Some c /\
    metav1.Status c = metav1.ConditionFalse /\
    metav1.Reason c = "ReconciliationError" /\
    metav1.Message c = "connection refused".
Proof.
  apply (Reconcile_project_namespace_refused "demo" namespace_fault_world
           (mkProject (metav1.mkObjectMeta "demo" "" 1 None [projectFinalizer] ∅)
              (mkProjectSpec "" [mkProjectMember "alice" "owner"] None)
              (mkProjectStatus "" "" 0 0 0 []))
           (FaultTransport "connection refused")); reflexivity.
Defined.

End project_failure.

(** ** Reconciling a project twice *)

Section project_twice.

Import project_types.
Import ProjectReconciler.

(** The store holds the role binding of [m] as [reconcileRBAC] leaves it:
    under the name of the project and the user, for that user alone, with
    the cluster role of the declared role. *)
Definition settled (pname namespace : string) (w : World) (m : ProjectMember) : Prop :=
  exists labels,
    rolebindings w !! (namespace, pname +:+ "-" +:+ Username m) =
    Some (rbacv1.mkRoleBinding (pname +:+ "-" +:+ Username m) namespace labels
            [rbacv1.mkSubject "User" (Username m)] (member_role m)).

Lemma binding_name_inj (pname u1 u2 : string) :
  pname +:+ "-" +:+ u1 = pname +:+ "-" +:+ u2 -> u1 = u2.
Proof.
  intros H. apply String.app_inj in H. by injection H.
Qed.

(** Once the bindings of the members are settled, [reconcileRBAC] writes
    them back as they are. *)
Lemma reconcileMembers_settled (project : Project) (namespace : string)
    (members : list ProjectMember) (w : World) :
  faults w = [] ->
  (forall m, m ∈ members -> settled (Name project) namespace w m) ->
  wp (reconcileMembers project namespace members)
     (fun err w' =>
        err = None /\ faults w' = [] /\
        rolebindings w' = rolebindings w /\
        namespaces w' = namespaces w /\
        projects w' = projects w) w.
Proof.
  revert w. induction members as [|member rest IH]; intros w Hf Hall.
  - apply wp_ret. by repeat split.
  - destruct (Hall member ltac:(by left)) as [labels Hrb].
    unfold member_role in Hrb. world_simpl.
    simpl reconcileMembers. wp_step. unfold client.GetRoleBinding. world_simpl.
    wp_step; [no_fault Hf|].
    wp_step. unfold client.UpdateRoleBinding. world_simpl.
    wp_step; [no_fault Hf| |by rewrite bool_decide_eq_true_2 in Heqb].
    eapply wp_mono; [|apply IH].
    + intros err w' (-> & Hf' & Hrbs & Hns & Hps). world_simpl.
      split; [reflexivity|]. split; [exact Hf'|].
      split; [|by split]. rewrite Hrbs. by apply insert_id.
    + world_simpl. by rewrite Hf.
    + intros m Hm. destruct (Hall m ltac:(by right)) as [labels' Hm'].
      exists labels'. world_simpl. rewrite insert_id by exact Hrb. exact Hm'.
Qed.

(** A successful pass of [reconcileRBAC] settles the binding of every
    member. *)
Lemma reconcileMembers_settles (project : Project) (namespace : string)
    (done members : list ProjectMember) (w : World) :
  faults w = [] ->
  (forall m, m ∈ done -> settled (Name project) namespace w m) ->
  wp (reconcileMembers project namespace members)
     (fun err w' =>
        faults w' = [] /\
        namespaces w' = namespaces w /\
        projects w' = projects w /\
        (err = None ->
         forall m, m ∈ (done ++ members)%list -> settled (Name project) namespace w' m)) w.
Proof.
  revert w done. induction members as [|member rest IH]; intros w done Hf Hdone.
  - apply wp_ret. repeat split; try done.
    intros _ m Hm. rewrite app_nil_r in Hm. by apply Hdone.
  - assert (Hnext : forall w1,
               faults w1 = [] -> namespaces w1 = namespaces w ->
               projects w1 = projects w ->
               (forall m, m ∈ (done ++ [member])%list ->
                          settled (Name project) namespace w1 m) ->
               wp (reconcileMembers project namespace rest)
                  (fun err w' =>
                     faults w' = [] /\
                     namespaces w' = namespaces w /\
                     projects w' = projects w /\
                     (err = None ->
                      forall m, m ∈ (done ++ member :: rest)%list ->
                                settled (Name project) namespace w' m)) w1).
    { intros w1 Hf1 Hns1 Hps1 Hdone1.
      eapply wp_mono; [|apply (IH w1 (done ++ [member])%list Hf1 Hdone1)].
      intros err w' (Hf' & Hns & Hps & Hall). cbv beta.
      split; [exact Hf'|]. split; [by rewrite Hns|]. split; [by rewrite Hps|].
      intros Herr m Hm. apply (Hall Herr).
      by rewrite <- app_assoc. }
    simpl reconcileMembers. wp_step. unfold client.GetRoleBinding. world_simpl.
    wp_step; [no_fault Hf| |].
    + (* the binding exists: it is updated *)
      wp_step. unfold client.UpdateRoleBinding. world_simpl.
      wp_step; [no_fault Hf| |].
      * apply bool_decide_eq_true in Heqb.
        apply Hnext; world_simpl; [by rewrite Hf|reflexivity|reflexivity|].
        intros m [Hm|Hm]%elem_of_app.
        -- destruct (Hdone m Hm) as [labels Hm'].
           destruct (decide (Username m = Username member)) as [Hu|Hu].
           ++ rewrite Hu in Hm'. rewrite Heqo in Hm'. injection Hm' as Hr.
              rewrite Hr in Heqb. cbn [rbacv1.RoleRef_] in Heqb.
              unfold settled. world_simpl. rewrite Hu, lookup_insert_eq.
              eexists. rewrite Heqb. reflexivity.
           ++ exists labels. unfold settled. world_simpl.
              rewrite lookup_insert_ne; [exact Hm'|].
              intros [= Heq]. apply Hu. symmetry. by eapply binding_name_inj.
        -- apply list_elem_of_singleton in Hm as ->. eexists. unfold settled.
           world_simpl. by rewrite lookup_insert_eq.
      * wp_step. world_simpl. rewrite Hf. by repeat split.
    + (* the binding does not exist: it is created *)
      rewrite NotFound_IsNotFound. wp_step. unfold client.CreateRoleBinding.
      wp_step; [no_fault Hf|..];
        first
          [ wp_step; world_simpl; rewrite Hf; by repeat split
          | apply Hnext; world_simpl; [by rewrite Hf|reflexivity|reflexivity|];
            intros m [Hm|Hm]%elem_of_app;
            [ destruct (Hdone m Hm) as [labels Hm'];
              exists labels; unfold settled; world_simpl;
              rewrite lookup_insert_ne; [exact Hm'|];
              intros [= Heq]; apply binding_name_inj in Heq;
              rewrite <- Heq in Hm'; unfold settled in Hm'; world_simpl; congruence
            | apply list_elem_of_singleton in Hm as ->; eexists; unfold settled;
              world_simpl; by rewrite lookup_insert_eq ] ].
Qed.

(** The condition a successful reconcile of a project sets. *)
Definition project_ready (generation : Z) : metav1.Condition :=
  metav1.mkCondition "Ready" metav1.ConditionTrue generation 0
    "ProjectReady" "Project is ready".

(** The store holds what a successful reconcile of the project [name]
    leaves: the project under its name, claimed and with the status of a
    ready project, its namespace with the labels of the project, and the
    settled bindings of its members. *)
Definition reconciled (name : string) (w : World) (p : Project) : Prop :=
  projects w !! name = Some p /\
  metav1.Name (ObjectMeta p) = name /\
  metav1.Namespace (ObjectMeta p) = "" /\
  metav1.IsZero (metav1.DeletionTimestamp (ObjectMeta p)) = true /\
  metav1.ContainsFinalizer (ObjectMeta p) projectFinalizer = true /\
  (exists owner,
      namespaces w !! ("project-" +:+ name) =
      Some (corev1.mkNamespace ("project-" +:+ name) (managed_labels p) owner)) /\
  (forall m, m ∈ Members (Spec p) -> settled name ("project-" +:+ name) w m) /\
  Namespace (Status p) = "project-" +:+ name /\
  Phase (Status p) = "Active" /\
  (exists now conditions,
      Conditions (Status p) =
      metav1.SetStatusCondition now conditions
        (project_ready (metav1.Generation (ObjectMeta p)))).

(** Such a store is a fixed point of [Reconcile]. *)
Lemma Reconcile_reconciled (name : string) (w : World) (p : Project) :
  faults w = [] ->
  reconciled name w p ->
  wp (Reconcile name)
     (fun r w' =>
        r = (ctrl.Result0, None) /\
        namespaces w' = namespaces w /\
        rolebindings w' = rolebindings w /\
        projects w' = projects w) w.
Proof.
  intros Hf (Hp & Hname & Hns & Hdel & Hfin & [owner Hnamespace] & Hsettled &
             Hsns & Hphase & (now & conditions & Hconds)).
  destruct p as [[n ns g d fs a] spec [sn sp vc lc sc conds]].
  unfold managed_labels in Hnamespace.
  cbn [ObjectMeta Spec Status metav1.Name metav1.Namespace metav1.Generation
       metav1.DeletionTimestamp Namespace Phase Conditions Name] in *.
  subst n ns sn sp conds.
  unfold Reconcile. wp_step. unfold client.GetProject. wp_step; [no_fault Hf|].
  unfold metav1.ContainsFinalizer in *. world_simpl.
  rewrite Hdel, Hfin. cbn [negb].
  wp_step. unfold reconcileNamespace, SetControllerReference, managed_labels.
  world_simpl. change (negb (String.eqb "" "")) with false. cbv iota.
  wp_step. unfold client.GetNamespace. wp_step; [no_fault Hf|].
  wp_step. unfold client.UpdateNamespace. wp_step; [no_fault Hf|].
  wp_step. wp_step. unfold reconcileRBAC. world_simpl.
  eapply wp_mono; [|apply reconcileMembers_settled].
  - intros err w' (-> & Hf' & Hrbs & Hnss & Hps). world_simpl.
    assert (Hp' : projects w' !! name = Some
                    (mkProject (metav1.mkObjectMeta name "" g d fs a) spec
                       (mkProjectStatus ("project-" +:+ name) "Active" vc lc sc
                          (metav1.SetStatusCondition now conditions (project_ready g)))))
      by (rewrite Hps; exact Hp).
    wp_step. wp_step. wp_step. unfold client.StatusUpdateProject. world_simpl.
    wp_step; [no_fault Hf'|].
    wp_step. unfold set_Conditions, set_Phase, set_Namespace. world_simpl.
    change (metav1.mkCondition "Ready" metav1.ConditionTrue g 0 "ProjectReady"
              "Project is ready") with (project_ready g).
    rewrite SetStatusCondition_twice.
    split; [reflexivity|]. split; [|split].
    + rewrite Hnss. by apply insert_id.
    + exact Hrbs.
    + rewrite insert_id by exact Hp'. exact Hps.
  - world_simpl. by rewrite Hf.
  - intros m Hm. destruct (Hsettled m Hm) as [labels Hrb]. by exists labels.
Qed.

(** X17. Reconciling a project twice.  When the reconcile of a claimed
    project succeeds on a store that serves every call, a second
    reconcile right after it succeeds too and leaves the project, status
    and conditions included, the namespaces and the role bindings as the
    first one left them. *)
Theorem Reconcile_project_twice (name : string) (w : World) (p : Project) :
  projects w !! name = Some p ->
  metav1.IsZero (metav1.DeletionTimestamp (ObjectMeta p)) = true ->
  metav1.ContainsFinalizer (ObjectMeta p) projectFinalizer = true ->
  faults w = [] ->
  let once := Reconcile name w in
  let twice := Reconcile name (snd once) in
  snd (fst once) = None ->
  fst twice = (ctrl.Result0, None) /\
  namespaces (snd twice) = namespaces (snd once) /\
  rolebindings (snd twice) = rolebindings (snd once) /\
  projects (snd twice) = projects (snd once).
Proof.
  intros Hp Hdel Hfin Hf.
  wp_start (Reconcile name) w.
  assert (Hsecond : forall w1 p1,
             faults w1 = [] -> reconciled name w1 p1 ->
             fst (Reconcile name w1) = (ctrl.Result0, None) /\
             namespaces (snd (Reconcile name w1)) = namespaces w1 /\
             rolebindings (snd (Reconcile name w1)) = rolebindings w1 /\
             projects (snd (Reconcile name w1)) = projects w1).
  { intros w1 p1 Hf1 Hrec. exact (Reconcile_reconciled name w1 p1 Hf1 Hrec). }
  unfold Reconcile at 1. wp_step. unfold client.GetProject. wp_step; [no_fault Hf|].
  unfold metav1.ContainsFinalizer in *. world_simpl.
  rewrite Hdel, Hfin. cbn [negb].
  wp_step. unfold reconcileNamespace, SetControllerReference. world_simpl.
  change (negb (String.eqb "" "")) with false. cbv iota.
  wp_step. unfold client.GetNamespace. wp_step; [no_fault Hf| |].
  - wp_step. unfold client.UpdateNamespace. wp_step; [no_fault Hf|].
    wp_step. wp_step. unfold reconcileRBAC. world_simpl.
    eapply wp_mono; [|apply (reconcileMembers_settles _ _ [])].
    + intros err w' (Hf' & Hnss & Hps & Hall). world_simpl.
      assert (Hp' : projects w' !! name = Some p) by (rewrite Hps; exact Hp).
      destruct err as [e|].
      { wp_step. unfold updateStatus. wp_step. wp_step. wp_step.
        unfold client.StatusUpdateProject. wp_step; wp_step; wp_step; discriminate. }
      specialize (Hall eq_refl).
      wp_step. wp_step. wp_step. unfold client.StatusUpdateProject. world_simpl.
      wp_step; [no_fault Hf'|].
      wp_step. intros _. eapply Hsecond; [world_simpl; by rewrite Hf'|].
      unfold reconciled. world_simpl. rewrite lookup_insert_eq.
      split; [reflexivity|]. cbn [ObjectMeta Spec Status]. world_simpl.
      split; [reflexivity|]. split; [reflexivity|]. split; [exact Hdel|].
      split; [exact Hfin|]. split.
      { eexists. rewrite Hnss. unfold managed_labels. world_simpl.
        apply lookup_insert_eq. }
      split; [exact Hall|]. split; [reflexivity|]. split; [reflexivity|].
      by eexists _, _.
    + world_simpl. by rewrite Hf.
    + intros m Hm. by apply elem_of_nil in Hm.
  - rewrite NotFound_IsNotFound. wp_step. unfold client.CreateNamespace.
    wp_step; [no_fault Hf|].
    wp_step. wp_step. unfold reconcileRBAC. world_simpl.
    eapply wp_mono; [|apply (reconcileMembers_settles _ _ [])].
    + intros err w' (Hf' & Hnss & Hps & Hall). world_simpl.
      assert (Hp' : projects w' !! name = Some p) by (rewrite Hps; exact Hp).
      destruct err as [e|].
      { wp_step. unfold updateStatus. wp_step. wp_step. wp_step.
        unfold client.StatusUpdateProject. wp_step; wp_step; wp_step; discriminate. }
      specialize (Hall eq_refl).
      wp_step. wp_step. wp_step. unfold client.StatusUpdateProject. world_simpl.
      wp_step; [no_fault Hf'|].
      wp_step. intros _. eapply Hsecond; [world_simpl; by rewrite Hf'|].
      unfold reconciled. world_simpl. rewrite lookup_insert_eq.
      split; [reflexivity|]. cbn [ObjectMeta Spec Status]. world_simpl.
      split; [reflexivity|]. split; [reflexivity|]. split; [exact Hdel|].
      split; [exact Hfin|]. split.
      { eexists. rewrite Hnss. unfold managed_labels. world_simpl.
        apply lookup_insert_eq. }
      split; [exact Hall|]. split; [reflexivity|]. split; [reflexivity|].
      by eexists _, _.
    + world_simpl. by rewrite Hf.
    + intros m Hm. by apply elem_of_nil in Hm.
Qed.

(** A cluster that holds a claimed project with two members and nothing
    else. *)
Definition team_project : Project :=
  mkProject (metav1.mkObjectMeta "demo" "" 1 None [projectFinalizer] ∅)
    (mkProjectSpec "" [mkProjectMember "alice" "owner"; mkProjectMember "bob" "viewer"]
       None)
    (mkProjectStatus "" "" 0 0 0 []).

Definition team_world : World :=
  mkWorld ∅ ∅ ∅ {["demo" := team_project]} ∅ ∅ 100 [] [].

Lemma Reconcile_project_twice_team :
  let once := Reconcile "demo" team_world in
  let twice := Reconcile "demo" (snd once) in
  fst once = (ctrl.Result0, None) /\
  fst twice = (ctrl.Result0, None) /\
  namespaces (snd twice) = namespaces (snd once) /\
  rolebindings (snd twice) = rolebindings (snd once) /\
  projects (snd twice) = projects (snd once).
Proof.
  split; [vm_compute; reflexivity|].
  apply (Reconcile_project_twice "demo" team_world team_project);
    vm_compute; reflexivity.
Defined.

End project_twice.

Section members_bound.

Import project_types.
Import ProjectReconciler.

(** X18. When [reconcileRBAC] succeeds on a store that serves every call,
    the store holds, for every declared member, the role binding named
    after the project and the user, in the namespace of the project,
    whose only subject is that user and whose role is the cluster role of
    the declared role. *)
Theorem reconcileRBAC_binds_members (project : Project) (namespace : string)
    (w : World) :
  faults w = [] ->
  let out := reconcileRBAC project namespace w in
  fst out = None ->
  forall member, member ∈ Members (Spec project) ->
    exists rb,
      rolebindings (snd out) !! (namespace, Name project +:+ "-" +:+ Username member)
        = Some rb /\
      rbacv1.Name rb = Name project +:+ "-" +:+ Username member /\
      rbacv1.Namespace rb = namespace /\
      rbacv1.Subjects rb = [rbacv1.mkSubject "User" (Username member)] /\
      rbacv1.RoleRef_ rb =
        rbacv1.mkRoleRef "rbac.authorization.k8s.io" "ClusterRole"
          (getRoleForMember (Role member)).
Proof.
  intros Hf. cbv zeta.
  pose proof (reconcileMembers_settles project namespace [] (Members (Spec project)) w Hf)
    as (_ & _ & _ & Hall).
  { intros m Hm. by apply elem_of_nil in Hm. }
  intros Herr member Hm.
  destruct (Hall Herr member Hm) as [labels Hrb].
  eexists. split; [exact Hrb|]. by repeat split.
Qed.

Lemma reconcileRBAC_binds_team :
  let project :=
    mkProject (metav1.mkObjectMeta "demo" "" 1 None [projectFinalizer] ∅)
      (mkProjectSpec "" [mkProjectMember "alice" "owner"; mkProjectMember "bob" "viewer"]
         None)
      (mkProjectStatus "" "" 0 0 0 []) in
  let w :=
    mkWorld ∅ ∅ ∅ {["demo" := project]}
      {["project-demo" :=
          corev1.mkNamespace "project-demo" (managed_labels project) (Some "demo")]}
      ∅ 100 [] [] in
  let out := reconcileRBAC project "project-demo" w in
  fst out = None /\
  forall member, member ∈ Members (Spec project) ->
    exists rb,
      rolebindings (snd out) !! ("project-demo", Name project +:+ "-" +:+ Username member)
        = Some rb /\
      rbacv1.Name rb = Name project +:+ "-" +:+ Username member /\
      rbacv1.Namespace rb = "project-demo" /\
      rbacv1.Subjects rb = [rbacv1.mkSubject "User" (Username member)] /\
      rbacv1.RoleRef_ rb =
        rbacv1.mkRoleRef "rbac.authorization.k8s.io" "ClusterRole"
          (getRoleForMember (Role member)).
Proof.
  cbv zeta. split; [vm_compute; reflexivity|].
  apply (reconcileRBAC_binds_members
           (mkProject (metav1.mkObjectMeta "demo" "" 1 None [projectFinalizer] ∅)
              (mkProjectSpec ""
                 [mkProjectMember "alice" "owner"; mkProjectMember "bob" "viewer"] None)
              (mkProjectStatus "" "" 0 0 0 []))
           "project-demo").
  - reflexivity.
  - vm_compute. reflexivity.
Defined.

End members_bound.

(** ** The segments of a URL path *)

Section split_path.

Import Server.

Fixpoint has_slash (s : string) : bool :=
  match s with
  | EmptyString => false
  | String a s' => Ascii.eqb a "/"%char || has_slash s'
  end.

(** Bytes that [splitPath] copies as they are: ASCII, and no slash. *)
Definition plain_byte (a : ascii) : bool :=
  negb (Ascii.eqb a "/"%char) && Nat.ltb (nat_of_ascii a) 128.

Definition plain (s : string) : bool := forallb plain_byte (list_ascii_of_string s).

Lemma splitPath_step_nil (p : ascii) :
  splitPath_step [] p = if Ascii.eqb p "/"%char then [] else [byte_string p].
Proof. unfold splitPath_step. by destruct (Ascii.eqb p "/"%char). Qed.

Lemma splitPath_step_snoc (init : list string) (cur : string) (p : ascii) :
  splitPath_step (init ++ [cur]) p =
  if Ascii.eqb p "/"%char
  then (if String.eqb cur "" then init ++ [cur] else init ++ [cur; ""])%list
  else (init ++ [cur +:+ byte_string p])%list.
Proof.
  unfold splitPath_step. rewrite length_app. cbn [length].
  replace (length init + 1 - 1)%nat with (length init + 0)%nat by lia.
  destruct (Nat.eqb_spec (length init + 1) 0); [lia|].
  destruct (Nat.ltb_spec 0 (length init + 1)); [|lia].
  rewrite lookup_app_r by lia.
  replace (length init + 0 - length init)%nat with 0%nat by lia.
  cbn [lookup list_lookup negb andb].
  destruct (Ascii.eqb p "/"%char); cbn [negb].
  - destruct (String.eqb cur ""); cbn [negb]; [reflexivity|].
    by rewrite <- app_assoc.
  - by rewrite alter_app_r.
Qed.

Lemma byte_string_no_slash (p : ascii) :
  Ascii.eqb p "/"%char = false -> has_slash (byte_string p) = false.
Proof. destruct p as [[] [] [] [] [] [] [] []]; vm_compute; congruence. Qed.

Lemma byte_string_not_empty (p : ascii) : byte_string p <> "".
Proof. unfold byte_string. by destruct (Nat.ltb _ _). Qed.

Lemma byte_string_plain (p : ascii) :
  plain_byte p = true -> byte_string p = String p "".
Proof.
  unfold plain_byte, byte_string. intros [_ H]%andb_true_iff. by rewrite H.
Qed.

Lemma has_slash_append (s t : string) :
  has_slash (s +:+ t) = has_slash s || has_slash t.
Proof.
  induction s as [|a s IH]; [reflexivity|].
  change (has_slash (String a (s +:+ t)) = has_slash (String a s) || has_slash t).
  cbn [has_slash]. rewrite IH. by rewrite orb_assoc.
Qed.

(** What the loop keeps true of the segments it has so far. *)
Definition segments_ok (parts : list string) : Prop :=
  Forall (fun s => has_slash s = false) parts /\
  forall init cur, parts = (init ++ [cur])%list -> Forall (fun s => s <> "") init.

Lemma segments_ok_step (parts : list string) (p : ascii) :
  segments_ok parts -> segments_ok (splitPath_step parts p).
Proof.
  intros [Hslash Hempty].
  destruct parts as [|x l _] using rev_ind.
  - rewrite splitPath_step_nil. destruct (Ascii.eqb p "/"%char) eqn:E.
    + split; [constructor|]. intros init cur H. by destruct init.
    + split; [repeat constructor; by apply byte_string_no_slash|].
      intros init cur H. destruct init as [|? [|? ?]]; [constructor|discriminate..].
  - rewrite splitPath_step_snoc.
    apply Forall_app in Hslash as [Hl Hx]. rewrite Forall_singleton in Hx.
    specialize (Hempty l x eq_refl).
    destruct (Ascii.eqb p "/"%char) eqn:E; [destruct (String.eqb_spec x "")|].
    + split; [apply Forall_app; split; [exact Hl|by repeat constructor]|].
      intros init cur [-> _]%app_inj_tail. exact Hempty.
    + split; [apply Forall_app; split; [exact Hl|by repeat constructor]|].
      intros init cur H.
      change (l ++ [x; ""])%list with (l ++ [x] ++ [""])%list in H.
      rewrite app_assoc in H. apply app_inj_tail in H as [<- _].
      apply Forall_app. split; [exact Hempty|by constructor].
    + split.
      * apply Forall_app. split; [exact Hl|]. constructor; [|constructor].
        rewrite has_slash_append, Hx. by apply byte_string_no_slash.
      * intros init cur [-> _]%app_inj_tail. exact Hempty.
Qed.

(** X19. The segments [splitPath] returns: none of them holds a slash,
    and none but the last is empty, whatever the path, so leading and
    repeated slashes give no segment, and a slash at the end gives one
    empty segment. *)
Theorem splitPath_segments (path : string) :
  Forall (fun s => has_slash s = false) (splitPath path) /\
  (forall i s, splitPath path !! i = Some s -> s = "" ->
               S i = length (splitPath path)).
Proof.
  assert (Hok : segments_ok (splitPath path)).
  { unfold splitPath.
    assert (Hnil : segments_ok []).
    { split; [constructor|]. intros init cur H. by destruct init. }
    revert Hnil. generalize (@nil string) as parts.
    induction (list_ascii_of_string path) as [|p l IH]; intros parts Hparts;
      [exact Hparts|].
    cbn [fold_left]. apply IH. by apply segments_ok_step. }
  destruct Hok as [Hslash Hempty]. split; [exact Hslash|].
  intros i s Hi ->.
  destruct (splitPath path) as [|x l _] using rev_ind; [discriminate|].
  specialize (Hempty l x eq_refl). rewrite length_app. cbn [length].
  destruct (decide (i < length l)%nat) as [Hlt|Hge].
  - rewrite lookup_app_l in Hi by exact Hlt.
    rewrite Forall_forall in Hempty. destruct (Hempty ""); [|reflexivity].
    by eapply list_elem_of_lookup_2.
  - apply lookup_lt_Some in Hi. rewrite length_app in Hi. cbn [length] in Hi. lia.
Qed.

Lemma list_ascii_of_string_append (s t : string) :
  list_ascii_of_string (s +:+ t) =
  (list_ascii_of_string s ++ list_ascii_of_string t)%list.
Proof.
  induction s as [|a s IH]; [reflexivity|].
  change (a :: list_ascii_of_string (s +:+ t) =
          a :: (list_ascii_of_string s ++ list_ascii_of_string t)%list).
  by rewrite IH.
Qed.

Lemma string_append_snoc (cur : string) (a : ascii) (s : string) :
  (cur +:+ String a "") +:+ s = cur +:+ String a s.
Proof.
  induction cur as [|b cur IH]; [reflexivity|].
  change (String b ((cur +:+ String a "") +:+ s) = String b (cur +:+ String a s)).
  by rewrite IH.
Qed.

Lemma string_append_empty (s : string) : s +:+ "" = s.
Proof.
  induction s as [|a s IH]; [reflexivity|].
  change (String a (s +:+ "") = String a s). by rewrite IH.
Qed.

Lemma string_append_not_empty (s t : string) : t <> "" -> s +:+ t <> "".
Proof. intros Ht. destruct s; [exact Ht|discriminate]. Qed.

(** The bytes of a plain string are added to the last segment. *)
Lemma fold_plain (s : string) (init : list string) (cur : string) :
  plain s = true ->
  fold_left splitPath_step (list_ascii_of_string s) (init ++ [cur])%list =
  (init ++ [cur +:+ s])%list.
Proof.
  revert cur. induction s as [|a s IH]; intros cur Hs.
  - cbn [list_ascii_of_string fold_left]. by rewrite string_append_empty.
  - unfold plain in Hs. cbn [list_ascii_of_string forallb] in Hs.
    apply andb_true_iff in Hs as [Ha Hs].
    cbn [list_ascii_of_string fold_left]. rewrite splitPath_step_snoc.
    rewrite (byte_string_plain a Ha).
    unfold plain_byte in Ha. apply andb_true_iff in Ha as [Ha _].
    apply negb_true_iff in Ha. rewrite Ha.
    rewrite (IH _ Hs). by rewrite string_append_snoc.
Qed.

Lemma fold_segments (rest : list string) (s : string) (init : list string)
    (cur : string) :
  plain s = true -> cur +:+ s <> "" ->
  Forall (fun t => plain t = true /\ t <> "") rest ->
  fold_left splitPath_step (list_ascii_of_string (Join (s :: rest) "/"))
    (init ++ [cur])%list =
  (init ++ [cur +:+ s] ++ rest)%list.
Proof.
  revert s init cur. induction rest as [|s' rest IH]; intros s init cur Hs Hne Hrest.
  - cbn [Join]. by apply fold_plain.
  - apply Forall_cons in Hrest as [[Hs' Hne'] Hrest].
    change (Join (s :: s' :: rest) "/") with (s +:+ "/" +:+ Join (s' :: rest) "/").
    rewrite list_ascii_of_string_append, fold_left_app, (fold_plain s init cur Hs).
    change (list_ascii_of_string ("/" +:+ Join (s' :: rest) "/"))
      with ("/"%char :: list_ascii_of_string (Join (s' :: rest) "/")).
    cbn [fold_left]. rewrite splitPath_step_snoc.
    change (Ascii.eqb "/" "/") with true. cbv iota.
    destruct (String.eqb_spec (cur +:+ s) ""); [contradiction|].
    change (init ++ [cur +:+ s; ""])%list with (init ++ [cur +:+ s] ++ [""])%list.
    rewrite app_assoc. rewrite (IH s' _ "" Hs'); [|exact Hne'|exact Hrest].
    by rewrite <- !app_assoc.
Qed.

(** Splitting a join of plain segments. *)
Lemma splitPath_of_Join (segments : list string) :
  Forall (fun s => plain s = true /\ s <> "") segments ->
  splitPath (Join segments "/") = segments.
Proof.
  intros Hall. destruct segments as [|s rest]; [reflexivity|].
  apply Forall_cons in Hall as [[Hs Hne] Hrest].
  destruct s as [|a s]; [contradiction|].
  unfold plain in Hs. cbn [list_ascii_of_string forallb] in Hs.
  apply andb_true_iff in Hs as [Ha Hs].
  assert (Hjoin : Join (String a s :: rest) "/" = String a (Join (s :: rest) "/")).
  { destruct rest; reflexivity. }
  rewrite Hjoin. unfold splitPath. cbn [list_ascii_of_string fold_left].
  rewrite splitPath_step_nil, (byte_string_plain a Ha).
  pose proof Ha as Ha'. unfold plain_byte in Ha'.
  apply andb_true_iff in Ha' as [Ha' _]. apply negb_true_iff in Ha'. rewrite Ha'.
  pose proof (fold_segments rest s [] (String a "") Hs ltac:(discriminate) Hrest)
    as Hfold.
  cbn [app] in Hfold. rewrite Hfold. reflexivity.
Qed.

(** X20. [splitPath] gives back the segments a path was joined from:
    for segments that are not empty and hold only ASCII bytes other than
    the slash, splitting their join with slashes returns them, with or
    without a slash in front; with a slash at the end, an empty segment
    follows them. *)
Theorem splitPath_Join (segments : list string) :
  Forall (fun s => plain s = true /\ s <> "") segments ->
  splitPath (Join segments "/") = segments /\
  splitPath ("/" +:+ Join segments "/") = segments /\
  (segments <> [] -> splitPath (Join segments "/" +:+ "/") = (segments ++ [""])%list).
Proof.
  intros Hall.
  pose proof (splitPath_of_Join segments Hall) as Hsplit. unfold splitPath in Hsplit.
  split; [exact Hsplit|]. split.
  - unfold splitPath.
    change (list_ascii_of_string ("/" +:+ Join segments "/"))
      with ("/"%char :: list_ascii_of_string (Join segments "/")).
    exact Hsplit.
  - intros Hne. unfold splitPath.
    rewrite list_ascii_of_string_append, fold_left_app, Hsplit.
    destruct segments as [|x l _] using rev_ind; [contradiction|].
    cbn [list_ascii_of_string fold_left]. rewrite splitPath_step_snoc.
    change (Ascii.eqb "/" "/") with true. cbv iota.
    apply Forall_app in Hall as [_ Hx]. rewrite Forall_singleton in Hx.
    destruct Hx as [_ Hx].
    destruct (String.eqb_spec x ""); [contradiction|]. by rewrite <- app_assoc.
Qed.

Lemma splitPath_Join_actions :
  splitPath (Join ["default"; "vm1"; "reboot"] "/") = ["default"; "vm1"; "reboot"] /\
  splitPath ("/" +:+ Join ["default"; "vm1"; "reboot"] "/") =
    ["default"; "vm1"; "reboot"] /\
  (["default"; "vm1"; "reboot"] <> [] ->
   splitPath (Join ["default"; "vm1"; "reboot"] "/" +:+ "/") =
     (["default"; "vm1"; "reboot"] ++ [""])%list).
Proof.
  apply (splitPath_Join ["default"; "vm1"; "reboot"]).
  repeat constructor; discriminate.
Defined.

End split_path.

Section split_bytes.

Import Server.

(** The segments put together. *)
Definition joined (parts : list string) : string := fold_right String.append "" parts.

(** What [splitPath] keeps of the bytes of a path: the slashes are
    dropped, every other byte goes through [string(p)]. *)
Definition kept_bytes (bytes : list ascii) : list string :=
  map byte_string (List.filter (fun a => negb (Ascii.eqb a "/"%char)) bytes).

Lemma joined_app (l1 l2 : list string) :
  joined (l1 ++ l2) = joined l1 +:+ joined l2.
Proof.
  induction l1 as [|s l1 IH]; [reflexivity|].
  cbn [app joined fold_right]. fold (joined (l1 ++ l2)) (joined l1).
  by rewrite IH, string_append_assoc.
Qed.

Lemma joined_step (parts : list string) (p : ascii) :
  joined (splitPath_step parts p) =
  joined parts +:+ (if Ascii.eqb p "/"%char then "" else byte_string p).
Proof.
  destruct parts as [|cur init _] using rev_ind.
  - rewrite splitPath_step_nil. destruct (Ascii.eqb p "/"%char); [reflexivity|].
    cbn [joined fold_right]. by rewrite string_append_empty.
  - rewrite splitPath_step_snoc.
    destruct (Ascii.eqb p "/"%char); [destruct (String.eqb cur "")|].
    + by rewrite string_append_empty.
    + rewrite string_append_empty.
      change (init ++ [cur; ""])%list with (init ++ [cur] ++ [""])%list.
      rewrite app_assoc, (joined_app (init ++ [cur])). cbn [joined fold_right].
      by rewrite string_append_empty.
    + rewrite !joined_app. cbn [joined fold_right].
      by rewrite !string_append_empty, string_append_assoc.
Qed.

(** X21. Put together, the segments [splitPath] returns are the bytes of
    the path other than slashes, in their order, each passed through
    [string(p)]: a byte below 128 is copied, a byte from 128 on comes
    back as the two bytes of its UTF-8 encoding.  A path of ASCII bytes
    loses only its slashes; any other path has its segments changed. *)
Theorem splitPath_bytes (path : string) :
  joined (splitPath path) = joined (kept_bytes (list_ascii_of_string path)) /\
  (forall p, (128 <= nat_of_ascii p)%nat ->
             exists a b, splitPath (String p "") = [String a (String b "")]).
Proof.
  split.
  - unfold splitPath.
    change (joined (kept_bytes (list_ascii_of_string path)))
      with (joined [] +:+ joined (kept_bytes (list_ascii_of_string path))).
    generalize (@nil string) as parts.
    induction (list_ascii_of_string path) as [|p l IH]; intros parts.
    + cbn [fold_left]. unfold kept_bytes. cbn [List.filter map joined fold_right].
      by rewrite string_append_empty.
    + cbn [fold_left]. rewrite IH, joined_step. unfold kept_bytes.
      cbn [List.filter]. destruct (Ascii.eqb p "/"%char); cbn [negb].
      * by rewrite string_append_empty.
      * cbn [map joined fold_right]. by rewrite string_append_assoc.
  - intros p Hp. unfold splitPath. cbn [list_ascii_of_string fold_left].
    rewrite splitPath_step_nil.
    destruct (Ascii.eqb_spec p "/"%char) as [->|_]; [vm_compute in Hp; lia|].
    unfold byte_string. destruct (Nat.ltb_spec (nat_of_ascii p) 128); [lia|].
    by eexists _, _.
Qed.

End split_bytes.

(** ** VM actions, from the API server to the KubeVirt VM *)

Section vm_actions.

Import virtualmachine_types.
Import VirtualMachineReconciler.
Import Server.

(** The part of the URL path after the prefix of the VM actions. *)
Lemma actions_path (rest : string) :
  Nat.ltb (String.length (actions_prefix +:+ rest)) (String.length actions_prefix) = false /\
  substring (String.length actions_prefix)
    (String.length (actions_prefix +:+ rest) - String.length actions_prefix)
    (actions_prefix +:+ rest) = rest.
Proof.
  rewrite string_length_append. split; [apply Nat.ltb_ge; lia|].
  replace (String.length actions_prefix + String.length rest -
           String.length actions_prefix)%nat with (String.length rest) by lia.
  apply substring_suffix.
Qed.

(** X22. What [handleVMActions] never does.  A request that is not a
    POST is answered 405 without a call to the store.  The resource is
    updated only for a POST whose third path segment is start, stop or
    reboot, and then the resource named by the first two segments; when
    no update is served the resources are as before; and no KubeVirt
    object is ever touched by the handler. *)
Theorem handleVMActions_writes (method path : string) (w : World) :
  let out := handleVMActions method path w in
  (method <> "POST" -> out = (HttpError "Method not allowed" 405, w)) /\
  (forall vm answer,
      (Update_VirtualMachine vm, answer) ∈ served_since w (snd out) ->
      method = "POST" /\
      exists namespace name action rest,
        splitPath (substring (String.length actions_prefix)
                     (String.length path - String.length actions_prefix) path) =
          namespace :: name :: action :: rest /\
        (action = "start" \/ action = "stop" \/ action = "reboot") /\
        Namespace vm = namespace /\ Name vm = name) /\
  ((forall vm, (Update_VirtualMachine vm, None) ∉ served_since w (snd out)) ->
   virtualmachines (snd out) = virtualmachines w) /\
  kubevirt_vms (snd out) = kubevirt_vms w /\
  kubevirt_vmis (snd out) = kubevirt_vmis w.
Proof.
  cbv zeta. unfold handleVMActions.
  destruct (String.eqb_spec method "POST") as [->|Hmethod]; cbn [negb].
  2:{ split; [reflexivity|]. unfold ret, served_since. cbn [fst snd].
      rewrite drop_all. split; [|by split].
      intros vm answer Hin. by apply elem_of_nil in Hin. }
  split; [by intros H|].
  destruct (Nat.ltb (String.length path) (String.length actions_prefix)).
  { unfold ret, served_since. cbn [fst snd]. rewrite drop_all.
    split; [|by split]. intros vm answer Hin. by apply elem_of_nil in Hin. }
  destruct (splitPath _) as [|namespace [|name [|action rest]]] eqn:Hparts;
    try (unfold ret, served_since; cbn [fst snd]; rewrite drop_all;
         split; [|by split]; intros vm answer Hin; by apply elem_of_nil in Hin).
  match goal with
  | |- context [snd (?m w)] => wp_start m w
  end.
  wp_step. unfold client.Get. wp_step.
  - wp_step. explicit_log w. split; [|by split].
    intros vm answer Hin. log_cases Hin.
  - destruct (String.eqb_spec action "start") as [->|Hstart];
      [|destruct (String.eqb_spec action "stop") as [->|Hstop];
        [|destruct (String.eqb_spec action "reboot") as [->|Hreboot]]].
    4:{ wp_step. explicit_log w. split; [|by split].
        intros vm answer Hin. log_cases Hin. }
    all: wp_step; unfold client.Update; world_simpl; wp_step; wp_step;
      explicit_log w;
      (split;
       [ intros vm answer Hin; log_cases Hin; simplify_eq;
         (split; [reflexivity|]); eexists _, _, _, _;
         (split; [reflexivity|]); split; [by auto|by split]
       | split; [|by split]; intros Hnone;
         first [ reflexivity
               | exfalso; eapply Hnone; by left
               | exfalso; eapply Hnone; right; by left ] ]).
  - wp_step. explicit_log w. split; [|by split].
    intros vm answer Hin. log_cases Hin.
Qed.

End vm_actions.

Section vm_actions_reconciled.

Import virtualmachine_types.
Import VirtualMachineReconciler.
Import Server.

(** The URL path of an action on a virtual machine. *)
Definition action_path (namespace name action : string) : string :=
  actions_prefix +:+ Join [namespace; name; action] "/".

Lemma action_path_parts (namespace name action : string) :
  plain namespace = true -> namespace <> "" ->
  plain name = true -> name <> "" ->
  plain action = true -> action <> "" ->
  Nat.ltb (String.length (action_path namespace name action))
    (String.length actions_prefix) = false /\
  splitPath
    (substring (String.length actions_prefix)
       (String.length (action_path namespace name action) -
        String.length actions_prefix)
       (action_path namespace name action)) = [namespace; name; action].
Proof.
  intros Hns Hns' Hname Hname' Haction Haction'. unfold action_path.
  destruct (actions_path (Join [namespace; name; action] "/")) as [Hlen Hsub].
  split; [exact Hlen|]. rewrite Hsub.
  apply (splitPath_of_Join [namespace; name; action]). by repeat constructor.
Qed.

(** X23. A reboot asked of the API server reaches the KubeVirt VM.  For
    a claimed virtual machine whose KubeVirt VM exists, on a store that
    serves every call: the POST of the reboot action answers success and
    leaves the resource with the reboot annotation and the spec it had;
    the reconcile that follows stops and starts the KubeVirt VM, in that
    order, and then takes the annotation off the resource. *)
Theorem reboot_action_then_reconcile (namespace name : string) (w : World)
    (vm : VirtualMachine) (kv : list (string * value)) :
  plain namespace = true -> namespace <> "" ->
  plain name = true -> name <> "" ->
  virtualmachines w !! (namespace, name) = Some vm ->
  metav1.IsZero (metav1.DeletionTimestamp (ObjectMeta vm)) = true ->
  metav1.ContainsFinalizer (ObjectMeta vm) vmFinalizer = true ->
  kubevirt_vms w !! (namespace, name) = Some kv ->
  client.object_key kv = (namespace, name) ->
  (forall x, field "spec" kv = Some x -> exists m, x = VMap m) ->
  faults w = [] ->
  let api := handleVMActions "POST" (action_path namespace name "reboot") w in
  let out := Reconcile (namespace, name) (snd api) in
  fst api = WriteJSON [("status", "success"); ("action", "reboot")] /\
  (exists asked,
      virtualmachines (snd api) !! (namespace, name) = Some asked /\
      metav1.Annotations (ObjectMeta asked) !! rebootAnnotation = Some "true" /\
      Spec asked = Spec vm /\ Status asked = Status vm) /\
  exists halted always vm' rest,
    served_since (snd api) (snd out) =
      reboot_log (namespace, name) halted always vm' None rest /\
    runStrategy_of halted = Some "Halted" /\
    runStrategy_of always = Some "Always" /\
    exists stored,
      virtualmachines (snd out) !! (namespace, name) = Some stored /\
      metav1.Annotations (ObjectMeta stored) !! rebootAnnotation = None.
Proof.
  intros Hns Hns' Hname Hname' Hvm Hdel Hfin Hkv Hkey Hspec Hf. cbv zeta.
  destruct (action_path_parts namespace name "reboot" Hns Hns' Hname Hname' eq_refl
              ltac:(discriminate)) as [Hlen Hparts].
  assert (Hapi :
            fst (handleVMActions "POST" (action_path namespace name "reboot") w) =
              WriteJSON [("status", "success"); ("action", "reboot")] /\
            faults (snd (handleVMActions "POST" (action_path namespace name "reboot") w)) = [] /\
            kubevirt_vms (snd (handleVMActions "POST" (action_path namespace name "reboot") w)) =
              kubevirt_vms w /\
            exists asked,
              virtualmachines (snd (handleVMActions "POST" (action_path namespace name "reboot") w))
                !! (namespace, name) = Some asked /\
              metav1.Annotations (ObjectMeta asked) !! rebootAnnotation = Some "true" /\
              metav1.IsZero (metav1.DeletionTimestamp (ObjectMeta asked)) = true /\
              metav1.ContainsFinalizer (ObjectMeta asked) vmFinalizer = true /\
              Spec asked = Spec vm /\ Status asked = Status vm).
  { unfold handleVMActions. cbn [String.eqb Ascii.eqb Bool.eqb negb].
    rewrite Hlen, Hparts.
    match goal with
    | |- context [snd (?m w)] => wp_start m w
    end.
    wp_step. unfold client.Get. wp_step; [no_fault Hf|].
    cbn [String.eqb Ascii.eqb Bool.eqb].
    wp_step. unfold client.Update. world_simpl.
    wp_step; try (no_fault Hf);
      try (exfalso; unfold client.released in *; world_simpl; rewrite Hdel in *;
           discriminate).
    wp_step. world_simpl. rewrite Hf.
    split; [reflexivity|]. split; [reflexivity|]. split; [reflexivity|].
    eexists. split; [apply lookup_insert_eq|]. world_simpl.
    split; [apply lookup_insert_eq|]. by repeat split. }
  destruct Hapi as (Hanswer & Hf' & Hkvs & asked & Hasked & Hann & Hdel' & Hfin' &
                    Hspec' & Hstatus').
  split; [exact Hanswer|]. split; [by exists asked|].
  apply (reboot_performed (namespace, name) _ asked kv); try done.
  by rewrite Hkvs.
Qed.

(** A cluster that holds a running virtual machine and its KubeVirt VM. *)
Definition serving_world : World :=
  mkWorld {[("default", "vm1") := running_vm]}
    {[("default", "vm1") := buildKubeVirtVM running_vm]} ∅ ∅ ∅ ∅ 100 [] [].

Lemma reboot_action_then_reconcile_running_vm :
  let api := handleVMActions "POST" (action_path "default" "vm1" "reboot")
               serving_world in
  let out := Reconcile ("default", "vm1") (snd api) in
  fst api = WriteJSON [("status", "success"); ("action", "reboot")] /\
  (exists asked,
      virtualmachines (snd api) !! ("default", "vm1") = Some asked /\
      metav1.Annotations (ObjectMeta asked) !! rebootAnnotation = Some "true" /\
      Spec asked = Spec running_vm /\ Status asked = Status running_vm) /\
  exists halted always vm' rest,
    served_since (snd api) (snd out) =
      reboot_log ("default", "vm1") halted always vm' None rest /\
    runStrategy_of halted = Some "Halted" /\
    runStrategy_of always = Some "Always" /\
    exists stored,
      virtualmachines (snd out) !! ("default", "vm1") = Some stored /\
      metav1.Annotations (ObjectMeta stored) !! rebootAnnotation = None.
Proof.
  apply (reboot_action_then_reconcile "default" "vm1" serving_world running_vm
           (buildKubeVirtVM running_vm)); try reflexivity; try discriminate.
  intros x [= <-]. by eexists.
Defined.

(** The run strategy an action of the API server asks for. *)
Definition action_strategy (action : string) : option string :=
  if String.eqb action "start" then Some "Always"
  else if String.eqb action "stop" then Some "Halted"
  else None.

(** X24. A start or stop asked of the API server reaches the KubeVirt
    VM.  For a claimed virtual machine without a pending reboot, on a
    store that serves every call: the POST of the action answers success
    and writes the run strategy, "Always" for start and "Halted" for stop,
    into the spec of the resource, leaving the rest of the spec alone;
    the reconcile that follows succeeds and leaves the KubeVirt VM with
    that run strategy, whether it existed before or not. *)
Theorem run_action_then_reconcile (namespace name action strategy : string)
    (w : World) (vm : VirtualMachine) :
  plain namespace = true -> namespace <> "" ->
  plain name = true -> name <> "" ->
  action_strategy action = Some strategy ->
  virtualmachines w !! (namespace, name) = Some vm ->
  metav1.IsZero (metav1.DeletionTimestamp (ObjectMeta vm)) = true ->
  metav1.ContainsFinalizer (ObjectMeta vm) vmFinalizer = true ->
  metav1.Annotations (ObjectMeta vm) !! rebootAnnotation <> Some "true" ->
  faults w = [] ->
  let api := handleVMActions "POST" (action_path namespace name action) w in
  let out := Reconcile (namespace, name) (snd api) in
  fst api = WriteJSON [("status", "success"); ("action", action)] /\
  (exists asked,
      virtualmachines (snd api) !! (namespace, name) = Some asked /\
      Spec asked = Spec (set_RunStrategy strategy vm) /\
      Status asked = Status vm) /\
  fst out = (ctrl.Result0, None) /\
  exists stored,
    kubevirt_vms (snd out) !! (namespace, name) = Some stored /\
    runStrategy_of stored = Some strategy.
Proof.
  intros Hns Hns' Hname Hname' Haction Hvm Hdel Hfin Hann Hf. cbv zeta.
  assert (Hcases : (action = "start" /\ strategy = "Always") \/
                   (action = "stop" /\ strategy = "Halted")).
  { unfold action_strategy in Haction.
    destruct (String.eqb_spec action "start"); [left; by simplify_eq|].
    destruct (String.eqb_spec action "stop"); [right; by simplify_eq|discriminate]. }
  assert (Hplain : plain action = true /\ action <> "")
    by (destruct Hcases as [[-> _]|[-> _]]; by split).
  destruct Hplain as [Hact Hact'].
  destruct (action_path_parts namespace name action Hns Hns' Hname Hname' Hact Hact')
    as [Hlen Hparts].
  set (api := handleVMActions "POST" (action_path namespace name action) w).
  assert (Hapi :
            fst api = WriteJSON [("status", "success"); ("action", action)] /\
            faults (snd api) = [] /\
            kubevirt_vms (snd api) = kubevirt_vms w /\
            exists asked,
              steady (namespace, name) (snd api) asked /\
              Spec asked = Spec (set_RunStrategy strategy vm) /\
              Status asked = Status vm).
  { subst api. unfold handleVMActions. cbn [String.eqb Ascii.eqb Bool.eqb negb].
    rewrite Hlen, Hparts.
    match goal with
    | |- context [snd (?m w)] => wp_start m w
    end.
    wp_step. unfold client.Get. wp_step; [no_fault Hf|].
    destruct Hcases as [[-> ->]|[-> ->]]; cbn [String.eqb Ascii.eqb Bool.eqb].
    all: wp_step; unfold client.Update, set_RunStrategy; world_simpl;
      (wp_step; try (no_fault Hf);
       try (exfalso; unfold client.released in *; world_simpl; rewrite Hdel in *;
            discriminate));
      wp_step; world_simpl; rewrite Hf;
      (split; [reflexivity|]; split; [reflexivity|]; split; [reflexivity|]);
      eexists;
      (split;
       [ unfold steady, metav1.ContainsFinalizer in *; world_simpl;
         rewrite lookup_insert_eq; (split; [reflexivity|]); world_simpl;
         by repeat split
       | by split ]). }
  destruct Hapi as (Hanswer & Hf' & Hkvs & asked & Hsteady & Hspec & Hstatus).
  split; [exact Hanswer|]. split.
  { exists asked. by destruct Hsteady as [Hl _]. }
  pose proof (Reconcile_steady_effect (namespace, name) (snd api) asked Hf' Hsteady)
    as (Hresult & _ & _ & Hstored & _).
  split; [exact Hresult|]. rewrite Hstored, lookup_insert_eq. eexists.
  split; [reflexivity|].
  assert (Hdesired : NestedField (VMap (buildKubeVirtVM (fetched (namespace, name) asked)))
                       ["spec"; "runStrategy"] = Some (VString strategy)).
  { unfold buildKubeVirtVM, fetched. world_simpl. rewrite Hspec.
    destruct Hcases as [[_ ->]|[_ ->]]; reflexivity. }
  unfold runStrategy_of, NestedString, applied.
  destruct (kubevirt_vms (snd api) !! (namespace, name)) as [old|].
  - rewrite <- apply_value_map.
    rewrite (apply_value_sets _ _ _ (VString strategy) (buildKubeVirtVM_wf _) Hdesired);
      [reflexivity|]. intros m. discriminate.
  - by rewrite Hdesired.
Qed.

Lemma stop_action_then_reconcile_running_vm :
  let api := handleVMActions "POST" (action_path "default" "vm1" "stop") serving_world in
  let out := Reconcile ("default", "vm1") (snd api) in
  fst api = WriteJSON [("status", "success"); ("action", "stop")] /\
  (exists asked,
      virtualmachines (snd api) !! ("default", "vm1") = Some asked /\
      Spec asked = Spec (set_RunStrategy "Halted" running_vm) /\
      Status asked = Status running_vm) /\
  fst out = (ctrl.Result0, None) /\
  exists stored,
    kubevirt_vms (snd out) !! ("default", "vm1") = Some stored /\
    runStrategy_of stored = Some "Halted".
Proof.
  apply (run_action_then_reconcile "default" "vm1" "stop" "Halted" serving_world
           running_vm); try reflexivity; discriminate.
Defined.

End vm_actions_reconciled.
